(** * plugin-swift-pm: archive exclusion, registry client and manifest editing

    A shallow embedding of the Go sources [archive.go], [registry.go] and the
    manifest helpers ([UpdateVersionConstant], [ExtractSwiftToolsVersion]),
    together with the parts of the Go standard library they call
    ([strings], [unicode/utf8], [path/filepath], [regexp], [encoding/hex]).

    Go strings are byte sequences: they are modelled by [string], whose
    characters are the 8-bit [ascii] values.  The host is a Unix system, so
    [filepath.Separator] is the byte '/'. *)

From Stdlib Require Import String Ascii List NArith ZArith Bool Lia DecimalString.
From stdpp Require Import gmap strings fin_maps.

Local Open Scope bool_scope.

(** ** Package [unicode/utf8] *)
Module Utf8.

Definition RuneError : N := 65533%N.

Definition inRange (lo hi b : N) : bool := ((lo <=? b) && (b <=? hi))%N.

(** Payload of a continuation byte. *)
Definition cont (b : N) : N := N.land b 63.

(** [utf8.DecodeRuneInString]: the first rune of [s] and its width in
    bytes; [(RuneError, 0)] on the empty string and [(RuneError, 1)] on an
    invalid or truncated encoding. *)
Definition DecodeRuneInString (s : string) : N * nat :=
  match s with
  | EmptyString => (RuneError, 0)
  | String c0 r =>
    let b0 := N_of_ascii c0 in
    if (b0 <? 128)%N then (b0, 1)
    else if (b0 <? 194)%N then (RuneError, 1)
    else if (b0 <? 224)%N then
      match r with
      | String c1 _ =>
        let b1 := N_of_ascii c1 in
        if inRange 128 191 b1
        then (N.lor (N.shiftl (N.land b0 31) 6) (cont b1), 2)
        else (RuneError, 1)
      | _ => (RuneError, 1)
      end
    else if (b0 <? 240)%N then
      match r with
      | String c1 (String c2 _) =>
        let b1 := N_of_ascii c1 in
        let b2 := N_of_ascii c2 in
        let lo := if (b0 =? 224)%N then 160%N else 128%N in
        let hi := if (b0 =? 237)%N then 159%N else 191%N in
        if inRange lo hi b1 && inRange 128 191 b2
        then (N.lor (N.shiftl (N.land b0 15) 12)
                    (N.lor (N.shiftl (cont b1) 6) (cont b2)), 3)
        else (RuneError, 1)
      | _ => (RuneError, 1)
      end
    else if (b0 <? 245)%N then
      match r with
      | String c1 (String c2 (String c3 _)) =>
        let b1 := N_of_ascii c1 in
        let b2 := N_of_ascii c2 in
        let b3 := N_of_ascii c3 in
        let lo := if (b0 =? 240)%N then 144%N else 128%N in
        let hi := if (b0 =? 244)%N then 143%N else 191%N in
        if inRange lo hi b1 && inRange 128 191 b2 && inRange 128 191 b3
        then (N.lor (N.shiftl (N.land b0 7) 18)
                    (N.lor (N.shiftl (cont b1) 12)
                           (N.lor (N.shiftl (cont b2) 6) (cont b3))), 4)
        else (RuneError, 1)
      | _ => (RuneError, 1)
      end
    else (RuneError, 1)
  end.

End Utf8.

(** ** Package [strings] (and slicing) *)
Module Strings.

(** [s[n:]] for [n <= len(s)]. *)
Fixpoint drop (n : nat) (s : string) : string :=
  match n, s with
  | S k, String _ r => drop k r
  | _, _ => s
  end.

(** [s[:n]] for [n <= len(s)]. *)
Fixpoint take (n : nat) (s : string) : string :=
  match n, s with
  | S k, String c r => String c (take k r)
  | _, _ => EmptyString
  end.

(** [strings.HasPrefix(s, prefix)]. *)
Fixpoint HasPrefix (s prefix : string) {struct prefix} : bool :=
  match prefix, s with
  | EmptyString, _ => true
  | String c p, String a r => Ascii.eqb a c && HasPrefix r p
  | String _ _, EmptyString => false
  end.

(** [strings.HasSuffix(s, suffix)]: some tail of [s] is [suffix]. *)
Fixpoint HasSuffix (s suffix : string) : bool :=
  String.eqb s suffix ||
  match s with
  | EmptyString => false
  | String _ r => HasSuffix r suffix
  end.

(** [strings.TrimSuffix(s, suffix)]. *)
Definition TrimSuffix (s suffix : string) : string :=
  if HasSuffix s suffix
  then take (String.length s - String.length suffix) s
  else s.

(** [strings.Contains(s, string(c))] for a one-byte substring. *)
Fixpoint ContainsByte (s : string) (c : ascii) : bool :=
  match s with
  | EmptyString => false
  | String a r => Ascii.eqb a c || ContainsByte r c
  end.

(** [strings.Contains(s, substr)]: [substr] starts somewhere in [s]. *)
Fixpoint Contains (s substr : string) : bool :=
  HasPrefix s substr ||
  match s with
  | EmptyString => false
  | String _ r => Contains r substr
  end.

(** [strings.Count(s, string(c))] for a one-byte substring. *)
Fixpoint CountByte (s : string) (c : ascii) : nat :=
  match s with
  | EmptyString => 0
  | String a r => (if Ascii.eqb a c then 1 else 0) + CountByte r c
  end.

(** [strings.Split(s, string(sep))] for a one-byte separator: the pieces of
    [s] between the separators; [Split("", sep)] is one empty piece. *)
Fixpoint Split (s : string) (sep : ascii) : list string :=
  match s with
  | EmptyString => [EmptyString]
  | String c r =>
    if Ascii.eqb c sep then EmptyString :: Split r sep
    else match Split r sep with
         | [] => [String c EmptyString]
         | h :: t => String c h :: t
         end
  end.

(** [strings.ReplaceAll(s, string(old), string(new))] for one-byte
    strings. *)
Fixpoint ReplaceByte (s : string) (old new : ascii) : string :=
  match s with
  | EmptyString => EmptyString
  | String c r =>
    String (if Ascii.eqb c old then new else c) (ReplaceByte r old new)
  end.

End Strings.

(** ** Package [path/filepath] (Unix)

    [Match] follows [match.go] of Go 1.16 and later, where a chunk is
    checked for its syntax also after the match has failed.  The loops of
    the package run on a string that gets shorter; they are given as
    fixpoints on a bound, the fuel, that the callers set above the length of
    that string ([matchLoop_fuel], [matchChunkLoop_fuel] and
    [classLoop_fuel] show that the bound is never reached). *)
Module Filepath.

Definition Separator : ascii := "/"%char.

(** The one error value of the package. *)
Inductive error := ErrBadPattern.

(** Body of the scanning loop of [scanChunk]: splits the pattern (leading
    stars already removed) at the first star that is outside a bracket
    expression; a backslash skips the byte after it. *)
Fixpoint scanBody (inrange : bool) (p : string) : string * string :=
  match p with
  | EmptyString => (EmptyString, EmptyString)
  | String c r =>
    if Ascii.eqb c "\"%char then
      match r with
      | EmptyString => (String c EmptyString, EmptyString)
      | String c' r' =>
        let '(chunk, rest) := scanBody inrange r' in
        (String c (String c' chunk), rest)
      end
    else if Ascii.eqb c "["%char then
      let '(chunk, rest) := scanBody true r in (String c chunk, rest)
    else if Ascii.eqb c "]"%char then
      let '(chunk, rest) := scanBody false r in (String c chunk, rest)
    else if Ascii.eqb c "*"%char then
      if inrange
      then let '(chunk, rest) := scanBody inrange r in (String c chunk, rest)
      else (EmptyString, p)
    else
      let '(chunk, rest) := scanBody inrange r in (String c chunk, rest)
  end.

(** The first loop of [scanChunk]: removes the leading stars and reports
    whether there was one. *)
Fixpoint skipStars (star : bool) (p : string) : bool * string :=
  match p with
  | String c r => if Ascii.eqb c "*"%char then skipStars true r else (star, p)
  | EmptyString => (star, p)
  end.

(** [scanChunk(pattern) (star, chunk, rest)]. *)
Definition scanChunk (pattern : string) : bool * string * string :=
  let '(star, p) := skipStars false pattern in
  let '(chunk, rest) := scanBody false p in
  (star, chunk, rest).

(** [getEsc(chunk) (r, nchunk, err)]: a possibly escaped rune of a bracket
    expression; [None] stands for [err = ErrBadPattern]. *)
Definition getEsc (chunk : string) : option (N * string) :=
  match chunk with
  | EmptyString => None
  | String c r =>
    if Ascii.eqb c "-"%char || Ascii.eqb c "]"%char then None
    else
      let chunk1 := if Ascii.eqb c "\"%char then r else chunk in
      match chunk1 with
      | EmptyString => None
      | _ =>
        let '(rn, n) := Utf8.DecodeRuneInString chunk1 in
        let nchunk := Strings.drop n chunk1 in
        if (N.eqb rn Utf8.RuneError && Nat.eqb n 1) then None
        else match nchunk with
             | EmptyString => None
             | _ => Some (rn, nchunk)
             end
      end
  end.

(** [len(s) > 0 && s[0] == c]. *)
Definition headIs (s : string) (c : ascii) : bool :=
  match s with
  | String a _ => Ascii.eqb a c
  | EmptyString => false
  end.

(** The range-parsing loop of a bracket expression in [matchChunk]:
    [r] is the rune under test, [found] the [match] flag, [nrange] the
    number of ranges read.  Returns the chunk after the closing bracket and
    the flag, or [None] for [ErrBadPattern].  Every round consumes at least
    one byte of the chunk, which bounds the loop by [fuel]. *)
Fixpoint classLoop (fuel : nat) (chunk : string) (r : N) (found : bool)
         (nrange : nat) : option (string * bool) :=
  match fuel with
  | O => None
  | S fuel' =>
    if headIs chunk "]"%char && negb (Nat.eqb nrange 0)
    then Some (Strings.drop 1 chunk, found)
    else
      match getEsc chunk with
      | None => None
      | Some (lo, chunk1) =>
        if headIs chunk1 "-"%char then
          match getEsc (Strings.drop 1 chunk1) with
          | None => None
          | Some (hi, chunk2) =>
            classLoop fuel' chunk2 r
                      (found || ((lo <=? r) && (r <=? hi))%N) (S nrange)
          end
        else
          classLoop fuel' chunk1 r
                    (found || ((lo <=? r) && (r <=? lo))%N) (S nrange)
      end
  end.

(** The three ways [matchChunk] returns:
    [return s, true, nil], [return "", false, nil] and
    [return "", false, err]. *)
Inductive chunkResult :=
| ChunkOk (rest : string)
| ChunkFail
| ChunkErr (e : error).

(** The loop of [matchChunk(chunk, s)], with its [failed] flag. *)
Fixpoint matchChunkLoop (fuel : nat) (chunk s : string) (failed : bool)
  : chunkResult :=
  match fuel with
  | O => if failed then ChunkFail else ChunkOk s
  | S fuel' =>
    match chunk with
    | EmptyString => if failed then ChunkFail else ChunkOk s
    | String c chunk' =>
      let failed :=
        failed || match s with EmptyString => true | _ => false end in
      if Ascii.eqb c "["%char then
        let '(r, s1) :=
          if failed then (0%N, s)
          else let '(r, n) := Utf8.DecodeRuneInString s in
               (r, Strings.drop n s) in
        let negated := headIs chunk' "^"%char in
        let chunk1 := if negated then Strings.drop 1 chunk' else chunk' in
        match classLoop fuel' chunk1 r false 0 with
        | None => ChunkErr ErrBadPattern
        | Some (chunk2, found) =>
          matchChunkLoop fuel' chunk2 s1
                         (failed || Bool.eqb found negated)
        end
      else if Ascii.eqb c "?"%char then
        match s with
        | String a _ =>
          if failed then matchChunkLoop fuel' chunk' s failed
          else
            let '(_, n) := Utf8.DecodeRuneInString s in
            matchChunkLoop fuel' chunk' (Strings.drop n s)
                           (Ascii.eqb a Separator)
        | EmptyString => matchChunkLoop fuel' chunk' s failed
        end
      else
        (* a backslash makes the next byte literal; then the default case *)
        let lit :=
          if Ascii.eqb c "\"%char then
            match chunk' with
            | EmptyString => None
            | String c' chunk'' => Some (c', chunk'')
            end
          else Some (c, chunk') in
        match lit with
        | None => ChunkErr ErrBadPattern
        | Some (l, chunk1) =>
          match s with
          | String a s' =>
            if failed then matchChunkLoop fuel' chunk1 s failed
            else matchChunkLoop fuel' chunk1 s' (negb (Ascii.eqb l a))
          | EmptyString => matchChunkLoop fuel' chunk1 s failed
          end
        end
    end
  end.

(** [matchChunk(chunk, s) (rest, ok, err)]. *)
Definition matchChunk (chunk s : string) : chunkResult :=
  matchChunkLoop (S (String.length chunk)) chunk s false.

(** What the star loop of [Match] ends with: [continue Pattern] with the
    new name, falling out of the loop, or [return false, err]. *)
Inductive starResult :=
| StarFound (t : string)
| StarNone
| StarErr (e : error).

(** [for i := 0; i < len(name) && name[i] != Separator; i++]: tries the
    chunk after skipping [i+1] bytes; [last] says that the pattern is
    exhausted, in which case the chunk has to consume the whole name. *)
Fixpoint starLoop (chunk : string) (last : bool) (name : string)
  : starResult :=
  match name with
  | EmptyString => StarNone
  | String c r =>
    if Ascii.eqb c Separator then StarNone
    else
      match matchChunk chunk r with
      | ChunkOk t =>
        if last && negb (String.eqb t EmptyString)
        then starLoop chunk last r
        else StarFound t
      | ChunkErr e => StarErr e
      | ChunkFail => starLoop chunk last r
      end
  end.

(** The check made before [return false, nil]: the chunks of the rest of
    the pattern have to be well formed. *)
Fixpoint checkRest (fuel : nat) (pattern : string) : option error :=
  match fuel with
  | O => None
  | S fuel' =>
    match pattern with
    | EmptyString => None
    | _ =>
      let '(_, chunk, rest) := scanChunk pattern in
      match matchChunk chunk EmptyString with
      | ChunkErr e => Some e
      | _ => checkRest fuel' rest
      end
    end
  end.

(** The [Pattern:] loop of [Match].  Every round removes at least one byte
    from the pattern, which bounds the loop by [fuel]. *)
Fixpoint matchLoop (fuel : nat) (pattern name : string)
  : bool * option error :=
  match fuel with
  | O => (String.eqb name EmptyString, None)
  | S fuel' =>
    match pattern with
    | EmptyString => (String.eqb name EmptyString, None)
    | _ =>
      let '(star, chunk, rest) := scanChunk pattern in
      if star && String.eqb chunk EmptyString then
        (negb (Strings.ContainsByte name Separator), None)
      else
        let last := String.eqb rest EmptyString in
        let fallthrough (_ : unit) :=
          let tail (_ : unit) :=
            match checkRest fuel' rest with
            | Some e => (false, Some e)
            | None => (false, None)
            end in
          if star then
            match starLoop chunk last name with
            | StarFound t => matchLoop fuel' rest t
            | StarErr e => (false, Some e)
            | StarNone => tail tt
            end
          else tail tt in
        match matchChunk chunk name with
        | ChunkOk t =>
          if String.eqb t EmptyString || negb last
          then matchLoop fuel' rest t
          else fallthrough tt
        | ChunkErr e => (false, Some e)
        | ChunkFail => fallthrough tt
        end
    end
  end.

(** [filepath.Match(pattern, name) (matched, err)]. *)
Definition Match (pattern name : string) : bool * option error :=
  matchLoop (S (String.length pattern)) pattern name.

(** Strips the trailing separators ([for len(path) > 0 &&
    os.IsPathSeparator(path[len(path)-1])]). *)
Fixpoint stripTrailingSeparators (path : string) : string :=
  match path with
  | EmptyString => EmptyString
  | String c r =>
    match stripTrailingSeparators r with
    | EmptyString =>
      if Ascii.eqb c Separator then EmptyString else String c EmptyString
    | r' => String c r'
    end
  end.

(** The part after the last separator ([path[i+1:]] for the largest [i]
    with a separator at [i], the whole path when there is none). *)
Fixpoint lastElement (path : string) : string :=
  match path with
  | EmptyString => EmptyString
  | String c r =>
    if Strings.ContainsByte r Separator then lastElement r
    else if Ascii.eqb c Separator then r
    else path
  end.

(** [filepath.Base(path)]. *)
Definition Base (path : string) : string :=
  match path with
  | EmptyString => "."
  | _ =>
    match lastElement (stripTrailingSeparators path) with
    | EmptyString => String Separator EmptyString
    | b => b
    end
  end.

End Filepath.

(** ** Package [regexp], for the patterns of the program

    The program compiles two patterns.  Both start with an ASCII literal and
    use the classes [\s], [\d] and a negated one-byte class only, with the
    greedy operators
    [*], [+] and [?]; every literal of the patterns is ASCII or, for the
    constant name, a quoted literal.  Go matches rune by rune; a byte below
    128 is always a rune of its own, also in invalid UTF-8, so that on these
    patterns the search byte by byte below finds the same matches.  The
    matcher is the backtracking one whose first match is, by definition, the
    leftmost-first match that Go returns. *)
Module Regexp.

Inductive class :=
| Space            (* \s : [\t\n\f\r ] *)
| Digit            (* \d : [0-9] *)
| Not (c : ascii). (* [^c] *)

Definition inClass (cl : class) (a : ascii) : bool :=
  match cl with
  | Space =>
    let n := N_of_ascii a in
    ((n =? 9) || (n =? 10) || (n =? 12) || (n =? 13) || (n =? 32))%N
  | Digit => let n := N_of_ascii a in ((48 <=? n) && (n <=? 57))%N
  | Not c => negb (Ascii.eqb a c)
  end.

Inductive re :=
| Lit (c : ascii)          (* one literal byte *)
| Str (s : string)         (* a literal string *)
| Seq (r1 r2 : re)         (* r1 r2 *)
| Star (cl : class)        (* cl*, greedy *)
| Plus (cl : class)        (* cl+, greedy *)
| Opt (r : re)             (* (?:r)?, greedy *)
| Group (n : nat) (r : re) (* the capturing group number n *).

(** The positions of the groups: [caps !! n = Some (i, j)] when group [n]
    matched [src[i:j]]; group 0 is the whole match. *)
Abbreviation captures := (gmap nat (nat * nat)).

(** [cl*] at position [pos] of the input, [s] being the input from [pos] on:
    takes as many bytes as it can and gives back one at a time when the rest
    of the pattern, the continuation [k], fails. *)
Fixpoint runStar {A} (cl : class) (s : string) (pos : nat)
         (k : string -> nat -> option A) : option A :=
  match s with
  | String a r =>
    if inClass cl a then
      match runStar cl r (S pos) k with
      | Some x => Some x
      | None => k s pos
      end
    else k s pos
  | EmptyString => k s pos
  end.

Fixpoint run {A} (r : re) (s : string) (pos : nat) (caps : captures)
         (k : string -> nat -> captures -> option A) : option A :=
  match r with
  | Lit c =>
    match s with
    | String a t => if Ascii.eqb a c then k t (S pos) caps else None
    | EmptyString => None
    end
  | Str l =>
    if Strings.HasPrefix s l
    then k (Strings.drop (String.length l) s) (pos + String.length l) caps
    else None
  | Seq r1 r2 =>
    run r1 s pos caps (fun s1 pos1 caps1 => run r2 s1 pos1 caps1 k)
  | Star cl => runStar cl s pos (fun s1 pos1 => k s1 pos1 caps)
  | Plus cl =>
    match s with
    | String a t =>
      if inClass cl a
      then runStar cl t (S pos) (fun s1 pos1 => k s1 pos1 caps)
      else None
    | EmptyString => None
    end
  | Opt r1 =>
    match run r1 s pos caps k with
    | Some x => Some x
    | None => k s pos caps
    end
  | Group n r1 =>
    run r1 s pos caps (fun s1 pos1 caps1 => k s1 pos1 (<[n := (pos, pos1)]> caps1))
  end.

(** The match that starts at the head of [s], if there is one; the
    positions of the groups are counted from there. *)
Definition matchAt (r : re) (s : string) : option captures :=
  run r s 0 ∅ (fun _ pos1 caps => Some (<[0 := (0, pos1)]> caps)).

(** The leftmost match in [s]: the input from the start of the match on,
    and the groups. *)
Fixpoint find (r : re) (s : string) : option (string * captures) :=
  match matchAt r s with
  | Some caps => Some (s, caps)
  | None =>
    match s with
    | String _ t => find r t
    | EmptyString => None
    end
  end.

(** [src[i:j]]. *)
Definition slice (src : string) (ij : nat * nat) : string :=
  Strings.take (snd ij - fst ij) (Strings.drop (fst ij) src).

(** The text of group [n] of a match that starts at the head of [src]; a
    group that took no part in the match has the empty text. *)
Definition group (src : string) (caps : captures) (n : nat) : string :=
  match caps !! n with
  | Some ij => slice src ij
  | None => EmptyString
  end.

(** [re.Match(b)]. *)
Definition Match (r : re) (b : string) : bool :=
  match find r b with Some _ => true | None => false end.

(** [re.FindSubmatch(b)] for a pattern with [ngroups] groups: nil when
    there is no match, else the texts of the groups 0 to [ngroups]. *)
Definition FindSubmatch (r : re) (ngroups : nat) (b : string) : list string :=
  match find r b with
  | None => []
  | Some (src, caps) => map (group src caps) (seq 0 (S ngroups))
  end.

Section Expand.

(** [unicode.IsLetter(r) || unicode.IsDigit(r)] for the runes from 128 on:
    the tables of package [unicode]. *)
Variable unicodeWord : N -> bool.

(** A rune of a group name in a template: letter, digit or underscore. *)
Definition wordRune (r : N) : bool :=
  if (r <? 128)%N
  then (Utf8.inRange 48 57 r || Utf8.inRange 65 90 r
        || Utf8.inRange 97 122 r || (r =? 95)%N)
  else unicodeWord r.

(** The loop of [extract] that measures the name: [skip] bytes belong to
    the rune that was decoded last. *)
Fixpoint nameLen (skip : nat) (str : string) : nat :=
  match str with
  | EmptyString => 0
  | String _ t =>
    match skip with
    | S k => S (nameLen k t)
    | O =>
      let '(rn, size) := Utf8.DecodeRuneInString str in
      if wordRune rn then S (nameLen (size - 1) t) else 0
    end
  end.

(** The loop of [extract] that reads the name as a number: [None] stands
    for [num = -1]. *)
Fixpoint parseNum (name : string) (num : N) : option N :=
  match name with
  | EmptyString => Some num
  | String c t =>
    let d := N_of_ascii c in
    if negb (Utf8.inRange 48 57 d) || (100000000 <=? num)%N
    then None
    else parseNum t (num * 10 + (d - 48))%N
  end.

(** [extract(str) (name, num, rest, ok)]: in place of [rest], the number of
    bytes of [str] that were read; [None] for [ok = false]. *)
Definition extract (str : string) : option (string * option N * nat) :=
  match str with
  | EmptyString => None
  | String c0 _ =>
    let brace := Ascii.eqb c0 "{"%char in
    let str1 := if brace then Strings.drop 1 str else str in
    let i := nameLen 0 str1 in
    if Nat.eqb i 0 then None
    else
      let name := Strings.take i str1 in
      if brace && negb (Filepath.headIs (Strings.drop i str1) "}"%char)
      then None
      else
        let num := parseNum name 0 in
        let num := if Filepath.headIs name "0"%char
                      && (1 <? String.length name)
                   then None else num in
        Some (name, num, if brace then S (S i) else i)
  end.

(** [re.expand(dst, template, src, match)] for a pattern without named
    groups: the text that is appended to [dst].  [skip] bytes of the
    template were consumed by the step before. *)
Fixpoint expandFrom (skip : nat) (template : string) (src : string)
         (caps : captures) : string :=
  match template with
  | EmptyString => EmptyString
  | String c t =>
    match skip with
    | S k => expandFrom k t src caps
    | O =>
      if Ascii.eqb c "$"%char then
        if Filepath.headIs t "$"%char
        then String "$"%char (expandFrom 1 t src caps)
        else
          match extract t with
          | None => String "$"%char (expandFrom 0 t src caps)
          | Some (_, num, used) =>
            (match num with
             | Some n => group src caps (N.to_nat n)
             | None => EmptyString
             end) +:+ expandFrom used t src caps
          end
      else String c (expandFrom 0 t src caps)
    end
  end.

(** The loop of [re.replaceAll]: [s] is what is left of the input, [skip]
    the number of its bytes that belong to the match replaced last.  The
    search resumes at the end of that match.  A match of the patterns of the
    program is never empty. *)
Fixpoint replaceFrom (r : re) (repl : string) (skip : nat) (s : string)
  : string :=
  match s with
  | EmptyString => EmptyString
  | String c t =>
    match skip with
    | S k => replaceFrom r repl k t
    | O =>
      match matchAt r s with
      | Some caps =>
        let stop := match caps !! 0 with Some ij => snd ij | None => 1 end in
        expandFrom 0 repl s caps +:+ replaceFrom r repl (stop - 1) t
      | None => String c (replaceFrom r repl 0 t)
      end
    end
  end.

(** [re.ReplaceAll(src, repl)]. *)
Definition ReplaceAll (r : re) (src repl : string) : string :=
  replaceFrom r repl 0 src.

End Expand.

End Regexp.

(** ** [archive.go]: the exclusion matcher *)

(** One round of the loop of [shouldExclude]: what a single pattern decides
    for [path].  The errors of [filepath.Match] are dropped
    ([matched, _ := ...]). *)
Definition excludedBy (path pattern : string) : bool :=
  (* Handle directory patterns *)
  (if Strings.HasSuffix pattern "/" then
     let dirPattern := Strings.TrimSuffix pattern "/" in
     String.eqb path dirPattern
     || Strings.HasPrefix path (dirPattern +:+ String Filepath.Separator "")
   else false)
  (* Check direct match *)
  || String.eqb path pattern
  (* Check if any path component matches *)
  || existsb (fun part => fst (Filepath.Match pattern part))
             (Strings.Split path Filepath.Separator)
  (* Check basename match for file patterns *)
  || fst (Filepath.Match pattern (Filepath.Base path)).

(** [shouldExclude(path, patterns)]: the first pattern that matches ends the
    loop with [true]. *)
Fixpoint shouldExclude (path : string) (patterns : list string) : bool :=
  match patterns with
  | [] => false
  | pattern :: rest =>
    if excludedBy path pattern then true else shouldExclude path rest
  end.


(** ** The environment: errors, files and the HTTP transport *)

(** A Go [error] is modelled by its message ([err.Error()]); wrapping with
    [%w] puts the message of the wrapped error in the new one. *)
Definition error := string.

(** [%d] of [fmt]: the decimal form of an integer. *)
Definition itoa (n : Z) : string :=
  NilZero.string_of_int (Z.to_int n).

(** [http.Header] after [Set]: one list of values per key.  The keys that
    the client sets are already in canonical form. *)
Definition Header_Set (h : gmap string (list string)) (key value : string)
  : gmap string (list string) :=
  <[key := [value]]> h.

(** The fields of [http.Request] that the client fills: [Body] holds the
    bytes that the transport reads from the body stream, if there is one. *)
Record Request := mkRequest {
  Method : string;
  URL : string;
  Header : gmap string (list string);
  ContentLength : Z;
  Body : option string
}.

(** [http.Response]: the status code and what [io.ReadAll(resp.Body)]
    yields. *)
Record Response := mkResponse {
  StatusCode : Z;
  ResponseBody : string
}.

Definition StatusOK : Z := 200.
Definition StatusCreated : Z := 201.
Definition StatusNotFound : Z := 404.

(** What the program runs against: the files, the failures of the system
    calls on them, the URLs that [http.NewRequestWithContext] refuses, and
    the transport with the registry behind it ([c.httpClient.Do], which also
    reports a cancelled context). *)
Record Env := mkEnv {
  files : gmap string string;
  openError : string -> option error;
  statError : string -> option error;
  writeError : string -> option error;
  urlError : string -> option error;
  Do : Request -> error + Response
}.

(** [os.Open(path)]: the content that will be read from the file. *)
Definition os_Open (env : Env) (path : string) : error + string :=
  match openError env path with
  | Some e => inl e
  | None =>
    match files env !! path with
    | Some content => inr content
    | None => inl ("open " +:+ path +:+ ": no such file or directory")
    end
  end.

(** [file.Stat()] followed by [Size()]: the size of the open file. *)
Definition file_Size (env : Env) (path content : string) : error + Z :=
  match statError env path with
  | Some e => inl e
  | None => inr (Z.of_nat (String.length content))
  end.

(** [os.ReadFile(path)]. *)
Definition os_ReadFile (env : Env) (path : string) : error + string :=
  os_Open env path.

(** [os.WriteFile(path, data, perm)]: the files afterwards, or the error;
    the failure that is modelled is that of opening the file for writing,
    which leaves the files as they are. *)
Definition os_WriteFile (env : Env) (path data : string)
  : error + gmap string string :=
  match writeError env path with
  | Some e => inl e
  | None => inr (<[path := data]> (files env))
  end.

(** [http.NewRequestWithContext(ctx, method, url, body)]. *)
Definition NewRequestWithContext (env : Env) (method url : string)
           (body : option string) : error + Request :=
  match urlError env url with
  | Some e => inl e
  | None => inr (mkRequest method url ∅ 0 body)
  end.

(** ** [registry.go] *)

Record RegistryClient := mkRegistryClient {
  baseURL : string;
  token : string
}.

(** A nil [Metadata] map is the empty map. *)
Record Release := mkRelease {
  Version : string;
  Checksum : string;
  Signature : string;
  Metadata : gmap string string
}.

Definition setHeader (req : Request) (key value : string) : Request :=
  mkRequest (Method req) (URL req) (Header_Set (Header req) key value)
            (ContentLength req) (Body req).

Definition setContentLength (req : Request) (n : Z) : Request :=
  mkRequest (Method req) (URL req) (Header req) n (Body req).

(** The requests handed to the transport, in order, and the results. *)
Definition ListReleases (env : Env) (c : RegistryClient) (scope name : string)
  : list Request * (list Release * option error) :=
  let endpoint := "/" +:+ scope +:+ "/" +:+ name in
  match NewRequestWithContext env "GET" (baseURL c +:+ endpoint) None with
  | inl err => ([], ([], Some err))
  | inr req =>
    let req := setHeader req "Authorization" ("Bearer " +:+ token c) in
    let req := setHeader req "Accept" "application/vnd.swift.registry.v1+json" in
    match Do env req with
    | inl err => ([req], ([], Some err))
    | inr resp =>
      if (StatusCode resp =? StatusNotFound)%Z then ([req], ([], None))
      else if negb (StatusCode resp =? StatusOK)%Z then
        let body := ResponseBody resp in
        ([req], ([], Some ("failed to list releases: status "
                             +:+ itoa (StatusCode resp) +:+ ": " +:+ body)))
      else
        (* Parse response - simplified for now *)
        ([req], ([], None))
    end
  end.

Definition GetRelease (env : Env) (c : RegistryClient)
           (scope name version : string)
  : list Request * (option Release * option error) :=
  let endpoint := "/" +:+ scope +:+ "/" +:+ name +:+ "/" +:+ version in
  match NewRequestWithContext env "GET" (baseURL c +:+ endpoint) None with
  | inl err => ([], (None, Some err))
  | inr req =>
    let req := setHeader req "Authorization" ("Bearer " +:+ token c) in
    let req := setHeader req "Accept" "application/vnd.swift.registry.v1+json" in
    match Do env req with
    | inl err => ([req], (None, Some err))
    | inr resp =>
      if (StatusCode resp =? StatusNotFound)%Z then ([req], (None, None))
      else if negb (StatusCode resp =? StatusOK)%Z then
        let body := ResponseBody resp in
        ([req], (None, Some ("failed to get release: status "
                               +:+ itoa (StatusCode resp) +:+ ": " +:+ body)))
      else
        ([req], (Some (mkRelease version "" "" ∅), None))
    end
  end.

Definition Publish (env : Env) (c : RegistryClient)
           (scope name version archivePath checksum : string)
  : list Request * option error :=
  let endpoint := "/" +:+ scope +:+ "/" +:+ name +:+ "/" +:+ version in
  match os_Open env archivePath with
  | inl err => ([], Some ("failed to open archive: " +:+ err))
  | inr file =>
    (* Get file size *)
    match file_Size env archivePath file with
    | inl err => ([], Some ("failed to stat archive: " +:+ err))
    | inr size =>
      match NewRequestWithContext env "PUT" (baseURL c +:+ endpoint)
                                  (Some file) with
      | inl err => ([], Some err)
      | inr req =>
        let req := setContentLength req size in
        let req := setHeader req "Authorization" ("Bearer " +:+ token c) in
        let req := setHeader req "Content-Type" "application/zip" in
        let req := setHeader req "Accept"
                             "application/vnd.swift.registry.v1+json" in
        let req := setHeader req "Digest" ("sha-256=" +:+ checksum) in
        match Do env req with
        | inl err => ([req], Some ("publish request failed: " +:+ err))
        | inr resp =>
          if negb (StatusCode resp =? StatusCreated)%Z
             && negb (StatusCode resp =? StatusOK)%Z then
            let body := ResponseBody resp in
            ([req], Some ("publish failed with status "
                            +:+ itoa (StatusCode resp) +:+ ": " +:+ body))
          else ([req], None)
        end
      end
    end
  end.

(** [VersionExists]: the release is there. *)
Definition VersionExists (env : Env) (c : RegistryClient)
           (scope name version : string) : list Request * (bool * option error) :=
  match GetRelease env c scope name version with
  | (sent, (_, Some err)) => (sent, (false, Some err))
  | (sent, (release, None)) =>
    (sent, (match release with Some _ => true | None => false end, None))
  end.

(** ** Package [encoding/hex] *)

Definition hextable : string := "0123456789abcdef".

Definition hexDigit (n : N) : ascii :=
  match String.get (N.to_nat n) hextable with
  | Some c => c
  | None => "0"%char
  end.

(** [hex.EncodeToString(src)]: two digits per byte, high half first. *)
Fixpoint EncodeToString (src : string) : string :=
  match src with
  | EmptyString => EmptyString
  | String c r =>
    let v := N_of_ascii c in
    String (hexDigit (N.shiftr v 4))
           (String (hexDigit (N.land v 15)) (EncodeToString r))
  end.

(** ** [archive.go]: building the archive *)

Record ArchiveConfig := mkArchiveConfig {
  IncludeDocs : bool;
  Exclude : list string
}.

(** The source tree as [filepath.Walk] meets it.  [os.Lstat] fails on a
    [Broken] node; otherwise [info.IsDir()] tells a [Dir] from a [File], the
    only distinction that the program makes.  The listing of a directory is
    what [readDirNames] returns, or its error; the content of a file is what
    [addFileToZip] copies, or the error that stops it (opening, [Stat], the
    header, the copy). *)
Inductive node :=
| File (name : string) (mode : N) (content : error + string)
| Dir (name : string) (listing : error + list node)
| Broken (name : string) (err : error).

(** Induction on the tree, with the hypothesis for every entry of a
    directory. *)
Section node_induction.
Variable P : node -> Prop.
Hypothesis HFile : forall name mode content, P (File name mode content).
Hypothesis HUnreadable : forall name e, P (Dir name (inl e)).
Hypothesis HDir :
  forall name names, Forall P names -> P (Dir name (inr names)).
Hypothesis HBroken : forall name e, P (Broken name e).

Fixpoint node_induction (n : node) : P n :=
  match n with
  | File name mode content => HFile name mode content
  | Dir name (inl e) => HUnreadable name e
  | Dir name (inr names) =>
    HDir name names
         ((fix all (l : list node) : Forall P l :=
             match l with
             | [] => List.Forall_nil P
             | c :: l' => List.Forall_cons P c l' (node_induction c) (all l')
             end) names)
  | Broken name e => HBroken name e
  end.
End node_induction.

Definition nodeName (n : node) : string :=
  match n with
  | File name _ _ => name
  | Dir name _ => name
  | Broken name _ => name
  end.

(** [info.IsDir()]. *)
Definition IsDir (n : node) : bool :=
  match n with
  | Dir _ _ => true
  | _ => false
  end.

(** A member of the archive: [header.Name], the mode bits of the header and
    the bytes copied; the method is always [zip.Deflate]. *)
Record ArchiveEntry := mkArchiveEntry {
  EntryName : string;
  EntryMode : N;
  EntryData : string
}.

(** What a [WalkFunc] returns besides nil: [filepath.SkipDir], or an error
    that stops the walk. *)
Inductive walkError :=
| SkipDir
| WalkErr (e : error).

(** [filepath.Rel(sourceDir, filepath.Join(path, name))] for the entry
    [name] of the directory [path], whose own relative path is [rel]; the
    relative path of the root is ".". *)
Definition relChild (rel name : string) : string :=
  if String.eqb rel "." then name
  else rel +:+ String Filepath.Separator EmptyString +:+ name.

(** [addFileToZip(zipWriter, filePath, relativePath)]: the members written
    so far, and the error. *)
Definition addFileToZip (zipWriter : list ArchiveEntry) (n : node)
           (relativePath : string) : list ArchiveEntry * option walkError :=
  match n with
  | File _ mode (inr content) =>
    (* Use forward slashes for zip paths *)
    let name := Strings.ReplaceByte relativePath Filepath.Separator "/"%char in
    (zipWriter ++ [mkArchiveEntry name mode content], None)
  | File _ _ (inl err) => (zipWriter, Some (WalkErr err))
  | _ => (zipWriter, None)
  end.

(** The function that [CreateArchive] hands to [filepath.Walk], called on
    the node [n] at the relative path [relPath] with the error [err] of
    [Lstat] or of reading the directory. *)
Definition walkFn (cfg : ArchiveConfig) (zipWriter : list ArchiveEntry)
           (relPath : string) (n : node) (err : option error)
  : list ArchiveEntry * option walkError :=
  match err with
  | Some e => (zipWriter, Some (WalkErr e))
  | None =>
    (* Skip root directory *)
    if String.eqb relPath "." then (zipWriter, None)
    (* Check exclusions *)
    else if shouldExclude relPath (Exclude cfg) then
      if IsDir n then (zipWriter, Some SkipDir) else (zipWriter, None)
    (* Skip directories (they'll be created implicitly) *)
    else if IsDir n then (zipWriter, None)
    (* Add file to archive *)
    else addFileToZip zipWriter n relPath
  end.

(** The loop of [walk] over the names of a directory, [walkChild] being
    [walk] itself: an error of an entry stops the walk, except [SkipDir] from
    a directory or from a node that [Lstat] refused. *)
Definition walkNames
           (walkChild : string -> node -> list ArchiveEntry
                        -> list ArchiveEntry * option walkError)
           (rel : string)
  : list node -> list ArchiveEntry -> list ArchiveEntry * option walkError :=
  fix loop (names : list node) (w : list ArchiveEntry) :=
    match names with
    | [] => (w, None)
    | child :: names' =>
      match walkChild (relChild rel (nodeName child)) child w with
      | (w2, None) => loop names' w2
      | (w2, Some SkipDir) =>
        match child with
        | File _ _ _ => (w2, Some SkipDir)
        | _ => loop names' w2
        end
      | (w2, Some (WalkErr e)) => (w2, Some (WalkErr e))
      end
    end.

(** [walk(path, info, walkFn)] of [path/filepath]: a node that is no
    directory goes to the function; a directory is read, goes to the
    function with the error of the reading, and is entered when both went
    well. *)
Fixpoint walk (cfg : ArchiveConfig) (rel : string) (n : node)
         (zipWriter : list ArchiveEntry) {struct n}
  : list ArchiveEntry * option walkError :=
  match n with
  | File _ _ _ => walkFn cfg zipWriter rel n None
  | Broken _ e => walkFn cfg zipWriter rel n (Some e)
  | Dir _ (inl e) => walkFn cfg zipWriter rel n (Some e)
  | Dir _ (inr names) =>
    match walkFn cfg zipWriter rel n None with
    | (w1, Some err1) => (w1, Some err1)
    | (w1, None) => walkNames (walk cfg) rel names w1
    end
  end.

(** [filepath.Walk(root, fn)]. *)
Definition Walk (cfg : ArchiveConfig) (root : node)
           (zipWriter : list ArchiveEntry) : list ArchiveEntry * option error :=
  match walk cfg "." root zipWriter with
  | (w, None) => (w, None)
  | (w, Some SkipDir) => (w, None)
  | (w, Some (WalkErr e)) => (w, Some e)
  end.

(** The failures that [CreateArchive] can meet outside the walk, and the name
    that [os.CreateTemp] picks. *)
Record ArchiveFaults := mkArchiveFaults {
  tempName : string;
  createTempError : option error;
  zipCloseError : option error;
  seekError : option error;
  hashCopyError : option error;
  closeError : option error
}.

Section CreateArchive.

(** The bytes of the container that [archive/zip] writes for a list of
    members, once the writer is closed. *)
Variable zipBytes : list ArchiveEntry -> string.

(** [crypto/sha256]: the digest of a byte string. *)
Variable sha256 : string -> string.

(** [CreateArchive(sourceDir, version, cfg)]: the files afterwards and the
    three results.  [source] is the tree at [sourceDir].  The writer buffers:
    the model puts the bytes in the file when it is closed, and what an
    aborted run had written so far goes away with the file. *)
Definition CreateArchive (fs : gmap string string) (faults : ArchiveFaults)
           (source : node) (version : string) (cfg : ArchiveConfig)
  : gmap string string * (string * string * option error) :=
  (* Create temp file for archive *)
  match createTempError faults with
  | Some err => (fs, ("", "", Some ("failed to create temp file: " +:+ err)))
  | None =>
    let archivePath := tempName faults in
    let fs1 := <[archivePath := EmptyString]> fs in
    (* Walk source directory *)
    match Walk cfg source [] with
    | (_, Some err) =>
      (delete archivePath fs1,
       ("", "", Some ("failed to create archive: " +:+ err)))
    | (members, None) =>
      match zipCloseError faults with
      | Some err =>
        (delete archivePath fs1,
         ("", "", Some ("failed to close zip writer: " +:+ err)))
      | None =>
        let fs2 := <[archivePath := zipBytes members]> fs1 in
        (* Calculate checksum *)
        match seekError faults with
        | Some err =>
          (delete archivePath fs2,
           ("", "", Some ("failed to seek archive: " +:+ err)))
        | None =>
          match hashCopyError faults with
          | Some err =>
            (delete archivePath fs2,
             ("", "", Some ("failed to calculate checksum: " +:+ err)))
          | None =>
            let checksum :=
              EncodeToString
                (sha256 (default EmptyString (fs2 !! archivePath))) in
            match closeError faults with
            | Some err =>
              (delete archivePath fs2,
               ("", "", Some ("failed to close archive: " +:+ err)))
            | None => (fs2, (archivePath, checksum, None))
            end
          end
        end
      end
    end
  end.

End CreateArchive.

(** ** The manifest helpers *)

(** The double quote, byte 34. *)
Definition quote : ascii := Eval cbv in ascii_of_nat 34.

(** A call returns, or panics. *)
Inductive outcome (A : Type) :=
| Returned (a : A)
| Panicked.
Arguments Returned {A} a.
Arguments Panicked {A}.

(** [utf8.ValidString]: [skip] bytes belong to the rune decoded last. *)
Fixpoint validFrom (skip : nat) (s : string) : bool :=
  match s with
  | EmptyString => true
  | String _ t =>
    match skip with
    | S k => validFrom k t
    | O =>
      let '(rn, size) := Utf8.DecodeRuneInString s in
      if (rn =? Utf8.RuneError)%N && Nat.eqb size 1 then false
      else validFrom (size - 1) t
    end
  end.

(** The pattern of [UpdateVersionConstant].  Group 1 is [let], [\s+], the
    name, [\s*], the optional annotation (a colon, [\s*], [String], [\s*],
    in a group that does not capture, under [?]), the equals sign, [\s*] and
    the double quote; group 2 is one or more bytes other than the double
    quote; group 3 is the double quote.  The name is
    [regexp.QuoteMeta(constantName)], a literal, compared byte by byte. *)
Definition versionPattern (constantName : string) : Regexp.re :=
  Regexp.Seq
    (Regexp.Group 1
       (Regexp.Seq (Regexp.Str "let")
       (Regexp.Seq (Regexp.Plus Regexp.Space)
       (Regexp.Seq (Regexp.Str constantName)
       (Regexp.Seq (Regexp.Star Regexp.Space)
       (Regexp.Seq (Regexp.Opt
                      (Regexp.Seq (Regexp.Lit ":")
                      (Regexp.Seq (Regexp.Star Regexp.Space)
                      (Regexp.Seq (Regexp.Str "String")
                                  (Regexp.Star Regexp.Space)))))
       (Regexp.Seq (Regexp.Lit "=")
       (Regexp.Seq (Regexp.Star Regexp.Space)
                   (Regexp.Lit quote)))))))))
    (Regexp.Seq (Regexp.Group 2 (Regexp.Plus (Regexp.Not quote)))
                (Regexp.Group 3 (Regexp.Lit quote))).

(** [regexp.MustCompile] of that pattern: the parser refuses a pattern that
    is not valid UTF-8, and [MustCompile] panics. *)
Definition compileVersionPattern (constantName : string)
  : outcome Regexp.re :=
  if validFrom 0 constantName then Returned (versionPattern constantName)
  else Panicked.

(** The pattern of [ExtractSwiftToolsVersion],
    [//\s*swift-tools-version:\s*(\d+\.\d+(?:\.\d+)?)]. *)
Definition toolsVersionPattern : Regexp.re :=
  Regexp.Seq (Regexp.Str "//")
  (Regexp.Seq (Regexp.Star Regexp.Space)
  (Regexp.Seq (Regexp.Str "swift-tools-version:")
  (Regexp.Seq (Regexp.Star Regexp.Space)
     (Regexp.Group 1
        (Regexp.Seq (Regexp.Plus Regexp.Digit)
        (Regexp.Seq (Regexp.Lit ".")
        (Regexp.Seq (Regexp.Plus Regexp.Digit)
                    (Regexp.Opt (Regexp.Seq (Regexp.Lit ".")
                                            (Regexp.Plus Regexp.Digit)))))))))).

Section Manifest.

(** The tables of package [unicode], see [Regexp.wordRune]. *)
Variable unicodeWord : N -> bool.

(** [UpdateVersionConstant(path, constantName, version)]: the files
    afterwards and the result. *)
Definition UpdateVersionConstant (env : Env) (path constantName version : string)
  : gmap string string * outcome (option error) :=
  match os_ReadFile env path with
  | inl err =>
    (files env, Returned (Some ("failed to read " +:+ path +:+ ": " +:+ err)))
  | inr content =>
    match compileVersionPattern constantName with
    | Panicked => (files env, Panicked)
    | Returned pattern =>
      if negb (Regexp.Match pattern content) then
        (files env,
         Returned (Some ("version constant '" +:+ constantName
                           +:+ "' not found in " +:+ path)))
      else
        let newContent :=
          Regexp.ReplaceAll unicodeWord pattern content
                            ("${1}" +:+ version +:+ "${3}") in
        match os_WriteFile env path newContent with
        | inl err =>
          (files env,
           Returned (Some ("failed to write " +:+ path +:+ ": " +:+ err)))
        | inr files' => (files', Returned None)
        end
    end
  end.

End Manifest.

(** [ExtractSwiftToolsVersion(path)]. *)
Definition ExtractSwiftToolsVersion (env : Env) (path : string)
  : string * option error :=
  match os_ReadFile env path with
  | inl err => ("", Some ("failed to read " +:+ path +:+ ": " +:+ err))
  | inr content =>
    let matches := Regexp.FindSubmatch toolsVersionPattern 1 content in
    if List.length matches <? 2
    then ("", Some ("swift-tools-version not found in " +:+ path))
    else (nth 1 matches "", None)
  end.

(** ** Predicates used in the statements *)

(** The bytes with a meaning of their own in a [filepath.Match] pattern. *)
Definition isMeta (c : ascii) : bool :=
  Ascii.eqb c "*"%char || Ascii.eqb c "?"%char
  || Ascii.eqb c "["%char || Ascii.eqb c "\"%char.

(** A pattern without such bytes. *)
Fixpoint literal (p : string) : bool :=
  match p with
  | EmptyString => true
  | String c r => negb (isMeta c) && literal r
  end.

(** The pattern is rejected, with [ErrBadPattern], on the name. *)
Definition badOn (pattern name : string) : Prop :=
  snd (Filepath.Match pattern name) = Some Filepath.ErrBadPattern.

(** Every byte of the string passes the test. *)
Fixpoint allBytes (f : ascii -> bool) (s : string) : bool :=
  match s with
  | EmptyString => true
  | String c r => f c && allBytes f r
  end.

(** The texts that a pattern can match, whatever is around them. *)
Fixpoint lang (r : Regexp.re) (u : string) : Prop :=
  match r with
  | Regexp.Lit c => u = String c EmptyString
  | Regexp.Str l => u = l
  | Regexp.Seq r1 r2 => exists u1 u2, u = u1 +:+ u2 /\ lang r1 u1 /\ lang r2 u2
  | Regexp.Star cl => allBytes (Regexp.inClass cl) u = true
  | Regexp.Plus cl => u <> EmptyString /\ allBytes (Regexp.inClass cl) u = true
  | Regexp.Opt r1 => u = EmptyString \/ lang r1 u
  | Regexp.Group _ r1 => lang r1 u
  end.

(** The declaration of the constant [packageVersion], with or without
    annotation: [let packageVersion = QUOTE value QUOTE]. *)
Definition declaration (annotation value : string) : string :=
  "let packageVersion" +:+ annotation +:+ " = "
  +:+ String quote (value +:+ String quote EmptyString).

(** The template that [UpdateVersionConstant] builds for a version. *)
Definition versionTemplate (version : string) : string :=
  "${1}" +:+ version +:+ "${3}".

(** No match of the pattern starts in [pre] when the input is [pre]
    followed by [s]. *)
Definition noMatchBefore (r : Regexp.re) (pre s : string) : Prop :=
  forall p1 p2,
    pre = p1 +:+ p2 -> p2 <> EmptyString ->
    Regexp.matchAt r (p2 +:+ s) = None.

(** The text does not go on with the version number: it is empty, as at the
    end of the content, or starts with a byte, such as the end of a line,
    that is neither a digit nor a dot. *)
Definition versionStops (rest : string) : bool :=
  match rest with
  | EmptyString => true
  | String c _ =>
    negb (Regexp.inClass Regexp.Digit c) && negb (Ascii.eqb c ".")
  end.

(** [reaches cfg rel n trel t]: the node [t], at the relative path [trel],
    lies in the tree [n], itself at [rel], and every directory from [n] down
    to the parent of [t] is the root or is not excluded. *)
Inductive reaches (cfg : ArchiveConfig) : string -> node -> string -> node -> Prop :=
| reaches_here rel n : reaches cfg rel n rel n
| reaches_below rel name names child trel t :
    In child names ->
    rel = "." \/ shouldExclude rel (Exclude cfg) = false ->
    reaches cfg (relChild rel (nodeName child)) child trel t ->
    reaches cfg rel (Dir name (inr names)) trel t.

(** [memberOf cfg rel n e]: the member [e] of the archive is a file of the
    tree [n], not the root, not excluded, below directories that the walk
    enters, with the relative path of the file as name. *)
Definition memberOf (cfg : ArchiveConfig) (rel : string) (n : node)
           (e : ArchiveEntry) : Prop :=
  exists trel name,
    reaches cfg rel n trel (File name (EntryMode e) (inr (EntryData e)))
    /\ EntryName e = trel
    /\ trel <> "."
    /\ shouldExclude trel (Exclude cfg) = false.

(** The digits of lower-case hexadecimal. *)
Definition isLowerHex (c : ascii) : bool :=
  let n := N_of_ascii c in
  (Utf8.inRange 48 57 n || Utf8.inRange 97 102 n).

(** ** [registry.go] and [archive.go]: the remaining functions *)

(** [GetManifest(ctx, scope, name, version)]; [readError] is the error that
    [io.ReadAll] meets on the body of an answer with the status 200, the
    one place where the client looks at it. *)
Definition GetManifest (env : Env) (readError : Response -> option error)
           (c : RegistryClient) (scope name version : string)
  : list Request * (string * option error) :=
  let endpoint :=
      "/" +:+ scope +:+ "/" +:+ name +:+ "/" +:+ version +:+ "/Package.swift" in
  match NewRequestWithContext env "GET" (baseURL c +:+ endpoint) None with
  | inl err => ([], ("", Some err))
  | inr req =>
    let req := setHeader req "Authorization" ("Bearer " +:+ token c) in
    let req := setHeader req "Accept" "text/x-swift" in
    match Do env req with
    | inl err => ([req], ("", Some err))
    | inr resp =>
      if negb (StatusCode resp =? StatusOK)%Z then
        let body := ResponseBody resp in
        ([req], ("", Some ("failed to get manifest: status "
                             +:+ itoa (StatusCode resp) +:+ ": " +:+ body)))
      else
        match readError resp with
        | Some err => ([req], ("", Some err))
        | None => ([req], (ResponseBody resp, None))
        end
    end
  end.

(** [os.Stat(path)] followed by [Size()]. *)
Definition os_Stat_Size (env : Env) (path : string) : error + Z :=
  match statError env path with
  | Some e => inl e
  | None =>
    match files env !! path with
    | Some content => inr (Z.of_nat (String.length content))
    | None => inl ("stat " +:+ path +:+ ": no such file or directory")
    end
  end.

(** [GetArchiveSize(path)]. *)
Definition GetArchiveSize (env : Env) (path : string) : Z * option error :=
  match os_Stat_Size env path with
  | inl err => (0%Z, Some err)
  | inr size => (size, None)
  end.

(** ** Running programs ([os/exec]) *)

(** A command: the program, its arguments and [cmd.Dir]; the empty
    directory stands for the directory of the process. *)
Record Cmd := mkCmd {
  CmdPath : string;
  CmdArgs : list string;
  CmdDir : string
}.

(** The error of a run: an [*exec.ExitError], whose [Stderr] field
    [cmd.Output] fills in when the command has no [Stderr] of its own, or
    another error (the program was not found, the context was cancelled). *)
Inductive cmdError :=
| ExitError (msg : error) (captured : string)
| OtherError (msg : error).

(** [err.Error()]. *)
Definition cmdErrorText (e : cmdError) : error :=
  match e with
  | ExitError msg _ => msg
  | OtherError msg => msg
  end.

(** What a run gives: the bytes written to the standard output and to the
    standard error, the two together in the order of writing
    ([cmd.CombinedOutput]), and the error. *)
Record CmdResult := mkCmdResult {
  Stdout : string;
  Stderr : string;
  Combined : string;
  CmdErr : option cmdError
}.

(** What the plugin runs on, besides the files and the transport of [Env]:
    the programs, whose results may depend on the commands run before, the
    directory of the process, the failures that [CreateArchive] can meet, and
    the tree that stands at a directory when it is walked. *)
Record Sys := mkSys {
  runCmd : list Cmd -> Cmd -> CmdResult;
  Getwd : error + string;
  sysFaults : ArchiveFaults;
  sysTree : string -> node
}.

(** The state that the plugin changes: the commands run and the requests
    sent so far, in order, and the environment with its files. *)
Record World := mkWorld {
  commands : list Cmd;
  requests : list Request;
  worldEnv : Env
}.

(** The environment with other files. *)
Definition setFiles (e : Env) (fs : gmap string string) : Env :=
  mkEnv fs (openError e) (statError e) (writeError e) (urlError e) (Do e).

(** Running a command: it joins the commands run. *)
Definition exec (sys : Sys) (c : Cmd) (w : World) : World * CmdResult :=
  (mkWorld (commands w ++ [c]) (requests w) (worldEnv w),
   runCmd sys (commands w) c).

(** ** The configuration ([Config], [TestConfig]) and the SDK types *)

Record TestConfig := mkTestConfig {
  Configuration : string;
  Coverage : bool;
  Parallel : bool
}.

Module Config.
Record t := mk {
  Registry : string;
  Scope : string;
  Token : string;
  PackageName : string;
  ManifestPath : string;
  UpdateManifest : bool;
  VersionConstant : string;
  CreateTag : bool;
  TagPrefix : string;
  Validate : bool;
  Build : bool;
  Test : bool;
  TestConfig : TestConfig;
  Archive : ArchiveConfig;
  DryRun : bool
}.

(** [cfg.DryRun = v]. *)
Definition setDryRun (cfg : t) (v : bool) : t :=
  mk (Registry cfg) (Scope cfg) (Token cfg) (PackageName cfg)
     (ManifestPath cfg) (UpdateManifest cfg) (VersionConstant cfg)
     (CreateTag cfg) (TagPrefix cfg) (Validate cfg) (Build cfg) (Test cfg)
     (TestConfig cfg) (Archive cfg) v.
End Config.

(** A value of type [any] in a decoded configuration: the type assertions of
    [parseConfig] tell strings, booleans, slices and maps from the rest. *)
Inductive any :=
| AString (s : string)
| ABool (b : bool)
| ASlice (l : list any)
| AMap (m : gmap string any)
| AOther.

(** The fields of [plugin.ExecuteResponse] that the plugin sets. *)
Record ExecuteResponse := mkExecuteResponse {
  Success : bool;
  Message : string
}.

(** [plugin.Hook], a string type: the two hooks of the plugin and the
    others, with their text. *)
Inductive Hook :=
| HookPrePublish
| HookPostPublish
| HookOther (text : string).

(** The fields of [plugin.ExecuteRequest] that the plugin reads;
    [ReqVersion] is [req.Context.Version]. *)
Record ExecuteRequest := mkExecuteRequest {
  ReqHook : Hook;
  ReqConfig : gmap string any;
  ReqVersion : string;
  ReqDryRun : bool
}.

(** [PackageManifest] and its parts. *)
Record Platform := mkPlatform {
  PlatformName : string;
  PlatformVersion : string
}.

Record Product := mkProduct {
  ProductName : string;
  ProductType : string;
  ProductTargets : list string
}.

Record Dependency := mkDependency {
  DependencyURL : string;
  DependencyName : string;
  DependencyVersions : string
}.

Record Target := mkTarget {
  TargetName : string;
  TargetType : string;
  TargetDependencies : list string
}.

Record PackageManifest := mkPackageManifest {
  Name : string;
  Platforms : list Platform;
  Products : list Product;
  Dependencies : list Dependency;
  Targets : list Target;
  SwiftVersion : string
}.

(** The patterns that [parseConfig] takes when the configuration gives
    none. *)
Definition defaultExclude : list string :=
  [".git"; ".build"; "Tests"; "*.xcodeproj"].

(** The loop of [parseConfig] over the exclude list: the entries that are
    strings, in order. *)
Fixpoint excludeStrings (excludeList : list any) : list string :=
  match excludeList with
  | [] => []
  | AString s :: rest => s :: excludeStrings rest
  | _ :: rest => excludeStrings rest
  end.

(** ** [swift.go] *)

Module SwiftCLI.

Record t := mk { workDir : string }.

Section Run.

(** [strings.TrimSpace]. *)
Variable TrimSpace : string -> string.

Variable sys : Sys.

(** [s.run(ctx, args...)]: runs [swift] with the arguments in the working
    directory; the error carries what the program wrote to its standard
    error, when that is more than white space. *)
Definition run (s : t) (args : list string) (w : World)
  : World * option error :=
  let '(w1, r) := exec sys (mkCmd "swift" args (workDir s)) w in
  match CmdErr r with
  | Some err =>
    let errOutput := TrimSpace (Stderr r) in
    if negb (String.eqb errOutput "")
    then (w1, Some (errOutput +:+ ": " +:+ cmdErrorText err))
    else (w1, Some (cmdErrorText err))
  | None => (w1, None)
  end.

(** [s.Validate(ctx)]. *)
Definition Validate (s : t) (w : World) : World * option error :=
  (* Check manifest syntax by dumping package *)
  match run s ["package"; "dump-package"] w with
  | (w1, Some err) => (w1, Some ("invalid Package.swift: " +:+ err))
  | (w1, None) =>
    (* Resolve dependencies to validate they're accessible *)
    match run s ["package"; "resolve"] w1 with
    | (w2, Some err) => (w2, Some ("failed to resolve dependencies: " +:+ err))
    | (w2, None) => (w2, None)
    end
  end.

(** The arguments that [Build] hands to [run]. *)
Definition buildArgs (configuration : string) : list string :=
  ["build"]
    ++ (if negb (String.eqb configuration "") then ["-c"; configuration] else []).

(** [s.Build(ctx, configuration)]. *)
Definition Build (s : t) (configuration : string) (w : World)
  : World * option error :=
  run s (buildArgs configuration) w.

(** The arguments that [Test] hands to [run]. *)
Definition testArgs (cfg : TestConfig) : list string :=
  ["test"]
    ++ (if negb (String.eqb (Configuration cfg) "")
        then ["-c"; Configuration cfg] else [])
    ++ (if Coverage cfg then ["--enable-code-coverage"] else [])
    ++ (if Parallel cfg then ["--parallel"] else []).

(** [s.Test(ctx, cfg)]. *)
Definition Test (s : t) (cfg : TestConfig) (w : World)
  : World * option error :=
  run s (testArgs cfg) w.

End Run.

End SwiftCLI.

(** [NewSwiftCLI(workDir)]. *)
Definition NewSwiftCLI (workDir : string) : SwiftCLI.t := SwiftCLI.mk workDir.

(** [NewRegistryClient(baseURL, token)]; the HTTP client that it sets up is
    the transport of the environment. *)
Definition NewRegistryClient (baseURL token : string) : RegistryClient :=
  mkRegistryClient baseURL token.

Section Plugin.

(** [strings.TrimSpace]. *)
Variable TrimSpace : string -> string.

(** [filepath.Dir]. *)
Variable FilepathDir : string -> string.

(** [json.Unmarshal] into a [PackageManifest]. *)
Variable Unmarshal : string -> error + PackageManifest.

(** [helpers.ConfigParser] of the SDK: [GetString(key, envVar, default)] and
    [GetBool(key, default)] on a raw configuration. *)
Variable GetString : gmap string any -> string -> string -> string -> string.
Variable GetBool : gmap string any -> string -> bool -> bool.

(** [archive/zip], [crypto/sha256] and the tables of [unicode], as for
    [CreateArchive] and [UpdateVersionConstant]. *)
Variable zipBytes : list ArchiveEntry -> string.
Variable sha256 : string -> string.
Variable unicodeWord : N -> bool.

Variable sys : Sys.

(** [ParseManifest(ctx, workDir)]: runs [swift package dump-package] and
    decodes its output. *)
Definition ParseManifest (workDir : string) (w : World)
  : World * (error + PackageManifest) :=
  let '(w1, r) := exec sys (mkCmd "swift" ["package"; "dump-package"] workDir) w in
  match CmdErr r with
  | Some (ExitError _ captured) =>
    (w1, inl ("failed to parse manifest: " +:+ TrimSpace captured))
  | Some (OtherError msg) => (w1, inl ("failed to parse manifest: " +:+ msg))
  | None =>
    match Unmarshal (Stdout r) with
    | inl err => (w1, inl ("failed to unmarshal manifest: " +:+ err))
    | inr manifest => (w1, inr manifest)
    end
  end.

(** [createGitTag(ctx, tag)]. *)
Definition createGitTag (tag : string) (w : World) : World * option error :=
  let '(w1, r) := exec sys (mkCmd "git" ["tag"; tag] "") w in
  match CmdErr r with
  | Some err =>
    (w1, Some ("git tag failed: " +:+ TrimSpace (Combined r) +:+ ": "
                 +:+ cmdErrorText err))
  | None => (w1, None)
  end.

(** [parseConfig(raw)]. *)
Definition parseConfig (raw : gmap string any) : Config.t :=
  (* Parse exclude list *)
  let exclude :=
      match raw !! "archive" with
      | Some (AMap excludeRaw) =>
        match excludeRaw !! "exclude" with
        | Some (ASlice excludeList) => excludeStrings excludeList
        | _ => []
        end
      | _ => []
      end in
  (* If no exclude patterns provided, use defaults *)
  let exclude :=
      if Nat.eqb (List.length exclude) 0 then defaultExclude else exclude in
  (* Parse test config *)
  let testConfig :=
      match raw !! "test_config" with
      | Some (AMap testRaw) =>
        mkTestConfig
          (match testRaw !! "configuration" with
           | Some (AString cfg) => cfg
           | _ => "debug"
           end)
          (match testRaw !! "coverage" with
           | Some (ABool cov) => cov
           | _ => false
           end)
          (match testRaw !! "parallel" with
           | Some (ABool par) => par
           | _ => true
           end)
      | _ => mkTestConfig "debug" false true
      end in
  (* Parse archive config *)
  let archiveConfig :=
      mkArchiveConfig
        (match raw !! "archive" with
         | Some (AMap archiveRaw) =>
           match archiveRaw !! "include_docs" with
           | Some (ABool inc) => inc
           | _ => true
           end
         | _ => true
         end)
        exclude in
  Config.mk
    (GetString raw "registry" "SWIFT_REGISTRY_URL" "https://swift.pkg.github.com")
    (GetString raw "scope" "SWIFT_PACKAGE_SCOPE" "")
    (GetString raw "token" "SWIFT_REGISTRY_TOKEN" "")
    (GetString raw "package_name" "" "")
    (GetString raw "manifest_path" "" "Package.swift")
    (GetBool raw "update_manifest" false)
    (GetString raw "version_constant" "" "packageVersion")
    (GetBool raw "create_tag" true)
    (GetString raw "tag_prefix" "" "")
    (GetBool raw "validate" true)
    (GetBool raw "build" true)
    (GetBool raw "test" true)
    testConfig
    archiveConfig
    (GetBool raw "dry_run" false).

(** The start of both hooks: the path of the manifest and the working
    directory, which is that of the process when the manifest has no
    directory of its own. *)
Definition manifestPathOf (cfg : Config.t) : string :=
  if String.eqb (Config.ManifestPath cfg) "" then "Package.swift"
  else Config.ManifestPath cfg.

Definition workDirOf (cfg : Config.t) : error + string :=
  let workDir := FilepathDir (manifestPathOf cfg) in
  if String.eqb workDir "." then
    match Getwd sys with
    | inl err => inl ("failed to get working directory: " +:+ err)
    | inr dir => inr dir
    end
  else inr workDir.

(** [return &plugin.ExecuteResponse{Success: false, Message: ...}, nil]. *)
Definition failure (w : World) (message : string)
  : World * outcome (error + ExecuteResponse) :=
  (w, Returned (inr (mkExecuteResponse false message))).

(** [executePrePublish(ctx, releaseCtx, cfg, logger)], [version] being
    [releaseCtx.Version]; the log is left out. *)
Definition executePrePublish (version : string) (cfg : Config.t) (w : World)
  : World * outcome (error + ExecuteResponse) :=
  (* Determine manifest path *)
  let manifestPath := manifestPathOf cfg in
  match workDirOf cfg with
  | inl err => (w, Returned (inl err))
  | inr workDir =>
    let swift := NewSwiftCLI workDir in
    (* Validate package *)
    match (if Config.Validate cfg then
             if Config.DryRun cfg then (w, None)
             else SwiftCLI.Validate TrimSpace sys swift w
           else (w, None)) with
    | (w1, Some err) => failure w1 ("Package validation failed: " +:+ err)
    | (w1, None) =>
      (* Build package *)
      match (if Config.Build cfg then
               if Config.DryRun cfg then (w1, None)
               else SwiftCLI.Build TrimSpace sys swift "release" w1
             else (w1, None)) with
      | (w2, Some err) => failure w2 ("Build failed: " +:+ err)
      | (w2, None) =>
        (* Run tests *)
        match (if Config.Test cfg then
                 if Config.DryRun cfg then (w2, None)
                 else SwiftCLI.Test TrimSpace sys swift (Config.TestConfig cfg) w2
               else (w2, None)) with
        | (w3, Some err) => failure w3 ("Tests failed: " +:+ err)
        | (w3, None) =>
          (* Update version constant in manifest *)
          match (if Config.UpdateManifest cfg
                    && negb (String.eqb (Config.VersionConstant cfg) "") then
                   if Config.DryRun cfg then (w3, Returned None)
                   else
                     let '(fs, result) :=
                         UpdateVersionConstant unicodeWord (worldEnv w3)
                                               manifestPath
                                               (Config.VersionConstant cfg)
                                               version in
                     (mkWorld (commands w3) (requests w3)
                              (setFiles (worldEnv w3) fs), result)
                 else (w3, Returned None)) with
          | (w4, Panicked) => (w4, Panicked)
          | (w4, Returned (Some err)) =>
            failure w4 ("Failed to update version: " +:+ err)
          | (w4, Returned None) =>
            (w4, Returned (inr (mkExecuteResponse true
                                  "Package validated and built successfully")))
          end
        end
      end
    end
  end.

(** [os.Remove(archivePath)], its error dropped. *)
Definition removeArchive (archivePath : string) (w : World) : World :=
  mkWorld (commands w) (requests w)
          (setFiles (worldEnv w) (delete archivePath (files (worldEnv w)))).

(** The part of [executePostPublish] that follows the creation of the
    archive: publishing, the tag and the message. *)
Definition publishAndTag (version : string) (cfg : Config.t)
           (packageName archivePath checksum : string) (w : World)
  : World * outcome (error + ExecuteResponse) :=
  (* Publish to registry *)
  match (if negb (String.eqb (Config.Registry cfg) "") then
           if Config.DryRun cfg then (w, None)
           else
             let client :=
                 NewRegistryClient (Config.Registry cfg) (Config.Token cfg) in
             let '(reqs, err) :=
                 Publish (worldEnv w) client (Config.Scope cfg) packageName
                         version archivePath checksum in
             (mkWorld (commands w) (requests w ++ reqs) (worldEnv w), err)
         else (w, None)) with
  | (w1, Some err) => failure w1 ("Failed to publish to registry: " +:+ err)
  | (w1, None) =>
    (* Create git tag *)
    match (if Config.CreateTag cfg then
             if Config.DryRun cfg then (w1, None)
             else createGitTag (Config.TagPrefix cfg +:+ version) w1
           else (w1, None)) with
    | (w2, Some err) => failure w2 ("Failed to create git tag: " +:+ err)
    | (w2, None) =>
      let msg :=
          if Config.DryRun cfg
          then "[DRY-RUN] Would publish " +:+ packageName +:+ "@" +:+ version
               +:+ " to registry"
          else "Published " +:+ packageName +:+ "@" +:+ version
               +:+ " to registry" in
      (w2, Returned (inr (mkExecuteResponse true msg)))
    end
  end.

(** [executePostPublish(ctx, releaseCtx, cfg, logger)]. *)
Definition executePostPublish (version : string) (cfg : Config.t) (w : World)
  : World * outcome (error + ExecuteResponse) :=
  (* Determine manifest path and work directory *)
  match workDirOf cfg with
  | inl err => (w, Returned (inl err))
  | inr workDir =>
    (* Parse manifest to get package name *)
    match (if String.eqb (Config.PackageName cfg) ""
           then
             match ParseManifest workDir w with
             | (w1, inl err) => (w1, inl err)
             | (w1, inr manifest) => (w1, inr (Name manifest))
             end
           else (w, inr (Config.PackageName cfg))) with
    | (w1, inl err) => failure w1 ("Failed to parse Package.swift: " +:+ err)
    | (w1, inr packageName) =>
      (* Create package archive *)
      if Config.DryRun cfg then
        publishAndTag version cfg packageName
                      "/tmp/dry-run-archive.zip" "dry-run-checksum" w1
      else
        match CreateArchive zipBytes sha256 (files (worldEnv w1)) (sysFaults sys)
                            (sysTree sys workDir) version (Config.Archive cfg) with
        | (fs, (_, _, Some err)) =>
          failure (mkWorld (commands w1) (requests w1) (setFiles (worldEnv w1) fs))
                  ("Failed to create archive: " +:+ err)
        | (fs, (archivePath, checksum, None)) =>
          let w2 := mkWorld (commands w1) (requests w1)
                            (setFiles (worldEnv w1) fs) in
          let '(w3, result) :=
              publishAndTag version cfg packageName archivePath checksum w2 in
          (* defer os.Remove(archivePath) *)
          (removeArchive archivePath w3, result)
        end
    end
  end.

(** [Execute(ctx, req)]. *)
Definition Execute (req : ExecuteRequest) (w : World)
  : World * outcome (error + ExecuteResponse) :=
  let cfg := parseConfig (ReqConfig req) in
  let cfg := Config.setDryRun cfg (Config.DryRun cfg || ReqDryRun req) in
  match ReqHook req with
  | HookPrePublish => executePrePublish (ReqVersion req) cfg w
  | HookPostPublish => executePostPublish (ReqVersion req) cfg w
  | HookOther text =>
    (w, Returned (inr (mkExecuteResponse true
                         ("Hook " +:+ text
                            +:+ " not handled by swift-pm plugin"))))
  end.

End Plugin.

(** ** More predicates used in the statements *)

(** The request is one that the client makes for itself: it goes to a URL
    below [baseURL] and carries the token. *)
Definition authorized (c : RegistryClient) (req : Request) : Prop :=
  Strings.HasPrefix (URL req) (baseURL c) = true
  /\ Header req !! "Authorization" = Some ["Bearer " +:+ token c].

(** [walked cfg w trel t]: the node [t] at the relative path [trel] has been
    dealt with, the writer being [w]: it is a directory that could be read,
    or a file that is the root, is excluded, or could be read and is a
    member of [w] under its relative path. *)
Definition walked (cfg : ArchiveConfig) (w : list ArchiveEntry)
           (trel : string) (t : node) : Prop :=
  match t with
  | Broken _ _ => False
  | Dir _ (inl _) => False
  | Dir _ (inr _) => True
  | File _ mode content =>
    trel = "." \/ shouldExclude trel (Exclude cfg) = true
    \/ exists data, content = inr data /\ In (mkArchiveEntry trel mode data) w
  end.

(** The walk was not stopped by an error. *)
Definition noWalkErr (res : option walkError) : Prop :=
  forall e, res <> Some (WalkErr e).

(** [unreadable cfg trel t]: the walk cannot deal with the node [t] at
    [trel]: [Lstat] refuses it, it is a directory that cannot be listed, or
    it is a file, neither the root nor excluded, that cannot be copied. *)
Definition unreadable (cfg : ArchiveConfig) (trel : string) (t : node) : Prop :=
  match t with
  | Broken _ _ => True
  | Dir _ (inl _) => True
  | Dir _ (inr _) => False
  | File _ _ (inl _) =>
    trel <> "." /\ shouldExclude trel (Exclude cfg) = false
  | File _ _ (inr _) => False
  end.

(** ** Declarations of a version constant *)

(** The declaration of the constant [name] with the value [value]:
    [let name = QUOTE value QUOTE], with an annotation or without. *)
Definition declarationOf (name annotation value : string) : string :=
  "let " +:+ name +:+ annotation +:+ " = "
  +:+ String quote (value +:+ String quote EmptyString).

(** The name is not empty and does not begin with white space. *)
Definition startsName (name : string) : bool :=
  match name with
  | EmptyString => false
  | String a _ => negb (Regexp.inClass Regexp.Space a)
  end.

(** The input does not go on with a byte of the class. *)
Definition stopsClass (cl : Regexp.class) (s : string) : bool :=
  match s with
  | EmptyString => true
  | String a _ => negb (Regexp.inClass cl a)
  end.

(** The groups of a match of the version pattern: the lengths of the text
    up to the opening double quote and of the value give the positions. *)
Definition declarationCaps (head value : nat) : Regexp.captures :=
  <[0 := (0, S (head + value))]>
    (<[3 := (head + value, S (head + value))]>
       (<[2 := (head, head + value)]> (<[1 := (0, head)]> ∅))).

(** A number: one digit or more. *)
Definition isNumber (s : string) : bool :=
  negb (String.eqb s "") && allBytes (Regexp.inClass Regexp.Digit) s.

(** The input goes on with a dot and a digit, the start of one more
    component of a version. *)
Definition patchFollows (rest : string) : bool :=
  match rest with
  | String a (String d _) => Ascii.eqb a "." && Regexp.inClass Regexp.Digit d
  | _ => false
  end.

(** The directive of the tools version up to the version: two slashes, the
    text [swift-tools-version:], with white space before and after it. *)
Definition toolsDirective (ws1 ws2 : string) : string :=
  "//" +:+ ws1 +:+ "swift-tools-version:" +:+ ws2.

(** ** Predicates on the runs of the plugin *)




(** The world after the commands [l]. *)
Definition addCommands (w : World) (l : list Cmd) : World :=
  mkWorld (commands w ++ l) (requests w) (worldEnv w).


(** ** A small world for the examples

    The parameters of the plugin and a system to run it on: a package at
    [/work] whose manifest declares [packageVersion], commands that succeed
    but for the one whose first argument is [failing], and a registry that
    answers 201. *)
Module Demo.

Definition TrimSpace (s : string) : string := s.

Definition FilepathDir (path : string) : string :=
  if String.eqb path "Package.swift" then "." else "/work/pkg".

Definition Unmarshal (output : string) : error + PackageManifest :=
  inr (mkPackageManifest output [] [] [] [] "").

Definition GetString (raw : gmap string any) (key envVar def : string) : string :=
  match raw !! key with
  | Some (AString s) => s
  | _ => def
  end.

Definition GetBool (raw : gmap string any) (key : string) (def : bool) : bool :=
  match raw !! key with
  | Some (ABool b) => b
  | _ => def
  end.

Definition zipBytes (members : list ArchiveEntry) : string :=
  fold_right (fun e acc => EntryName e +:+ ":" +:+ EntryData e +:+ ";" +:+ acc)
             "end" members.

Definition sha256 (bytes : string) : string :=
  String.substring 0 4 (bytes +:+ "0000").

Definition unicodeWord (r : N) : bool := false.

Definition manifest : string :=
  "// swift-tools-version:5.7
" +:+ declarationOf "packageVersion" "" "1.0.0" +:+ "
".

Definition files : gmap string string := {["Package.swift" := manifest]}.

Definition env : Env :=
  mkEnv files (fun _ => None) (fun _ => None) (fun _ => None) (fun _ => None)
        (fun _ => inr (mkResponse 201 "")).

Definition world : World := mkWorld [] [] env.

Definition source : node :=
  Dir "work" (inr [Dir ".git" (inr [File "config" 420 (inr "[core]")]);
                   File "Package.swift" 420 (inr manifest);
                   Dir "Sources" (inr [File "main.swift" 420 (inr "print(1)")])]).

Definition succeeded : CmdResult := mkCmdResult "Lib" "" "" None.

Definition failed : CmdResult :=
  mkCmdResult "" "error: failed" "error: failed"
              (Some (ExitError "exit status 1" "error: failed")).

Definition sys (failing : string) (wd : error + string) : Sys :=
  mkSys (fun _ c =>
           match CmdArgs c with
           | a :: _ => if String.eqb a failing then failed else succeeded
           | [] => succeeded
           end)
        wd
        (mkArchiveFaults "/tmp/swift-package-1.zip" None None None None None)
        (fun _ => source).

Definition cfg (dryRun : bool) : Config.t :=
  Config.mk "https://registry.example" "acme" "secret" "" "Package.swift"
            true "packageVersion" true "v" true true true
            (mkTestConfig "debug" false true)
            (mkArchiveConfig true defaultExclude) dryRun.

End Demo.

(** * Theorems *)

(** ** The exclusion matcher *)

Lemma shouldExclude_existsb path patterns :
  shouldExclude path patterns = existsb (excludedBy path) patterns.
Proof.
  induction patterns as [|p ps IH]; simpl; [reflexivity|].
  rewrite IH. destruct (excludedBy path p); reflexivity.
Qed.

Lemma shouldExclude_In path pattern patterns :
  In pattern patterns -> excludedBy path pattern = true ->
  shouldExclude path patterns = true.
Proof.
  intros Hin Hex. rewrite shouldExclude_existsb.
  apply existsb_exists. exists pattern. split; assumption.
Qed.

(** C1: with the bare pattern "Tests" in the list, the paths "Tests",
    "Tests/Foo.swift" and "src/Tests/Foo.swift" are excluded whatever the
    other patterns are; the pattern alone does not exclude
    "Sources/Tests.swift", whose segments are "Sources" and "Tests.swift". *)
Theorem shouldExclude_bare_Tests :
  (forall patterns : list string,
      In "Tests" patterns ->
      shouldExclude "Tests" patterns = true
      /\ shouldExclude "Tests/Foo.swift" patterns = true
      /\ shouldExclude "src/Tests/Foo.swift" patterns = true)
  /\ shouldExclude "Sources/Tests.swift" ["Tests"] = false
  /\ Strings.Split "Sources/Tests.swift" Filepath.Separator
     = ["Sources"; "Tests.swift"]
  /\ Filepath.Match "Tests" "Tests.swift" = (false, None).
Proof.
  split.
  - intros patterns Hin.
    repeat split; apply (shouldExclude_In _ "Tests"); auto; vm_compute; reflexivity.
  - repeat split; vm_compute; reflexivity.
Qed.

Lemma shouldExclude_bare_Tests_witness :
  shouldExclude "Tests" [".git"; "Tests"] = true
  /\ shouldExclude "Tests/Foo.swift" [".git"; "Tests"] = true
  /\ shouldExclude "src/Tests/Foo.swift" [".git"; "Tests"] = true.
Proof.
  apply (proj1 shouldExclude_bare_Tests [".git"; "Tests"]).
  simpl. right. left. reflexivity.
Defined.

(** *** Literal patterns *)

Lemma isMeta_false c :
  isMeta c = false ->
  Ascii.eqb c "*"%char = false /\ Ascii.eqb c "?"%char = false
  /\ Ascii.eqb c "["%char = false /\ Ascii.eqb c "\"%char = false.
Proof.
  unfold isMeta. intros H.
  repeat (apply orb_false_iff in H; destruct H as [H ?]). auto.
Qed.

Lemma scanBody_literal p inrange :
  literal p = true -> Filepath.scanBody inrange p = (p, EmptyString).
Proof.
  revert inrange. induction p as [|c r IH]; intros inrange Hl; [reflexivity|].
  simpl in Hl. apply andb_true_iff in Hl as [Hc Hr].
  apply negb_true_iff, isMeta_false in Hc as (Hs & _ & Hb & He).
  simpl. rewrite He, Hb, Hs.
  destruct (Ascii.eqb c "]"); rewrite IH by assumption; reflexivity.
Qed.

Lemma scanChunk_literal c r :
  literal (String c r) = true ->
  Filepath.scanChunk (String c r) = (false, String c r, EmptyString).
Proof.
  intros Hl. unfold Filepath.scanChunk.
  assert (Hs : Ascii.eqb c "*" = false).
  { simpl in Hl. apply andb_true_iff in Hl as [Hc _].
    apply negb_true_iff, isMeta_false in Hc. tauto. }
  simpl Filepath.skipStars. rewrite Hs.
  rewrite scanBody_literal by assumption. reflexivity.
Qed.

Lemma matchChunkLoop_literal_failed fuel p s :
  literal p = true ->
  Filepath.matchChunkLoop fuel p s true = Filepath.ChunkFail.
Proof.
  revert p s. induction fuel as [|fuel IH]; intros p s Hl; [reflexivity|].
  destruct p as [|c r]; [reflexivity|].
  simpl in Hl. apply andb_true_iff in Hl as [Hc Hr].
  apply negb_true_iff, isMeta_false in Hc as (Hs & Hq & Hb & He).
  simpl. rewrite Hb, Hq, He.
  destruct s; apply IH; assumption.
Qed.

Lemma matchChunkLoop_literal fuel p s :
  literal p = true -> String.length p < fuel ->
  Filepath.matchChunkLoop fuel p s false =
  if Strings.HasPrefix s p
  then Filepath.ChunkOk (Strings.drop (String.length p) s)
  else Filepath.ChunkFail.
Proof.
  revert p s. induction fuel as [|fuel IH]; intros p s Hl Hf; [lia|].
  destruct p as [|c r]; [simpl; reflexivity|].
  simpl in Hl. apply andb_true_iff in Hl as [Hc Hr].
  apply negb_true_iff, isMeta_false in Hc as (Hs & Hq & Hb & He).
  simpl in Hf. simpl Filepath.matchChunkLoop. rewrite Hb, Hq, He.
  destruct s as [|a s'].
  - simpl. apply matchChunkLoop_literal_failed; assumption.
  - simpl orb. cbv iota. simpl Strings.HasPrefix. simpl Strings.drop.
    rewrite (Ascii.eqb_sym c a).
    destruct (Ascii.eqb a c); simpl negb; simpl andb.
    + apply IH; [assumption|lia].
    + apply matchChunkLoop_literal_failed; assumption.
Qed.

Lemma HasPrefix_refl s : Strings.HasPrefix s s = true.
Proof.
  induction s as [|c r IH]; simpl; [reflexivity|].
  rewrite Ascii.eqb_refl. assumption.
Qed.

Lemma HasPrefix_app s p :
  Strings.HasPrefix s p = true <-> exists t, s = p +:+ t.
Proof.
  revert s. induction p as [|c p IH]; intros s; simpl.
  - split; [exists s; reflexivity | reflexivity].
  - destruct s as [|a r].
    + split; [discriminate | intros [t Ht]; discriminate].
    + rewrite andb_true_iff, IH. split.
      * intros [Hc [t ->]]. apply Ascii.eqb_eq in Hc. subst. exists t. reflexivity.
      * intros [t Ht]. injection Ht as -> ->. split; [apply Ascii.eqb_refl | eauto].
Qed.

Lemma drop_length_empty p s :
  Strings.HasPrefix s p = true ->
  String.eqb (Strings.drop (String.length p) s) EmptyString = String.eqb p s.
Proof.
  revert s. induction p as [|c r IH]; intros s H.
  - simpl. destruct s; reflexivity.
  - destruct s as [|a s']; simpl in H; [discriminate|].
    apply andb_true_iff in H as [Hc H]. apply Ascii.eqb_eq in Hc. subst a.
    simpl. rewrite Ascii.eqb_refl. apply IH; assumption.
Qed.

Lemma HasPrefix_false_neq p s :
  Strings.HasPrefix s p = false -> String.eqb p s = false.
Proof.
  intros H. apply String.eqb_neq. intros ->.
  rewrite HasPrefix_refl in H. discriminate.
Qed.

(** A pattern without special bytes matches exactly the name equal to it, and
    is never rejected. *)
Lemma Match_literal p name :
  literal p = true -> Filepath.Match p name = (String.eqb p name, None).
Proof.
  intros Hl. unfold Filepath.Match.
  destruct p as [|c r].
  - simpl. destruct name; reflexivity.
  - cbn -[String.eqb Filepath.scanChunk Filepath.matchChunk Strings.drop
          String.length Filepath.checkRest Filepath.starLoop].
    rewrite scanChunk_literal by assumption.
    cbn -[String.eqb Filepath.scanChunk Filepath.matchChunk Strings.drop
          String.length Filepath.checkRest Filepath.starLoop].
    unfold Filepath.matchChunk.
    rewrite matchChunkLoop_literal by (auto; lia).
    change (String.eqb EmptyString EmptyString) with true. cbn [negb].
    assert (Hfin : forall t, Filepath.matchLoop (String.length (String c r)) EmptyString t
                     = (String.eqb t EmptyString, None)) by (intros t; reflexivity).
    assert (Hck : Filepath.checkRest (String.length (String c r)) EmptyString = None)
      by reflexivity.
    destruct (Strings.HasPrefix name (String c r)) eqn:Hp.
    + rewrite orb_false_r, Hfin, Hck, (drop_length_empty _ _ Hp).
      destruct (String.eqb (String c r) name); reflexivity.
    + rewrite Hck, (HasPrefix_false_neq _ _ Hp). reflexivity.
Qed.

(** *** Segments and base names *)

Lemma Split_no_separator path sep part :
  In part (Strings.Split path sep) -> Strings.ContainsByte part sep = false.
Proof.
  revert part. induction path as [|c r IH]; intros part Hin.
  - simpl in Hin. destruct Hin as [<-|[]]. reflexivity.
  - simpl in Hin. destruct (Ascii.eqb c sep) eqn:Hc.
    + destruct Hin as [<-|Hin]; [reflexivity | apply IH; assumption].
    + destruct (Strings.Split r sep) as [|h t] eqn:Hs.
      * destruct Hin as [<-|[]]. simpl. rewrite Hc. reflexivity.
      * destruct Hin as [<-|Hin].
        -- simpl. rewrite Hc. apply IH. left. reflexivity.
        -- apply IH. right. assumption.
Qed.

Lemma lastElement_no_separator path :
  Strings.ContainsByte (Filepath.lastElement path) Filepath.Separator = false.
Proof.
  induction path as [|c r IH]; [reflexivity|].
  simpl. destruct (Strings.ContainsByte r Filepath.Separator) eqn:Hr; [assumption|].
  destruct (Ascii.eqb c Filepath.Separator) eqn:Hc; [assumption|].
  simpl. rewrite Hc. assumption.
Qed.

Lemma ContainsByte_app s t c :
  Strings.ContainsByte (s +:+ t) c
  = Strings.ContainsByte s c || Strings.ContainsByte t c.
Proof.
  induction s as [|a r IH]; simpl; [reflexivity|].
  rewrite IH. apply orb_assoc.
Qed.

Lemma lastElement_empty t :
  Filepath.lastElement t = EmptyString ->
  t = EmptyString \/ exists u, t = u +:+ String Filepath.Separator EmptyString.
Proof.
  induction t as [|c r IH]; [left; reflexivity|].
  simpl. destruct (Strings.ContainsByte r Filepath.Separator) eqn:Hr.
  - intros H. destruct (IH H) as [->|[u ->]]; [discriminate|].
    right. exists (String c u). reflexivity.
  - destruct (Ascii.eqb_spec c Filepath.Separator) as [->|Hc]; [|discriminate].
    intros ->. right. exists EmptyString. reflexivity.
Qed.

Lemma stripTrailingSeparators_no_trailing t u :
  Filepath.stripTrailingSeparators t <> u +:+ String Filepath.Separator EmptyString.
Proof.
  revert u. induction t as [|c r IH]; intros u.
  - simpl. destruct u; discriminate.
  - simpl. destruct (Filepath.stripTrailingSeparators r) as [|a r'] eqn:Hs.
    + destruct (Ascii.eqb_spec c Filepath.Separator) as [->|Hc].
      * destruct u; discriminate.
      * destruct u as [|b u]; simpl.
        -- intros H. injection H as H. exact (Hc H).
        -- destruct u; discriminate.
    + destruct u as [|b u]; simpl; [discriminate|].
      intros H. injection H as -> H. exact (IH u H).
Qed.

(** [filepath.Base] returns the separator alone, for a path made of
    separators only, or else a name without separator. *)
Lemma Base_cases path :
  (Filepath.Base path = String Filepath.Separator EmptyString
   /\ Strings.HasPrefix path (String Filepath.Separator EmptyString) = true)
  \/ Strings.ContainsByte (Filepath.Base path) Filepath.Separator = false.
Proof.
  destruct path as [|c r]; [right; reflexivity|].
  unfold Filepath.Base.
  destruct (Filepath.lastElement (Filepath.stripTrailingSeparators (String c r)))
    as [|a b] eqn:Hl.
  - left. split; [reflexivity|].
    apply lastElement_empty in Hl as [Hs|[u Hu]].
    + simpl in Hs.
      destruct (Filepath.stripTrailingSeparators r); [|discriminate].
      destruct (Ascii.eqb_spec c Filepath.Separator) as [->|]; [reflexivity|discriminate].
    + exfalso. exact (stripTrailingSeparators_no_trailing _ _ Hu).
  - right. rewrite <- Hl. apply lastElement_no_separator.
Qed.

(** *** Directory patterns *)

Lemma HasSuffix_app d s : Strings.HasSuffix (d +:+ s) s = true.
Proof.
  induction d as [|c r IH]; simpl.
  - destruct s; simpl; rewrite ?String.eqb_refl, ?Ascii.eqb_refl; reflexivity.
  - rewrite IH. apply orb_true_r.
Qed.

Lemma take_app d s : Strings.take (String.length d) (d +:+ s) = d.
Proof. induction d as [|c r IH]; simpl; [destruct s; reflexivity | rewrite IH; reflexivity]. Qed.

Lemma length_app d s : String.length (d +:+ s) = String.length d + String.length s.
Proof. induction d as [|c r IH]; simpl; [reflexivity | rewrite IH; reflexivity]. Qed.

Lemma TrimSuffix_app d s : Strings.TrimSuffix (d +:+ s) s = d.
Proof.
  unfold Strings.TrimSuffix. rewrite HasSuffix_app, length_app.
  replace (String.length d + String.length s - String.length s) with (String.length d) by lia.
  apply take_app.
Qed.

Lemma literal_app d s : literal (d +:+ s) = literal d && literal s.
Proof.
  induction d as [|c r IH]; simpl; [reflexivity|].
  rewrite IH. apply andb_assoc.
Qed.

Lemma eqb_no_separator p name :
  Strings.ContainsByte p Filepath.Separator = true ->
  Strings.ContainsByte name Filepath.Separator = false ->
  String.eqb p name = false.
Proof. intros Hp Hn. apply String.eqb_neq. intros ->. congruence. Qed.

(** What a pattern made of a literal directory name and the separator
    excludes: the directory itself and what lies below it. *)
Lemma excludedBy_literal_dir d path :
  literal d = true ->
  excludedBy path (d +:+ "/")
  = String.eqb path d || Strings.HasPrefix path (d +:+ "/").
Proof.
  intros Hd.
  assert (Hlit : literal (d +:+ "/") = true)
    by (rewrite literal_app, Hd; reflexivity).
  assert (Hsep : Strings.ContainsByte (d +:+ "/") Filepath.Separator = true)
    by (rewrite ContainsByte_app; simpl; apply orb_true_r).
  unfold excludedBy.
  rewrite HasSuffix_app, TrimSuffix_app.
  change (String Filepath.Separator EmptyString) with "/".
  assert (Hparts : existsb (fun part => fst (Filepath.Match (d +:+ "/") part))
                     (Strings.Split path Filepath.Separator) = false).
  { destruct (existsb _ _) eqn:He; [|reflexivity].
    apply existsb_exists in He as (part & Hin & Hm).
    rewrite (Match_literal _ _ Hlit) in Hm. simpl in Hm.
    rewrite (eqb_no_separator _ _ Hsep (Split_no_separator _ _ _ Hin)) in Hm.
    discriminate. }
  rewrite Hparts, orb_false_r, (Match_literal _ _ Hlit). cbn [fst].
  destruct (String.eqb path d || Strings.HasPrefix path (d +:+ "/")) eqn:Hlit';
    [reflexivity|].
  apply orb_false_iff in Hlit' as [_ Hpre]. cbn [orb].
  assert (Heq : String.eqb path (d +:+ "/") = false).
  { apply String.eqb_neq. intros ->. rewrite HasPrefix_refl in Hpre. discriminate. }
  rewrite Heq. cbn [orb].
  destruct (Base_cases path) as [[Hb Hp]|Hb].
  - apply String.eqb_neq. rewrite Hb. intros He.
    destruct d as [|c [|c' d']]; try discriminate.
    change (EmptyString +:+ "/") with (String Filepath.Separator EmptyString) in Hpre.
    congruence.
  - apply (eqb_no_separator _ _ Hsep Hb).
Qed.

(** C2: the directory pattern "X/" excludes exactly the path "X" and the
    paths that begin with "X/"; those stay excluded when other patterns are
    added, and "Xylophone" is not excluded. *)
Theorem shouldExclude_directory_prefix :
  (forall path : string,
      shouldExclude path ["X/"] = true
      <-> path = "X" \/ exists rest : string, path = "X/" +:+ rest)
  /\ (forall (path : string) (patterns : list string),
         In "X/" patterns ->
         path = "X" \/ (exists rest : string, path = "X/" +:+ rest) ->
         shouldExclude path patterns = true)
  /\ shouldExclude "Xylophone" ["X/"] = false.
Proof.
  assert (Hex : forall path, excludedBy path "X/" = true
                  <-> path = "X" \/ exists rest, path = "X/" +:+ rest).
  { intros path. change "X/" with ("X" +:+ "/").
    rewrite (excludedBy_literal_dir "X" path eq_refl).
    rewrite orb_true_iff, String.eqb_eq, HasPrefix_app. reflexivity. }
  split; [|split].
  - intros path. simpl. rewrite <- Hex.
    destruct (excludedBy path "X/"); split; auto.
  - intros path patterns Hin Hp.
    apply (shouldExclude_In _ "X/"); [assumption | apply Hex; assumption].
  - vm_compute. reflexivity.
Qed.

Lemma shouldExclude_directory_prefix_witness :
  shouldExclude "X/a.swift" ["*.log"; "X/"] = true.
Proof.
  apply (proj1 (proj2 shouldExclude_directory_prefix) "X/a.swift" ["*.log"; "X/"]).
  - simpl. right. left. reflexivity.
  - right. exists "a.swift". reflexivity.
Defined.

(** *** The loops of [filepath.Match] end within their bounds *)

Lemma drop_length_le n s : String.length (Strings.drop n s) <= String.length s.
Proof.
  revert s. induction n as [|n IH]; intros s; [destruct s; simpl; lia|].
  destruct s as [|c r]; simpl; [lia|]. specialize (IH r). lia.
Qed.

Lemma drop_length_lt n c r :
  1 <= n -> String.length (Strings.drop n (String c r)) < String.length (String c r).
Proof.
  intros Hn. destruct n as [|n]; [lia|]. simpl.
  pose proof (drop_length_le n r). lia.
Qed.

Lemma DecodeRuneInString_width c r :
  1 <= snd (Utf8.DecodeRuneInString (String c r)).
Proof.
  unfold Utf8.DecodeRuneInString.
  repeat match goal with
         | |- context [if ?b then _ else _] => destruct b
         | |- context [match ?s with EmptyString => _ | String _ _ => _ end] =>
           destruct s
         end; simpl; lia.
Qed.

Lemma getEsc_length chunk r nchunk :
  Filepath.getEsc chunk = Some (r, nchunk) ->
  String.length nchunk < String.length chunk.
Proof.
  unfold Filepath.getEsc. destruct chunk as [|c t]; [discriminate|].
  destruct (Ascii.eqb c "-" || Ascii.eqb c "]"); [discriminate|].
  set (chunk1 := if Ascii.eqb c "\" then t else String c t).
  assert (Hle : String.length chunk1 <= String.length (String c t))
    by (subst chunk1; destruct (Ascii.eqb c "\"); simpl; lia).
  destruct chunk1 as [|a u]; [discriminate|].
  pose proof (DecodeRuneInString_width a u) as Hw.
  destruct (Utf8.DecodeRuneInString (String a u)) as [rn n]. simpl in Hw.
  destruct (N.eqb rn Utf8.RuneError && Nat.eqb n 1); [discriminate|].
  pose proof (drop_length_lt n a u Hw) as Hd.
  destruct (Strings.drop n (String a u)); [discriminate|].
  intros H. injection H as _ <-. lia.
Qed.

Lemma classLoop_fuel f1 f2 chunk r found nrange :
  String.length chunk < f1 -> String.length chunk < f2 ->
  Filepath.classLoop f1 chunk r found nrange
  = Filepath.classLoop f2 chunk r found nrange.
Proof.
  revert f2 chunk found nrange.
  induction f1 as [|f1 IH]; intros f2 chunk found nrange H1 H2; [lia|].
  destruct f2 as [|f2]; [lia|]. cbn [Filepath.classLoop].
  destruct (Filepath.headIs chunk "]" && negb (Nat.eqb nrange 0)); [reflexivity|].
  destruct (Filepath.getEsc chunk) as [[lo chunk1]|] eqn:He; [|reflexivity].
  apply getEsc_length in He.
  destruct (Filepath.headIs chunk1 "-").
  - destruct (Filepath.getEsc (Strings.drop 1 chunk1)) as [[hi chunk2]|] eqn:He2;
      [|reflexivity].
    apply getEsc_length in He2. pose proof (drop_length_le 1 chunk1) as Hd.
    apply IH; lia.
  - apply IH; lia.
Qed.

Lemma classLoop_length fuel chunk r found nrange rest b :
  Filepath.classLoop fuel chunk r found nrange = Some (rest, b) ->
  String.length rest < String.length chunk.
Proof.
  revert chunk found nrange.
  induction fuel as [|fuel IH]; intros chunk found nrange; [discriminate|].
  cbn [Filepath.classLoop].
  destruct (Filepath.headIs chunk "]" && negb (Nat.eqb nrange 0)) eqn:Hh.
  - intros H. injection H as <- _.
    destruct chunk as [|c t]; [discriminate|]. simpl. lia.
  - destruct (Filepath.getEsc chunk) as [[lo chunk1]|] eqn:He; [|discriminate].
    apply getEsc_length in He.
    destruct (Filepath.headIs chunk1 "-").
    + destruct (Filepath.getEsc (Strings.drop 1 chunk1)) as [[hi chunk2]|] eqn:He2;
        [|discriminate].
      apply getEsc_length in He2. pose proof (drop_length_le 1 chunk1) as Hd.
      intros H. apply IH in H. lia.
    + intros H. apply IH in H. lia.
Qed.

Lemma matchChunkLoop_fuel f1 f2 chunk s failed :
  String.length chunk < f1 -> String.length chunk < f2 ->
  Filepath.matchChunkLoop f1 chunk s failed
  = Filepath.matchChunkLoop f2 chunk s failed.
Proof.
  revert f2 chunk s failed.
  induction f1 as [|f1 IH]; intros f2 chunk s failed H1 H2; [lia|].
  destruct f2 as [|f2]; [lia|].
  destruct chunk as [|c chunk']; [reflexivity|].
  simpl in H1, H2. cbn [Filepath.matchChunkLoop].
  destruct (Ascii.eqb c "[").
  - destruct (if failed || _ then _ else _) as [r s1].
    pose proof (drop_length_le 1 chunk') as Hd.
    set (chunk1 := if Filepath.headIs chunk' "^" then Strings.drop 1 chunk' else chunk').
    assert (Hc1 : String.length chunk1 <= String.length chunk')
      by (subst chunk1; destruct (Filepath.headIs chunk' "^"); lia).
    rewrite (classLoop_fuel f1 f2) by lia.
    destruct (Filepath.classLoop f2 chunk1 r false 0) as [[chunk2 found]|] eqn:Hc;
      [|reflexivity].
    apply classLoop_length in Hc. apply IH; lia.
  - destruct (Ascii.eqb c "?").
    + destruct s as [|a s']; [apply IH; lia|].
      destruct (failed || false); [apply IH; lia|].
      destruct (Utf8.DecodeRuneInString (String a s')). apply IH; lia.
    + destruct (Ascii.eqb c "\").
      * destruct chunk' as [|c' chunk'']; [reflexivity|]. simpl in H1, H2.
        destruct s as [|a s']; [apply IH; lia|].
        destruct (failed || false); apply IH; lia.
      * destruct s as [|a s']; [apply IH; lia|].
        destruct (failed || false); apply IH; lia.
Qed.

Lemma scanBody_length inrange p :
  String.length (fst (Filepath.scanBody inrange p))
  + String.length (snd (Filepath.scanBody inrange p)) = String.length p.
Proof.
  remember (String.length p) as n eqn:En.
  assert (Hn : String.length p <= n) by lia. rewrite En. clear En.
  revert inrange p Hn. induction n as [|n IH]; intros inrange p Hn.
  - destruct p; [reflexivity | simpl in Hn; lia].
  - destruct p as [|c r]; [reflexivity|]. simpl in Hn.
    assert (Hstep : forall b,
               String.length (fst (let '(chunk, rest) := Filepath.scanBody b r in
                                   (String c chunk, rest)))
               + String.length (snd (let '(chunk, rest) := Filepath.scanBody b r in
                                     (String c chunk, rest)))
               = S (String.length r)).
    { intros b. specialize (IH b r ltac:(lia)).
      destruct (Filepath.scanBody b r). simpl in *. lia. }
    cbn [Filepath.scanBody].
    destruct (Ascii.eqb c "\").
    + destruct r as [|c' r']; [reflexivity|]. simpl in Hn.
      specialize (IH inrange r' ltac:(lia)).
      destruct (Filepath.scanBody inrange r'). simpl in *. lia.
    + destruct (Ascii.eqb c "["); [apply Hstep|].
      destruct (Ascii.eqb c "]"); [apply Hstep|].
      destruct (Ascii.eqb c "*"); [|apply Hstep].
      destruct inrange; [apply Hstep | reflexivity].
Qed.

Lemma scanBody_progress inrange c r :
  Ascii.eqb c "*" = false ->
  String.length (snd (Filepath.scanBody inrange (String c r))) <= String.length r.
Proof.
  intros Hc.
  assert (Hstep : forall b,
             String.length (snd (let '(chunk, rest) := Filepath.scanBody b r in
                                 (String c chunk, rest))) <= String.length r).
  { intros b. pose proof (scanBody_length b r).
    destruct (Filepath.scanBody b r). simpl in *. lia. }
  cbn [Filepath.scanBody]. rewrite Hc.
  destruct (Ascii.eqb c "\").
  - destruct r as [|c' r']; [simpl; lia|].
    pose proof (scanBody_length inrange r').
    destruct (Filepath.scanBody inrange r'). simpl in *. lia.
  - destruct (Ascii.eqb c "["); [apply Hstep|].
    destruct (Ascii.eqb c "]"); apply Hstep.
Qed.

Lemma skipStars_spec star p :
  let '(star', q) := Filepath.skipStars star p in
  Filepath.headIs q "*" = false
  /\ String.length q <= String.length p
  /\ (star' = true -> star = true \/ String.length q < String.length p).
Proof.
  revert star. induction p as [|c r IH]; intros star.
  - simpl. auto.
  - simpl. destruct (Ascii.eqb c "*") eqn:Hc.
    + specialize (IH true). destruct (Filepath.skipStars true r) as [s' q].
      destruct IH as (H1 & H2 & H3). repeat split; auto. intros _. right. lia.
    + simpl. rewrite Hc. auto.
Qed.

(** A round of the pattern loop makes the pattern shorter. *)
Lemma scanChunk_shorter pattern :
  pattern <> EmptyString ->
  String.length (snd (Filepath.scanChunk pattern)) < String.length pattern.
Proof.
  intros Hne. unfold Filepath.scanChunk.
  pose proof (skipStars_spec false pattern) as Hs.
  destruct (Filepath.skipStars false pattern) as [star q].
  destruct Hs as (Hh & Hle & Hstar).
  pose proof (scanBody_length false q) as Hb.
  destruct q as [|c r].
  - simpl. destruct pattern; [congruence | simpl; lia].
  - simpl in Hh. pose proof (scanBody_progress false c r Hh) as Hp.
    destruct (Filepath.scanBody false (String c r)). simpl in *. lia.
Qed.

Lemma checkRest_fuel f1 f2 pattern :
  String.length pattern < f1 -> String.length pattern < f2 ->
  Filepath.checkRest f1 pattern = Filepath.checkRest f2 pattern.
Proof.
  revert f2 pattern. induction f1 as [|f1 IH]; intros f2 pattern H1 H2; [lia|].
  destruct f2 as [|f2]; [lia|].
  destruct pattern as [|c r]; [reflexivity|].
  cbn [Filepath.checkRest].
  pose proof (scanChunk_shorter (String c r) ltac:(discriminate)) as Hs.
  destruct (Filepath.scanChunk (String c r)) as [[star chunk] rest].
  simpl in Hs.
  destruct (Filepath.matchChunk chunk EmptyString); try reflexivity;
    apply IH; simpl in *; lia.
Qed.

(** With fuel above the length of the pattern, the result of the pattern
    loop does not depend on the fuel: the bound is never reached. *)
Lemma matchLoop_fuel f1 f2 pattern name :
  String.length pattern < f1 -> String.length pattern < f2 ->
  Filepath.matchLoop f1 pattern name = Filepath.matchLoop f2 pattern name.
Proof.
  revert f2 pattern name.
  induction f1 as [|f1 IH]; intros f2 pattern name H1 H2; [lia|].
  destruct f2 as [|f2]; [lia|].
  destruct pattern as [|c r]; [reflexivity|].
  cbn [Filepath.matchLoop].
  pose proof (scanChunk_shorter (String c r) ltac:(discriminate)) as Hs.
  destruct (Filepath.scanChunk (String c r)) as [[star chunk] rest].
  simpl in Hs, H1, H2.
  destruct (star && String.eqb chunk EmptyString); [reflexivity|].
  rewrite (checkRest_fuel f1 f2) by lia.
  assert (Hrec : forall t, Filepath.matchLoop f1 rest t = Filepath.matchLoop f2 rest t)
    by (intros t; apply IH; lia).
  destruct (Filepath.matchChunk chunk name) as [t| |e]; [|
    destruct star; [destruct (Filepath.starLoop _ _ _); [apply Hrec|..]|]; reflexivity
    | reflexivity].
  destruct (String.eqb t EmptyString || negb (String.eqb rest EmptyString));
    [apply Hrec|].
  destruct star; [destruct (Filepath.starLoop _ _ _); [apply Hrec|..]|]; reflexivity.
Qed.

(** [filepath.Match] never reports a match together with an error. *)
Lemma matchLoop_error fuel pattern name e :
  snd (Filepath.matchLoop fuel pattern name) = Some e ->
  fst (Filepath.matchLoop fuel pattern name) = false.
Proof.
  revert pattern name. induction fuel as [|fuel IH]; intros pattern name;
    [discriminate|].
  destruct pattern as [|c r]; [discriminate|].
  cbn [Filepath.matchLoop].
  destruct (Filepath.scanChunk (String c r)) as [[star chunk] rest].
  destruct (star && String.eqb chunk EmptyString); [discriminate|].
  assert (Hfall :
            snd (if star
                 then match Filepath.starLoop chunk (String.eqb rest EmptyString) name with
                      | Filepath.StarFound t => Filepath.matchLoop fuel rest t
                      | Filepath.StarNone =>
                        match Filepath.checkRest fuel rest with
                        | Some e => (false, Some e)
                        | None => (false, None)
                        end
                      | Filepath.StarErr e => (false, Some e)
                      end
                 else match Filepath.checkRest fuel rest with
                      | Some e => (false, Some e)
                      | None => (false, None)
                      end) = Some e ->
            fst (if star
                 then match Filepath.starLoop chunk (String.eqb rest EmptyString) name with
                      | Filepath.StarFound t => Filepath.matchLoop fuel rest t
                      | Filepath.StarNone =>
                        match Filepath.checkRest fuel rest with
                        | Some e => (false, Some e)
                        | None => (false, None)
                        end
                      | Filepath.StarErr e => (false, Some e)
                      end
                 else match Filepath.checkRest fuel rest with
                      | Some e => (false, Some e)
                      | None => (false, None)
                      end) = false).
  { destruct star.
    - destruct (Filepath.starLoop _ _ _); [apply IH| |reflexivity].
      destruct (Filepath.checkRest fuel rest); reflexivity.
    - destruct (Filepath.checkRest fuel rest); reflexivity. }
  destruct (Filepath.matchChunk chunk name) as [t| |e']; [|exact Hfall|reflexivity].
  destruct (String.eqb t EmptyString || negb (String.eqb rest EmptyString));
    [apply IH | exact Hfall].
Qed.

Lemma Match_error pattern name e :
  snd (Filepath.Match pattern name) = Some e ->
  fst (Filepath.Match pattern name) = false.
Proof. apply matchLoop_error. Qed.

(** *** Malformed patterns *)

(** The pattern "[" is rejected on every name: its bracket expression is
    never closed. *)
Lemma open_bracket_bad name : badOn "[" name.
Proof.
  unfold badOn, Filepath.Match.
  cbn [String.length Filepath.matchLoop].
  change (Filepath.scanChunk "[") with (false, "[", EmptyString).
  cbn [andb]. unfold Filepath.matchChunk.
  cbn [String.length Filepath.matchChunkLoop].
  change (Ascii.eqb "[" "[") with true. cbv iota.
  destruct (if false || _ then _ else _) as [r s1]. reflexivity.
Qed.

Lemma shouldExclude_cons path pattern rest :
  shouldExclude path (pattern :: rest)
  = excludedBy path pattern || shouldExclude path rest.
Proof. simpl. destruct (excludedBy path pattern); reflexivity. Qed.

(** C10, as stated, fails: "[" is malformed on every name, and still
    excludes the path "[" (by the direct comparison), so it is not simply
    skipped. *)
Lemma shouldExclude_malformed_counterexample :
  ~ (forall path pattern rest,
        (forall name, badOn pattern name) ->
        shouldExclude path (pattern :: rest) = shouldExclude path rest).
Proof.
  intros H. specialize (H "[" "[" [] open_bracket_bad).
  vm_compute in H. discriminate.
Qed.

(** C10 (amended): [shouldExclude] is total: the loops of [filepath.Match]
    end within the length of the pattern and of its chunks.  An error of [filepath.Match] comes
    with [matched = false] and is dropped: a pattern rejected on the segments
    and on the base name of the path contributes no glob match, only its
    literal comparisons (direct equality and directory prefix) count, and the
    remaining patterns are evaluated as usual. *)
Theorem shouldExclude_malformed_pattern :
  (forall fuel pattern name,
      String.length pattern < fuel ->
      Filepath.matchLoop fuel pattern name = Filepath.Match pattern name)
  /\ (forall fuel chunk s,
         String.length chunk < fuel ->
         Filepath.matchChunkLoop fuel chunk s false = Filepath.matchChunk chunk s)
  /\ (forall pattern name e,
         snd (Filepath.Match pattern name) = Some e ->
         fst (Filepath.Match pattern name) = false)
  /\ (forall path pattern rest,
         (forall part, In part (Strings.Split path Filepath.Separator) ->
                       badOn pattern part) ->
         badOn pattern (Filepath.Base path) ->
         shouldExclude path (pattern :: rest)
         = ((Strings.HasSuffix pattern "/"
             && (String.eqb path (Strings.TrimSuffix pattern "/")
                 || Strings.HasPrefix path (Strings.TrimSuffix pattern "/" +:+ "/")))
            || String.eqb path pattern)
           || shouldExclude path rest).
Proof.
  split; [|split; [|split]].
  - intros fuel pattern name Hf. apply matchLoop_fuel; [assumption|lia].
  - intros fuel chunk s Hf. apply matchChunkLoop_fuel; [assumption|lia].
  - apply Match_error.
  - intros path pattern rest Hparts Hbase.
    rewrite shouldExclude_cons. f_equal. unfold excludedBy.
    rewrite (Match_error _ _ _ Hbase), orb_false_r.
    assert (Hex : existsb (fun part => fst (Filepath.Match pattern part))
                    (Strings.Split path Filepath.Separator) = false).
    { destruct (existsb _ _) eqn:He; [|reflexivity].
      apply existsb_exists in He as (part & Hin & Hm).
      rewrite (Match_error _ _ _ (Hparts part Hin)) in Hm. discriminate. }
    rewrite Hex, orb_false_r.
    destruct (Strings.HasSuffix pattern "/"); reflexivity.
Qed.

Lemma shouldExclude_malformed_pattern_witness :
  shouldExclude "Sources/main.swift" ["["; "Sources"] = true.
Proof.
  rewrite (proj2 (proj2 (proj2 shouldExclude_malformed_pattern))
                 "Sources/main.swift" "[" ["Sources"]).
  - vm_compute. reflexivity.
  - intros part _. apply open_bracket_bad.
  - apply open_bracket_bad.
Defined.

(** ** The registry client *)

(** One step of a proof about a client call: case analysis on the call that
    the result is waiting for. *)
Ltac client_step :=
  match goal with
  | |- context [match os_Open ?e ?p with _ => _ end] =>
    let H := fresh "Hopen" in destruct (os_Open e p) eqn:H
  | |- context [match file_Size ?e ?p ?f with _ => _ end] =>
    let H := fresh "Hsize" in destruct (file_Size e p f) eqn:H
  | |- context [match NewRequestWithContext ?e ?m ?u ?b with _ => _ end] =>
    let H := fresh "Hreq" in
    destruct (NewRequestWithContext e m u b) eqn:H
  | |- context [match Do ?e ?r with _ => _ end] =>
    let H := fresh "Hdo" in destruct (Do e r) eqn:H
  end.

Lemma NewRequestWithContext_inr env method url body req :
  NewRequestWithContext env method url body = inr req ->
  req = mkRequest method url ∅ 0 body.
Proof.
  unfold NewRequestWithContext. destruct (urlError env url); [discriminate|].
  intros H. injection H as <-. reflexivity.
Qed.

Lemma os_Open_inr env path content :
  os_Open env path = inr content -> files env !! path = Some content.
Proof.
  unfold os_Open. destruct (openError env path); [discriminate|].
  destruct (files env !! path); [|discriminate].
  intros H. injection H as <-. reflexivity.
Qed.

Lemma file_Size_inr env path content size :
  file_Size env path content = inr size ->
  size = Z.of_nat (String.length content).
Proof.
  unfold file_Size. destruct (statError env path); [discriminate|].
  intros H. injection H as <-. reflexivity.
Qed.

Lemma Publish_cases env c scope name version archivePath checksum :
  (exists msg,
      Publish env c scope name version archivePath checksum = ([], Some msg))
  \/ (exists req content,
         files env !! archivePath = Some content
         /\ Method req = "PUT"
         /\ Header req !! "Digest" = Some ["sha-256=" +:+ checksum]
         /\ Body req = Some content
         /\ ContentLength req = Z.of_nat (String.length content)
         /\ ((exists e,
                 Do env req = inl e
                 /\ Publish env c scope name version archivePath checksum
                    = ([req], Some ("publish request failed: " +:+ e)))
             \/ (exists resp,
                    Do env req = inr resp
                    /\ Publish env c scope name version archivePath checksum
                       = ([req],
                          if ((StatusCode resp =? 200) || (StatusCode resp =? 201))%Z
                          then None
                          else Some ("publish failed with status "
                                       +:+ itoa (StatusCode resp) +:+ ": "
                                       +:+ ResponseBody resp))))).
Proof.
  unfold Publish.
  client_step; [left; eauto|].
  client_step; [left; eauto|].
  client_step; [left; eauto|].
  apply NewRequestWithContext_inr in Hreq. subst r.
  apply os_Open_inr in Hopen. apply file_Size_inr in Hsize. subst z.
  right.
  match goal with
  | |- context [Do env ?r] => exists r, s
  end.
  split; [assumption|]. split; [reflexivity|].
  split; [cbn; unfold Header_Set; apply lookup_insert_eq|].
  split; [reflexivity|]. split; [reflexivity|].
  client_step; [left; eauto|].
  right. exists r. split; [reflexivity|].
  unfold StatusCreated, StatusOK.
  destruct (StatusCode r =? 201)%Z; destruct (StatusCode r =? 200)%Z; reflexivity.
Qed.

(** C5: every request that [Publish] sends is a PUT that carries the header
    [Digest: sha-256=<checksum>], the content of the archive file as body and
    its byte size as [ContentLength]; when the registry answers, the result is
    nil for the statuses 200 and 201 and otherwise an error made of the status
    code and the body text; and a nil result means that the registry answered
    200 or 201. *)
Theorem Publish_status_and_request env c scope name version archivePath checksum :
  (forall req,
      In req (fst (Publish env c scope name version archivePath checksum)) ->
      Method req = "PUT"
      /\ Header req !! "Digest" = Some ["sha-256=" +:+ checksum]
      /\ exists content,
          files env !! archivePath = Some content
          /\ Body req = Some content
          /\ ContentLength req = Z.of_nat (String.length content))
  /\ (forall req resp,
         fst (Publish env c scope name version archivePath checksum) = [req] ->
         Do env req = inr resp ->
         snd (Publish env c scope name version archivePath checksum)
         = if ((StatusCode resp =? 200) || (StatusCode resp =? 201))%Z
           then None
           else Some ("publish failed with status "
                        +:+ itoa (StatusCode resp) +:+ ": " +:+ ResponseBody resp))
  /\ (snd (Publish env c scope name version archivePath checksum) = None ->
      exists req resp,
        fst (Publish env c scope name version archivePath checksum) = [req]
        /\ Do env req = inr resp
        /\ (StatusCode resp = 200 \/ StatusCode resp = 201)%Z).
Proof.
  destruct (Publish_cases env c scope name version archivePath checksum)
    as [[msg ->]|(req0 & content & Hf & Hm & Hd & Hb & Hl & Hcase)].
  - cbn [fst snd]. split; [intros ? []|]. split; [intros ? ? [=]|intros [=]].
  - assert (Hsent : fst (Publish env c scope name version archivePath checksum)
                    = [req0])
      by (destruct Hcase as [(e & _ & ->)|(resp & _ & ->)]; reflexivity).
    rewrite Hsent. split; [|split].
    + intros req [<-|[]]. eauto 10.
    + intros req resp [= <-] Hdo.
      destruct Hcase as [(e & He & _)|(resp' & Hr & ->)]; [congruence|].
      rewrite Hdo in Hr. injection Hr as <-. reflexivity.
    + destruct Hcase as [(e & _ & ->)|(resp & Hr & ->)]; cbn [snd]; [intros [=]|].
      intros Hnone. exists req0, resp. split; [reflexivity|]. split; [assumption|].
      destruct (StatusCode resp =? 200)%Z eqn:H200;
        [left; apply Z.eqb_eq; assumption|].
      destruct (StatusCode resp =? 201)%Z eqn:H201;
        [right; apply Z.eqb_eq; assumption|discriminate].
Qed.

Lemma Publish_status_and_request_witness :
  let env := mkEnv {["/tmp/swift-package-1.zip" := "PK archive bytes"]}
                   (fun _ => None) (fun _ => None) (fun _ => None) (fun _ => None)
                   (fun _ => inr (mkResponse 409 "version exists")) in
  let c := mkRegistryClient "https://registry.example" "secret" in
  snd (Publish env c "acme" "Lib" "1.2.0" "/tmp/swift-package-1.zip" "ab12")
  = Some "publish failed with status 409: version exists".
Proof.
  intros env c.
  refine (proj1 (proj2 (Publish_status_and_request env c "acme" "Lib" "1.2.0"
                          "/tmp/swift-package-1.zip" "ab12"))
                _ (mkResponse 409 "version exists") _ _).
  - vm_compute. reflexivity.
  - reflexivity.
Defined.

Lemma GetRelease_cases env c scope name version :
  (exists msg, GetRelease env c scope name version = ([], (None, Some msg)))
  \/ (exists req,
         (exists e,
             Do env req = inl e
             /\ GetRelease env c scope name version = ([req], (None, Some e)))
         \/ (exists resp,
                Do env req = inr resp
                /\ GetRelease env c scope name version
                   = ([req],
                      if (StatusCode resp =? 404)%Z then (None, None)
                      else if (StatusCode resp =? 200)%Z
                           then (Some (mkRelease version "" "" ∅), None)
                           else (None,
                                 Some ("failed to get release: status "
                                         +:+ itoa (StatusCode resp) +:+ ": "
                                         +:+ ResponseBody resp))))).
Proof.
  unfold GetRelease.
  client_step; [left; eauto|]. right.
  match goal with
  | |- context [Do env ?r] => exists r
  end.
  client_step; [left; eauto|].
  right. exists r0. split; [reflexivity|].
  unfold StatusNotFound, StatusOK.
  destruct (StatusCode r0 =? 404)%Z; [reflexivity|].
  destruct (StatusCode r0 =? 200)%Z; reflexivity.
Qed.

Lemma ListReleases_cases env c scope name :
  (exists msg, ListReleases env c scope name = ([], ([], Some msg)))
  \/ (exists req,
         (exists e,
             Do env req = inl e
             /\ ListReleases env c scope name = ([req], ([], Some e)))
         \/ (exists resp,
                Do env req = inr resp
                /\ ListReleases env c scope name
                   = ([req],
                      if (StatusCode resp =? 404)%Z then ([], None)
                      else if (StatusCode resp =? 200)%Z
                           then ([], None)
                           else ([],
                                 Some ("failed to list releases: status "
                                         +:+ itoa (StatusCode resp) +:+ ": "
                                         +:+ ResponseBody resp))))).
Proof.
  unfold ListReleases.
  client_step; [left; eauto|]. right.
  match goal with
  | |- context [Do env ?r] => exists r
  end.
  client_step; [left; eauto|].
  right. exists r0. split; [reflexivity|].
  unfold StatusNotFound, StatusOK.
  destruct (StatusCode r0 =? 404)%Z; [reflexivity|].
  destruct (StatusCode r0 =? 200)%Z; reflexivity.
Qed.

(** What a call returns once the transport has answered [resp] to the
    request it was given. *)
Lemma GetRelease_answered env c scope name version req resp :
  fst (GetRelease env c scope name version) = [req] ->
  Do env req = inr resp ->
  snd (GetRelease env c scope name version)
  = if (StatusCode resp =? 404)%Z then (None, None)
    else if (StatusCode resp =? 200)%Z
         then (Some (mkRelease version "" "" ∅), None)
         else (None, Some ("failed to get release: status "
                             +:+ itoa (StatusCode resp) +:+ ": "
                             +:+ ResponseBody resp)).
Proof.
  intros Hsent Hdo.
  destruct (GetRelease_cases env c scope name version)
    as [[msg H]|(req0 & [(e & He & H)|(resp0 & Hr & H)])];
    rewrite H in Hsent |- *; cbn [fst snd] in *; try discriminate;
    injection Hsent as Hsent; subst req0.
  - rewrite Hdo in He. discriminate.
  - rewrite Hdo in Hr. injection Hr as <-. reflexivity.
Qed.

Lemma ListReleases_answered env c scope name req resp :
  fst (ListReleases env c scope name) = [req] ->
  Do env req = inr resp ->
  snd (ListReleases env c scope name)
  = if (StatusCode resp =? 404)%Z then ([], None)
    else if (StatusCode resp =? 200)%Z
         then ([], None)
         else ([], Some ("failed to list releases: status "
                           +:+ itoa (StatusCode resp) +:+ ": "
                           +:+ ResponseBody resp)).
Proof.
  intros Hsent Hdo.
  destruct (ListReleases_cases env c scope name)
    as [[msg H]|(req0 & [(e & He & H)|(resp0 & Hr & H)])];
    rewrite H in Hsent |- *; cbn [fst snd] in *; try discriminate;
    injection Hsent as Hsent; subst req0.
  - rewrite Hdo in He. discriminate.
  - rewrite Hdo in Hr. injection Hr as <-. reflexivity.
Qed.

(** C6, as stated, fails: the registry answers 204, a 2xx status, and
    [GetRelease] returns an error. *)
Lemma GetRelease_2xx_counterexample :
  snd (GetRelease (mkEnv ∅ (fun _ => None) (fun _ => None) (fun _ => None) (fun _ => None)
                         (fun _ => inr (mkResponse 204 "")))
                  (mkRegistryClient "https://registry.example" "secret")
                  "acme" "Lib" "1.2.0")
  = (None, Some "failed to get release: status 204: ").
Proof. vm_compute. reflexivity. Qed.

(** C6 (amended): when the registry answers, [GetRelease] returns no release
    and no error for the status 404, an error for the status 500 and for
    every status other than 200 and 404 (the 2xx statuses other than 200
    included), and no error for 200; [ListReleases] returns the empty
    sequence and no error for 404. *)
Theorem GetRelease_ListReleases_status env c scope name version :
  (forall req resp,
      fst (GetRelease env c scope name version) = [req] ->
      Do env req = inr resp ->
      (StatusCode resp = 404%Z ->
       snd (GetRelease env c scope name version) = (None, None))
      /\ (StatusCode resp = 500%Z ->
          snd (GetRelease env c scope name version)
          = (None, Some ("failed to get release: status 500: "
                           +:+ ResponseBody resp)))
      /\ (StatusCode resp <> 404%Z -> StatusCode resp <> 200%Z ->
          snd (GetRelease env c scope name version)
          = (None, Some ("failed to get release: status "
                           +:+ itoa (StatusCode resp) +:+ ": "
                           +:+ ResponseBody resp)))
      /\ (StatusCode resp = 200%Z ->
          snd (snd (GetRelease env c scope name version)) = None))
  /\ (forall req resp,
         fst (ListReleases env c scope name) = [req] ->
         Do env req = inr resp ->
         StatusCode resp = 404%Z ->
         snd (ListReleases env c scope name) = ([], None)).
Proof.
  split.
  - intros req resp Hsent Hdo.
    rewrite (GetRelease_answered _ _ _ _ _ _ _ Hsent Hdo).
    repeat split.
    + intros ->. reflexivity.
    + intros ->. reflexivity.
    + intros H404 H200.
      apply Z.eqb_neq in H404, H200. rewrite H404, H200. reflexivity.
    + intros ->. reflexivity.
  - intros req resp Hsent Hdo Hs.
    rewrite (ListReleases_answered _ _ _ _ _ _ Hsent Hdo), Hs. reflexivity.
Qed.

Lemma GetRelease_ListReleases_status_witness :
  let env := mkEnv ∅ (fun _ => None) (fun _ => None) (fun _ => None) (fun _ => None)
                   (fun _ => inr (mkResponse 404 "not found")) in
  let c := mkRegistryClient "https://registry.example" "secret" in
  snd (GetRelease env c "acme" "Lib" "1.2.0") = (None, None)
  /\ snd (ListReleases env c "acme" "Lib") = ([], None).
Proof.
  intros env c. split.
  - refine (proj1 (proj1 (GetRelease_ListReleases_status env c "acme" "Lib" "1.2.0")
                         _ (mkResponse 404 "not found") _ _) _);
      [vm_compute; reflexivity | reflexivity | reflexivity].
  - refine (proj2 (GetRelease_ListReleases_status env c "acme" "Lib" "1.2.0")
                  _ (mkResponse 404 "not found") _ _ _);
      [vm_compute; reflexivity | reflexivity | reflexivity].
Defined.

(** C7: on a 200 answer, whatever its body, [ListReleases] returns the empty
    sequence, and [GetRelease] returns a release that has the requested
    version and nothing else: empty checksum, signature and metadata. *)
Theorem registry_success_ignores_body env c scope name version :
  (forall req resp,
      fst (ListReleases env c scope name) = [req] ->
      Do env req = inr resp ->
      StatusCode resp = 200%Z ->
      snd (ListReleases env c scope name) = ([], None))
  /\ (forall req resp,
         fst (GetRelease env c scope name version) = [req] ->
         Do env req = inr resp ->
         StatusCode resp = 200%Z ->
         exists release,
           snd (GetRelease env c scope name version) = (Some release, None)
           /\ Version release = version
           /\ Checksum release = ""
           /\ Signature release = ""
           /\ Metadata release = ∅).
Proof.
  split.
  - intros req resp Hsent Hdo Hs.
    rewrite (ListReleases_answered _ _ _ _ _ _ Hsent Hdo), Hs. reflexivity.
  - intros req resp Hsent Hdo Hs.
    rewrite (GetRelease_answered _ _ _ _ _ _ _ Hsent Hdo), Hs.
    eexists. split; [reflexivity|]. repeat split.
Qed.

Lemma registry_success_ignores_body_witness :
  let env := mkEnv ∅ (fun _ => None) (fun _ => None) (fun _ => None) (fun _ => None)
                   (fun _ => inr (mkResponse 200
                       "{version: 9.9.9, checksum: ff}")) in
  let c := mkRegistryClient "https://registry.example" "secret" in
  snd (ListReleases env c "acme" "Lib") = ([], None)
  /\ exists release,
      snd (GetRelease env c "acme" "Lib" "1.2.0") = (Some release, None)
      /\ Version release = "1.2.0"
      /\ Checksum release = ""
      /\ Signature release = ""
      /\ Metadata release = ∅.
Proof.
  intros env c. split.
  - refine (proj1 (registry_success_ignores_body env c "acme" "Lib" "1.2.0")
                  _ (mkResponse 200 "{version: 9.9.9, checksum: ff}") _ _ _);
      [vm_compute; reflexivity | reflexivity | reflexivity].
  - refine (proj2 (registry_success_ignores_body env c "acme" "Lib" "1.2.0")
                  _ (mkResponse 200 "{version: 9.9.9, checksum: ff}") _ _ _);
      [vm_compute; reflexivity | reflexivity | reflexivity].
Defined.


(** ** The archive *)

Lemma ReplaceByte_same s c : Strings.ReplaceByte s c c = s.
Proof.
  induction s as [|a r IH]; simpl; [reflexivity|].
  rewrite IH. destruct (Ascii.eqb_spec a c) as [->|]; reflexivity.
Qed.

Lemma walkFn_members cfg w rel n err w' res e :
  walkFn cfg w rel n err = (w', res) ->
  In e w' -> In e w \/ memberOf cfg rel n e.
Proof.
  unfold walkFn. destruct err as [e0|].
  { intros [= <- <-]. auto. }
  destruct (String.eqb rel ".") eqn:Hroot.
  { intros [= <- <-]. auto. }
  destruct (shouldExclude rel (Exclude cfg)) eqn:Hex.
  { destruct (IsDir n); intros [= <- <-]; auto. }
  destruct n as [name mode [err|content]|name listing|name err]; simpl;
    try (intros [= <- <-]; auto).
  intros Hin. apply in_app_or in Hin as [Hin|[<-|[]]]; [auto|].
  right. exists rel, name. simpl. rewrite ReplaceByte_same.
  repeat split; [constructor | | assumption].
  intros ->. discriminate.
Qed.

Lemma walk_members cfg n :
  forall rel w w' res e,
    walk cfg rel n w = (w', res) ->
    In e w' -> In e w \/ memberOf cfg rel n e.
Proof.
  induction n as [name mode content|name err|name names IH|name err]
    using node_induction; intros rel w w' res e; cbn [walk];
    try apply walkFn_members.
  destruct (walkFn cfg w rel (Dir name (inr names)) None) as [w1 [err1|]] eqn:Hfn.
  { intros [= <- <-]. eapply walkFn_members; eassumption. }
  assert (Hw1 : w1 = w
                /\ (rel = "." \/ shouldExclude rel (Exclude cfg) = false)).
  { unfold walkFn in Hfn. destruct (String.eqb_spec rel ".") as [->|].
    - injection Hfn as <-. auto.
    - destruct (shouldExclude rel (Exclude cfg)); simpl in Hfn;
        [discriminate|]. injection Hfn as <-. auto. }
  destruct Hw1 as [-> Hopen]. clear Hfn.
  assert (Hsub : forall c, In c names -> In c names) by auto.
  revert Hsub. generalize names at 1 3 as rest.
  intros rest. revert w.
  induction rest as [|c rest IHrest]; intros w Hsub; cbn [walkNames].
  { intros [= <- <-]. auto. }
  assert (Hc : In c names) by (apply Hsub; left; reflexivity).
  assert (Hrest : forall c', In c' rest -> In c' names)
    by (intros c' Hc'; apply Hsub; right; assumption).
  pose proof (proj1 (List.Forall_forall _ _) IH c Hc) as IHc.
  destruct (walk cfg (relChild rel (nodeName c)) c w) as [w2 r2] eqn:Hwalk.
  assert (Hstep : forall e0, In e0 w2 ->
                    In e0 w \/ memberOf cfg rel (Dir name (inr names)) e0).
  { intros e0 Hin. destruct (IHc _ _ _ _ e0 Hwalk Hin) as [|Hm]; [auto|].
    right. destruct Hm as (trel & fname & Hr & Hn & Hd & Hx).
    exists trel, fname. repeat split; try assumption.
    eapply reaches_below; eassumption. }
  assert (Hloop : walkNames (walk cfg) rel rest w2 = (w', res) ->
                  In e w' ->
                  In e w \/ memberOf cfg rel (Dir name (inr names)) e).
  { intros Hl Hin. destruct (IHrest w2 Hrest Hl Hin) as [Hin2|]; auto. }
  destruct r2 as [[|e2]|]; [|intros [= <- <-]; apply Hstep|exact Hloop].
  destruct c; [intros [= <- <-]; apply Hstep|exact Hloop|exact Hloop].
Qed.

Lemma Walk_members cfg root members err e :
  Walk cfg root [] = (members, err) ->
  In e members -> memberOf cfg "." root e.
Proof.
  unfold Walk. destruct (walk cfg "." root []) as [w r] eqn:Hw.
  intros Hm Hin.
  assert (w = members) by (destruct r as [[|e0]|]; congruence). subst w.
  destruct (walk_members cfg root _ _ _ _ e Hw Hin) as [[]|]; assumption.
Qed.

(** C3: the members of the archive are files of the source tree: each one
    has the relative path of a [File] node as name, a path that is not the
    root and is not excluded, below directories that are the root or are not
    excluded.  A directory hands its writer on unchanged: an excluded one is
    skipped with everything below it, another one adds only what its entries
    add.  The archive that [CreateArchive] leaves holds such members only. *)
Theorem CreateArchive_members_are_files :
  (forall cfg root members err e,
      Walk cfg root [] = (members, err) ->
      In e members -> memberOf cfg "." root e)
  /\ (forall cfg rel name names w,
         rel <> "." ->
         shouldExclude rel (Exclude cfg) = true ->
         walk cfg rel (Dir name (inr names)) w = (w, Some SkipDir))
  /\ (forall cfg rel name names w,
         rel = "." \/ shouldExclude rel (Exclude cfg) = false ->
         walk cfg rel (Dir name (inr names)) w
         = walkNames (walk cfg) rel names w)
  /\ (forall zipBytes sha256 fs faults source version cfg fs' path sum,
         CreateArchive zipBytes sha256 fs faults source version cfg
         = (fs', (path, sum, None)) ->
         exists members,
           fs' !! path = Some (zipBytes members)
           /\ forall e, In e members -> memberOf cfg "." source e).
Proof.
  split; [exact Walk_members|]. split; [|split].
  - intros cfg rel name names w Hrel Hex. cbn [walk]. unfold walkFn.
    apply String.eqb_neq in Hrel. rewrite Hrel, Hex. reflexivity.
  - intros cfg rel name names w H. cbn [walk]. unfold walkFn.
    destruct (String.eqb_spec rel ".") as [->|Hne]; [reflexivity|].
    destruct H as [->|H]; [congruence|]. rewrite H. reflexivity.
  - intros zipBytes sha256 fs faults source version cfg fs' path sum.
    unfold CreateArchive.
    destruct (createTempError faults); [discriminate|].
    destruct (Walk cfg source []) as [members [err|]] eqn:Hw; [discriminate|].
    destruct (zipCloseError faults); [discriminate|].
    destruct (seekError faults); [discriminate|].
    destruct (hashCopyError faults); [discriminate|].
    destruct (closeError faults); [discriminate|].
    intros [= <- <- _]. exists members. split.
    + apply lookup_insert_eq.
    + intros e. eapply Walk_members; eassumption.
Qed.

Lemma CreateArchive_members_are_files_witness :
  walk (mkArchiveConfig true [".git"; "Tests"]) "Tests"
       (Dir "Tests" (inr [File "test.swift" 420 (inr "import XCTest")])) []
  = ([], Some SkipDir).
Proof.
  apply (proj1 (proj2 CreateArchive_members_are_files)).
  - discriminate.
  - vm_compute. reflexivity.
Defined.

(** *** Errors and the checksum *)

Lemma hexDigit_lower c :
  isLowerHex (hexDigit (N.shiftr (N_of_ascii c) 4)) = true
  /\ isLowerHex (hexDigit (N.land (N_of_ascii c) 15)) = true.
Proof. destruct c as [[] [] [] [] [] [] [] []]; split; reflexivity. Qed.

Lemma EncodeToString_lower src : allBytes isLowerHex (EncodeToString src) = true.
Proof.
  induction src as [|c r IH]; [reflexivity|].
  cbn [EncodeToString allBytes].
  destruct (hexDigit_lower c) as [-> ->]. exact IH.
Qed.

Lemma EncodeToString_length src :
  String.length (EncodeToString src) = 2 * String.length src.
Proof. induction src as [|c r IH]; simpl; [reflexivity | rewrite IH; lia]. Qed.

(** C4: [os.CreateTemp] makes a new file.  When [CreateArchive] returns an
    error, whatever step it comes from, the path and the checksum are empty
    and the files are what they were before the call: the temporary archive
    is gone.  When it returns no error, the path is that of the temporary
    file, the file holds the container of all the members that the walk
    produced, and the checksum is the lower-case hexadecimal form, two digits
    per byte, of the SHA-256 digest of exactly these bytes. *)
Theorem CreateArchive_error_and_checksum
        zipBytes sha256 fs faults source version cfg fs' path sum err :
  fs !! tempName faults = None ->
  CreateArchive zipBytes sha256 fs faults source version cfg
  = (fs', (path, sum, err)) ->
  (err <> None -> path = "" /\ sum = "" /\ fs' = fs)
  /\ (err = None ->
      path = tempName faults
      /\ exists members,
          Walk cfg source [] = (members, None)
          /\ fs' = <[path := zipBytes members]> fs
          /\ sum = EncodeToString (sha256 (zipBytes members))
          /\ allBytes isLowerHex sum = true
          /\ String.length sum = 2 * String.length (sha256 (zipBytes members))).
Proof.
  intros Hfresh. unfold CreateArchive.
  assert (Hdel1 : delete (tempName faults) (<[tempName faults := EmptyString]> fs) = fs)
    by (apply delete_insert_id; assumption).
  assert (Hdel2 : forall b,
             delete (tempName faults)
                    (<[tempName faults := b]> (<[tempName faults := EmptyString]> fs))
             = fs)
    by (intros b; rewrite insert_insert_eq; apply delete_insert_id; assumption).
  destruct (createTempError faults).
  { intros [= <- <- <- <-]. split; [auto|discriminate]. }
  destruct (Walk cfg source []) as [members [e|]] eqn:Hw.
  { rewrite Hdel1. intros [= <- <- <- <-]. split; [auto|discriminate]. }
  destruct (zipCloseError faults).
  { rewrite Hdel1. intros [= <- <- <- <-]. split; [auto|discriminate]. }
  destruct (seekError faults).
  { rewrite Hdel2. intros [= <- <- <- <-]. split; [auto|discriminate]. }
  destruct (hashCopyError faults).
  { rewrite Hdel2. intros [= <- <- <- <-]. split; [auto|discriminate]. }
  destruct (closeError faults).
  { rewrite Hdel2. intros [= <- <- <- <-]. split; [auto|discriminate]. }
  rewrite lookup_insert_eq. cbn [default]. rewrite insert_insert_eq.
  intros [= <- <- <- <-]. split; [congruence|]. intros _.
  split; [reflexivity|]. exists members.
  repeat split; auto using EncodeToString_lower, EncodeToString_length.
Qed.

(** ** The patterns of the manifest helpers *)

Lemma append_assoc (a b c : string) : (a +:+ b) +:+ c = a +:+ (b +:+ c).
Proof.
  induction a as [|x a IH]; [reflexivity|].
  change (String x ((a +:+ b) +:+ c) = String x (a +:+ (b +:+ c))).
  f_equal. exact IH.
Qed.

Lemma append_nil_r (a : string) : a +:+ EmptyString = a.
Proof.
  induction a as [|x a IH]; [reflexivity|].
  change (String x (a +:+ EmptyString) = String x a). f_equal. exact IH.
Qed.

Lemma append_cons c (a b : string) : String c a +:+ b = String c (a +:+ b).
Proof. reflexivity. Qed.

Lemma HasPrefix_split s l :
  Strings.HasPrefix s l = true -> s = l +:+ Strings.drop (String.length l) s.
Proof.
  revert s. induction l as [|c l IH]; intros s H; [destruct s; reflexivity|].
  destruct s as [|a s]; simpl in H; [discriminate|].
  apply andb_true_iff in H as [Hc H]. apply Ascii.eqb_eq in Hc. subst a.
  rewrite append_cons. cbn [String.length Strings.drop]. f_equal. exact (IH s H).
Qed.

(** The matcher is sound: what it matches is a text of the pattern followed
    by an input that the rest of the pattern, the continuation, accepts. *)
Lemma runStar_sound {A} cl s pos (k : string -> nat -> option A) x :
  Regexp.runStar cl s pos k = Some x ->
  exists u s',
    s = u +:+ s' /\ allBytes (Regexp.inClass cl) u = true
    /\ k s' (pos + String.length u) = Some x.
Proof.
  revert pos. induction s as [|a t IH]; intros pos; cbn [Regexp.runStar].
  - intros H. exists EmptyString, EmptyString. rewrite Nat.add_0_r. auto.
  - assert (Hstop : k (String a t) pos = Some x ->
                    exists u s', String a t = u +:+ s'
                                 /\ allBytes (Regexp.inClass cl) u = true
                                 /\ k s' (pos + String.length u) = Some x).
    { intros H. exists EmptyString, (String a t). rewrite Nat.add_0_r. auto. }
    destruct (Regexp.inClass cl a) eqn:Ha; [|exact Hstop].
    destruct (Regexp.runStar cl t (S pos) k) as [y|] eqn:Hr; [|exact Hstop].
    intros [= ->]. destruct (IH _ Hr) as (u & s' & -> & Hu & Hk).
    exists (String a u), s'. simpl. rewrite Ha, Hu.
    replace (pos + S (String.length u)) with (S pos + String.length u) by lia.
    auto.
Qed.

Lemma run_sound {A} r :
  forall s pos caps (k : string -> nat -> gmap nat (nat * nat) -> option A) x,
    Regexp.run r s pos caps k = Some x ->
    exists u s' caps',
      s = u +:+ s' /\ lang r u /\ k s' (pos + String.length u) caps' = Some x.
Proof.
  induction r as [c|l|r1 IH1 r2 IH2|cl|cl|r1 IH1|n r1 IH1];
    intros s pos caps k x; cbn [Regexp.run lang].
  - destruct s as [|a t]; [discriminate|].
    destruct (Ascii.eqb_spec a c) as [->|]; [|discriminate].
    intros H. exists (String c EmptyString), t, caps.
    cbn [String.length]. rewrite Nat.add_1_r. auto.
  - destruct (Strings.HasPrefix s l) eqn:Hp; [|discriminate].
    intros H. exists l, (Strings.drop (String.length l) s), caps.
    split; [apply HasPrefix_split; assumption | auto].
  - intros H. apply IH1 in H as (u1 & s1 & caps1 & -> & Hu1 & H).
    apply IH2 in H as (u2 & s2 & caps2 & -> & Hu2 & H).
    exists (u1 +:+ u2), s2, caps2. rewrite append_assoc, length_app.
    rewrite <- Nat.add_assoc in H. eauto 10.
  - intros H. apply runStar_sound in H as (u & s' & -> & Hu & H). eauto 10.
  - destruct s as [|a t]; [discriminate|].
    destruct (Regexp.inClass cl a) eqn:Ha; [|discriminate].
    intros H. apply runStar_sound in H as (u & s' & -> & Hu & H).
    exists (String a u), s', caps. simpl. rewrite Ha, Hu.
    replace (pos + S (String.length u)) with (S pos + String.length u) by lia.
    repeat split; auto; discriminate.
  - destruct (Regexp.run r1 s pos caps k) as [y|] eqn:Hr.
    + intros [= ->]. apply IH1 in Hr as (u & s' & caps' & -> & Hu & H). eauto 10.
    + intros H. exists EmptyString, s, caps. rewrite Nat.add_0_r. auto.
  - intros H. apply IH1 in H as (u & s' & caps' & -> & Hu & H). eauto 10.
Qed.

Lemma matchAt_sound r s caps :
  Regexp.matchAt r s = Some caps -> exists u s', s = u +:+ s' /\ lang r u.
Proof.
  unfold Regexp.matchAt. intros H.
  apply run_sound in H as (u & s' & caps' & -> & Hu & _). eauto.
Qed.

Lemma CountByte_app a b c :
  Strings.CountByte (a +:+ b) c = Strings.CountByte a c + Strings.CountByte b c.
Proof.
  induction a as [|x a IH]; [reflexivity|].
  rewrite append_cons. cbn [Strings.CountByte]. rewrite IH. lia.
Qed.

Lemma CountByte_ContainsByte s c :
  Strings.CountByte s c = 0 <-> Strings.ContainsByte s c = false.
Proof.
  induction s as [|a r IH]; simpl; [tauto|].
  destruct (Ascii.eqb a c); simpl; [split; [lia|discriminate] | exact IH].
Qed.

Lemma CountByte_class cl w c :
  allBytes (Regexp.inClass cl) w = true -> Regexp.inClass cl c = false ->
  Strings.CountByte w c = 0.
Proof.
  intros Hw Hc. induction w as [|a r IH]; [reflexivity|].
  simpl in Hw. apply andb_true_iff in Hw as [Ha Hr].
  cbn [Strings.CountByte]. rewrite (IH Hr).
  destruct (Ascii.eqb_spec a c) as [->|]; [congruence | reflexivity].
Qed.

(** Two ways to cut a string at a byte that does not occur before the cut
    are the same. *)
Lemma first_byte_unique c g r p t :
  g +:+ String c r = p +:+ String c t ->
  Strings.CountByte g c = 0 -> Strings.CountByte p c = 0 ->
  g = p /\ r = t.
Proof.
  revert p. induction g as [|x g IH]; intros p H Hg Hp.
  - destruct p as [|y p]; [injection H as ->; auto|].
    rewrite append_cons in H. injection H as <- _.
    cbn [Strings.CountByte] in Hp. rewrite Ascii.eqb_refl in Hp. lia.
  - destruct p as [|y p].
    + rewrite append_cons in H. injection H as -> _.
      cbn [Strings.CountByte] in Hg. rewrite Ascii.eqb_refl in Hg. lia.
    + rewrite !append_cons in H. injection H as -> H.
      cbn [Strings.CountByte] in Hg, Hp.
      destruct (IH p H ltac:(lia) ltac:(lia)) as [-> ->]. auto.
Qed.

Ltac lang_split :=
  repeat match goal with
         | H : exists _, _ |- _ => destruct H
         | H : _ /\ _ |- _ => destruct H
         end.

(** The text of a match of the version pattern: group 1 starts with [let],
    holds the name, ends at the first double quote of the text and has,
    besides white space, the bytes of [let], of the name, of the annotation
    if there is one, and the equals sign; then come the value, without
    double quote and not empty, and the closing double quote. *)
Lemma versionPattern_shape name u :
  lang (versionPattern name) u ->
  exists g v o,
    u = g +:+ String quote (v +:+ String quote EmptyString)
    /\ (o = "" \/ o = ":String")
    /\ Strings.HasPrefix g "let" = true
    /\ v <> EmptyString
    /\ Strings.CountByte v quote = 0
    /\ (exists a b, g = a +:+ name +:+ b)
    /\ (forall c, Regexp.inClass Regexp.Space c = false ->
                  Strings.CountByte g c
                  = Strings.CountByte ("let" +:+ name +:+ o +:+ "=") c).
Proof.
  unfold versionPattern. cbn [lang]. intros H. lang_split. subst.
  match goal with
  | H : _ \/ _ |- _ => rename H into Hopt
  end.
  match goal with
  | |- context [("let" +:+ ?w1 +:+ name +:+ ?w2 +:+ ?o +:+ "=" +:+ ?w3 +:+ _)
                +:+ ?v +:+ _] =>
    exists ("let" +:+ w1 +:+ name +:+ w2 +:+ o +:+ "=" +:+ w3), v,
      (match o with EmptyString => "" | _ => ":String" end)
  end.
  split.
  { repeat rewrite ?append_assoc, ?append_cons. reflexivity. }
  split.
  { destruct Hopt as [->|Ho]; [auto|]. lang_split. subst. right. reflexivity. }
  split; [reflexivity|].
  split; [assumption|].
  split.
  { eapply CountByte_class; [eassumption | reflexivity]. }
  split.
  { match goal with
    | |- exists a b, "let" +:+ ?w1 +:+ name +:+ ?r = _ =>
      exists ("let" +:+ w1), r
    end.
    repeat rewrite ?append_assoc, ?append_cons. reflexivity. }
  intros c Hc.
  assert (Hws : forall w, allBytes (Regexp.inClass Regexp.Space) w = true ->
                          Strings.CountByte w c = 0)
    by (intros w Hw; eapply CountByte_class; eassumption).
  destruct Hopt as [->|Ho]; [|lang_split; subst];
    rewrite !CountByte_app;
    repeat match goal with
           | H : allBytes (Regexp.inClass Regexp.Space) ?w = true
             |- context [Strings.CountByte ?w c] => rewrite (Hws w H)
           end;
    rewrite ?append_cons; cbn [Strings.CountByte];
    repeat match goal with
           | |- context [if ?b then _ else _] => destruct b
           end; lia.
Qed.

(** No match of the pattern for [packageVersion] starts before a
    declaration that no double quote precedes: group 1 would have to end at
    the first double quote, that of the declaration, and to hold [let]
    twice. *)
Lemma no_match_before p d tail :
  p <> EmptyString ->
  Strings.CountByte p quote = 0 ->
  Strings.CountByte d quote = 0 ->
  Strings.CountByte d "l" = 1 ->
  Regexp.matchAt (versionPattern "packageVersion")
                 (p +:+ d +:+ String quote tail) = None.
Proof.
  intros Hp Hpq Hdq Hdl.
  destruct (Regexp.matchAt _ _) as [caps|] eqn:Hm; [exfalso|reflexivity].
  apply matchAt_sound in Hm as (u & s' & Heq & Hu).
  apply versionPattern_shape in Hu
    as (g & v & o & -> & Ho & Hlet & _ & _ & _ & Hcount).
  rewrite append_assoc, append_cons, <- (append_assoc p d) in Heq.
  symmetry in Heq. apply first_byte_unique in Heq as [Hg _].
  - subst g.
    pose proof (Hcount "l"%char eq_refl) as Hl.
    assert (Hr : Strings.CountByte ("let" +:+ "packageVersion" +:+ o +:+ "=") "l" = 1)
      by (destruct Ho as [-> | ->]; reflexivity).
    rewrite Hr, CountByte_app, Hdl in Hl.
    destruct p as [|x p]; [congruence|].
    rewrite append_cons in Hlet. cbn [Strings.HasPrefix] in Hlet.
    apply andb_true_iff in Hlet as [Hx _]. apply Ascii.eqb_eq in Hx. subst x.
    cbn [Strings.CountByte] in Hl. change (Ascii.eqb "l" "l") with true in Hl.
    cbv iota in Hl. lia.
  - rewrite (Hcount quote eq_refl). destruct Ho as [->| ->]; reflexivity.
  - rewrite CountByte_app. lia.
Qed.

Lemma noMatchBefore_cons r x p s :
  noMatchBefore r (String x p) s ->
  Regexp.matchAt r (String x (p +:+ s)) = None /\ noMatchBefore r p s.
Proof.
  intros H. split.
  - apply (H EmptyString (String x p)); [reflexivity | discriminate].
  - intros p1 p2 -> Hp2. apply (H (String x p1) p2); [reflexivity | assumption].
Qed.

(** A declaration of [packageVersion] that no double quote precedes is
    where the pattern matches first. *)
Lemma noMatchBefore_quote pre d tail :
  Strings.CountByte pre quote = 0 ->
  Strings.CountByte d quote = 0 ->
  Strings.CountByte d "l" = 1 ->
  noMatchBefore (versionPattern "packageVersion") pre (d +:+ String quote tail).
Proof.
  intros Hpre Hdq Hdl p1 p2 -> Hp2.
  rewrite CountByte_app in Hpre.
  apply no_match_before; [assumption | lia | assumption | assumption].
Qed.

Section Rewrite.

Variable unicodeWord : N -> bool.

Lemma replaceFrom_before r repl pre s :
  noMatchBefore r pre s ->
  Regexp.replaceFrom unicodeWord r repl 0 (pre +:+ s)
  = pre +:+ Regexp.replaceFrom unicodeWord r repl 0 s.
Proof.
  induction pre as [|x p IH]; intros H; [reflexivity|].
  apply noMatchBefore_cons in H as [Hnone H].
  rewrite !append_cons. cbn [Regexp.replaceFrom].
  rewrite Hnone, (IH H). reflexivity.
Qed.

Lemma find_before r pre s :
  noMatchBefore r pre s ->
  Regexp.find r (pre +:+ s) = Regexp.find r s.
Proof.
  induction pre as [|x p IH]; intros H; [reflexivity|].
  apply noMatchBefore_cons in H as [Hnone H].
  rewrite append_cons. cbn [Regexp.find]. rewrite Hnone. exact (IH H).
Qed.

Lemma replaceFrom_skip r repl u s :
  Regexp.replaceFrom unicodeWord r repl (String.length u) (u +:+ s)
  = Regexp.replaceFrom unicodeWord r repl 0 s.
Proof.
  induction u as [|x u IH]; [destruct s; reflexivity|].
  rewrite append_cons. cbn [String.length Regexp.replaceFrom]. exact IH.
Qed.

Lemma replaceFrom_match r repl c t caps i stop :
  Regexp.matchAt r (String c t) = Some caps ->
  caps !! 0 = Some (i, stop) ->
  Regexp.replaceFrom unicodeWord r repl 0 (String c t)
  = Regexp.expandFrom unicodeWord 0 repl (String c t) caps
    +:+ Regexp.replaceFrom unicodeWord r repl (stop - 1) t.
Proof.
  intros Hm H0. cbn [Regexp.replaceFrom]. rewrite Hm, H0. reflexivity.
Qed.

(** At a declaration of [packageVersion] the value is replaced, and the
    search goes on after the closing double quote. *)
Lemma replaceFrom_declaration post :
  Regexp.replaceFrom unicodeWord (versionPattern "packageVersion")
                     (versionTemplate "2.0.0") 0
                     (declaration "" "1.0.0" +:+ post)
  = declaration "" "2.0.0"
    +:+ Regexp.replaceFrom unicodeWord (versionPattern "packageVersion")
                           (versionTemplate "2.0.0") 0 post.
Proof.
  set (u := "et packageVersion = " +:+ String quote ("1.0.0" +:+ String quote "")).
  change (declaration "" "1.0.0" +:+ post) with (String "l" (u +:+ post)).
  assert (Hm : exists caps,
             Regexp.matchAt (versionPattern "packageVersion")
                            (String "l" (u +:+ post)) = Some caps
             /\ caps !! 0 = Some (0, 28)
             /\ Regexp.expandFrom unicodeWord 0 (versionTemplate "2.0.0")
                                  (String "l" (u +:+ post)) caps
                = declaration "" "2.0.0").
  { eexists. split; [vm_compute; reflexivity|].
    split; vm_compute; reflexivity. }
  destruct Hm as (caps & Hm & H0 & He).
  rewrite (replaceFrom_match _ _ _ _ _ _ _ Hm H0), He.
  change (28 - 1) with (String.length u). rewrite replaceFrom_skip. reflexivity.
Qed.

Lemma replaceFrom_annotated_declaration post :
  Regexp.replaceFrom unicodeWord (versionPattern "packageVersion")
                     (versionTemplate "2.0.0") 0
                     (declaration ": String" "1.0.0" +:+ post)
  = declaration ": String" "2.0.0"
    +:+ Regexp.replaceFrom unicodeWord (versionPattern "packageVersion")
                           (versionTemplate "2.0.0") 0 post.
Proof.
  set (u := "et packageVersion: String = "
            +:+ String quote ("1.0.0" +:+ String quote "")).
  change (declaration ": String" "1.0.0" +:+ post) with (String "l" (u +:+ post)).
  assert (Hm : exists caps,
             Regexp.matchAt (versionPattern "packageVersion")
                            (String "l" (u +:+ post)) = Some caps
             /\ caps !! 0 = Some (0, 36)
             /\ Regexp.expandFrom unicodeWord 0 (versionTemplate "2.0.0")
                                  (String "l" (u +:+ post)) caps
                = declaration ": String" "2.0.0").
  { eexists. split; [vm_compute; reflexivity|].
    split; vm_compute; reflexivity. }
  destruct Hm as (caps & Hm & H0 & He).
  rewrite (replaceFrom_match _ _ _ _ _ _ _ Hm H0), He.
  change (36 - 1) with (String.length u). rewrite replaceFrom_skip. reflexivity.
Qed.

Lemma Match_declaration annotation post :
  annotation = "" \/ annotation = ": String" ->
  Regexp.matchAt (versionPattern "packageVersion")
                 (declaration annotation "1.0.0" +:+ post) <> None.
Proof. intros [-> | ->]; vm_compute; discriminate. Qed.

End Rewrite.

Lemma find_Some r s s1 caps :
  Regexp.find r s = Some (s1, caps) ->
  Regexp.matchAt r s1 = Some caps /\ exists pre, s = pre +:+ s1.
Proof.
  induction s as [|c t IH]; cbn [Regexp.find].
  - destruct (Regexp.matchAt r EmptyString) eqn:Hm; [|discriminate].
    intros [= <- <-]. split; [assumption | exists EmptyString; reflexivity].
  - destruct (Regexp.matchAt r (String c t)) eqn:Hm.
    + intros [= <- <-]. split; [assumption | exists EmptyString; reflexivity].
    + intros H. destruct (IH H) as [Hs [pre ->]].
      split; [assumption | exists (String c pre); reflexivity].
Qed.

Lemma find_None_cons r c t :
  Regexp.find r (String c t) = None ->
  Regexp.matchAt r (String c t) = None /\ Regexp.find r t = None.
Proof.
  cbn [Regexp.find]. destruct (Regexp.matchAt r (String c t)); [discriminate|].
  auto.
Qed.

Lemma HasPrefix_append s t : Strings.HasPrefix (s +:+ t) s = true.
Proof. apply HasPrefix_app. exists t. reflexivity. Qed.

Lemma Contains_middle a sub b : Strings.Contains (a +:+ sub +:+ b) sub = true.
Proof.
  induction a as [|x a IH].
  - change (EmptyString +:+ sub +:+ b) with (sub +:+ b).
    destruct (sub +:+ b) eqn:E; cbn [Strings.Contains];
      rewrite <- E, HasPrefix_append; reflexivity.
  - rewrite append_cons. cbn [Strings.Contains]. rewrite IH. apply orb_true_r.
Qed.

Lemma HasPrefix_app_r s t sub :
  Strings.HasPrefix s sub = true -> Strings.HasPrefix (s +:+ t) sub = true.
Proof.
  intros H. apply HasPrefix_app in H as [r ->].
  rewrite append_assoc. apply HasPrefix_append.
Qed.

Lemma Contains_app_r s t sub :
  Strings.Contains s sub = true -> Strings.Contains (s +:+ t) sub = true.
Proof.
  induction s as [|x s IH].
  - cbn [Strings.Contains]. rewrite orb_false_r. intros H.
    change (EmptyString +:+ t) with t.
    assert (Hsub : sub = EmptyString) by (destruct sub; [reflexivity|discriminate]).
    subst sub. destruct t; reflexivity.
  - rewrite append_cons. cbn [Strings.Contains]. intros H.
    apply orb_true_iff in H as [H|H].
    + rewrite <- append_cons, (HasPrefix_app_r _ _ _ H). reflexivity.
    + rewrite (IH H). apply orb_true_r.
Qed.

Lemma Contains_app_l p s sub :
  Strings.Contains s sub = true -> Strings.Contains (p +:+ s) sub = true.
Proof.
  intros H. induction p as [|x p IH]; [exact H|].
  rewrite append_cons. cbn [Strings.Contains]. rewrite IH. apply orb_true_r.
Qed.

(** Without replacement where the pattern does not match. *)
Lemma replaceFrom_no_match unicodeWord r repl s :
  Regexp.find r s = None -> Regexp.replaceFrom unicodeWord r repl 0 s = s.
Proof.
  induction s as [|c t IH]; [reflexivity|].
  intros H. apply find_None_cons in H as [Hm Hf].
  cbn [Regexp.replaceFrom]. rewrite Hm, (IH Hf). reflexivity.
Qed.

(** The version pattern matches only where the name of the constant
    stands. *)
Lemma versionPattern_needs_name name content :
  Strings.Contains content name = false ->
  Regexp.Match (versionPattern name) content = false.
Proof.
  intros Hc. unfold Regexp.Match.
  destruct (Regexp.find (versionPattern name) content) as [[s1 caps]|] eqn:Hf;
    [exfalso|reflexivity].
  apply find_Some in Hf as [Hm [pre ->]].
  apply matchAt_sound in Hm as (u & s' & -> & Hu).
  apply versionPattern_shape in Hu
    as (g & v & o & -> & _ & _ & _ & _ & (a & b & ->) & _).
  rewrite Contains_app_l in Hc; [discriminate|].
  apply Contains_app_r, Contains_app_r, Contains_middle.
Qed.

(** ** [UpdateVersionConstant] *)

Lemma declaration_split annotation value post :
  declaration annotation value +:+ post
  = ("let packageVersion" +:+ annotation +:+ " = ")
    +:+ String quote (value +:+ String quote post).
Proof.
  unfold declaration.
  repeat rewrite ?append_assoc, ?append_cons. reflexivity.
Qed.

Lemma UpdateVersionConstant_declaration unicodeWord env path annotation pre post :
  annotation = "" \/ annotation = ": String" ->
  os_ReadFile env path = inr (pre +:+ declaration annotation "1.0.0" +:+ post) ->
  writeError env path = None ->
  noMatchBefore (versionPattern "packageVersion") pre
                (declaration annotation "1.0.0" +:+ post) ->
  UpdateVersionConstant unicodeWord env path "packageVersion" "2.0.0"
  = (<[path := pre +:+ declaration annotation "2.0.0"
                   +:+ Regexp.ReplaceAll unicodeWord
                         (versionPattern "packageVersion") post
                         (versionTemplate "2.0.0")]> (files env),
     Returned None).
Proof.
  intros Ha Hread Hw Hpre.
  unfold UpdateVersionConstant. rewrite Hread.
  change (compileVersionPattern "packageVersion")
    with (Returned (versionPattern "packageVersion")). cbv iota.
  unfold Regexp.Match, Regexp.ReplaceAll.
  change ("${1}" +:+ "2.0.0" +:+ "${3}") with (versionTemplate "2.0.0").
  rewrite (find_before _ _ _ Hpre), (replaceFrom_before _ _ _ _ _ Hpre).
  pose proof (Match_declaration annotation post Ha) as Hm.
  assert (Hfind : exists x, Regexp.find (versionPattern "packageVersion")
                                        (declaration annotation "1.0.0" +:+ post)
                            = Some x).
  { destruct (Regexp.matchAt _ _) as [caps|] eqn:E; [|congruence].
    assert (Hcons : exists c t, declaration annotation "1.0.0" +:+ post = String c t)
      by (unfold declaration; eexists _, _; reflexivity).
    destruct Hcons as (c & t & Hct). rewrite Hct in E |- *.
    cbn [Regexp.find]. rewrite E. eauto. }
  destruct Hfind as [x ->]. cbn [negb].
  assert (Hrepl : Regexp.replaceFrom unicodeWord (versionPattern "packageVersion")
                    (versionTemplate "2.0.0") 0
                    (declaration annotation "1.0.0" +:+ post)
                  = declaration annotation "2.0.0"
                    +:+ Regexp.replaceFrom unicodeWord
                          (versionPattern "packageVersion")
                          (versionTemplate "2.0.0") 0 post).
  { destruct Ha as [-> | ->];
      [apply replaceFrom_declaration | apply replaceFrom_annotated_declaration]. }
  rewrite Hrepl. unfold os_WriteFile. rewrite Hw. reflexivity.
Qed.

Lemma noMatchBefore_declaration annotation pre post :
  annotation = "" \/ annotation = ": String" ->
  Strings.ContainsByte pre quote = false ->
  noMatchBefore (versionPattern "packageVersion") pre
                (declaration annotation "1.0.0" +:+ post).
Proof.
  intros Ha Hpre. apply CountByte_ContainsByte in Hpre.
  rewrite declaration_split.
  apply noMatchBefore_quote; [assumption|..];
    destruct Ha as [-> | ->]; reflexivity.
Qed.

Lemma UpdateVersionConstant_not_found unicodeWord env path name version content :
  os_ReadFile env path = inr content ->
  validFrom 0 name = true ->
  Regexp.Match (versionPattern name) content = false ->
  UpdateVersionConstant unicodeWord env path name version
  = (files env,
     Returned (Some ("version constant '" +:+ name +:+ "' not found in " +:+ path))).
Proof.
  intros Hread Hvalid Hm. unfold UpdateVersionConstant, compileVersionPattern.
  rewrite Hread, Hvalid, Hm. reflexivity.
Qed.

(** C8, as stated, fails: the content holds the declaration of
    [packageVersion] with the value 1.0.0, but an earlier text that the
    pattern matches runs into it; the call succeeds and the new content does
    not hold the declaration with the value 2.0.0. *)
Lemma UpdateVersionConstant_overlap_counterexample :
  let content :=
      "let  packageVersion=" +:+ String quote (declaration "" "1.0.0") in
  let env := mkEnv {["Package.swift" := content]}
                   (fun _ => None) (fun _ => None) (fun _ => None)
                   (fun _ => None) (fun _ => inl "no network") in
  let result :=
      UpdateVersionConstant (fun _ => false) env "Package.swift"
                            "packageVersion" "2.0.0" in
  Strings.Contains content (declaration "" "1.0.0") = true
  /\ snd result = Returned None
  /\ fst result !! "Package.swift"
     = Some ("let  packageVersion=" +:+ String quote ("2.0.0" +:+ String quote
               ("1.0.0" +:+ String quote "")))
  /\ Strings.Contains (default "" (fst result !! "Package.swift"))
                      (declaration "" "2.0.0") = false.
Proof. vm_compute. repeat split; reflexivity. Qed.

(** C8 (amended): on a content that holds the declaration of
    [packageVersion] with the value 1.0.0, with or without the annotation
    [: String], where no match of the pattern starts before the declaration,
    which is so when no double quote stands before it,
    [UpdateVersionConstant] with the new version 2.0.0 writes the content
    with that value replaced: the same bytes before the declaration, the same
    declaration but for the value, and after it the text with its own matches
    of the pattern rewritten, unchanged when it has none.  When the pattern
    matches nowhere in the content, as when the name of the constant does not
    occur in it, the call returns the not-found error and the files are as
    before. *)
Theorem UpdateVersionConstant_rewrites_value unicodeWord env path :
  (forall annotation pre post,
      annotation = "" \/ annotation = ": String" ->
      os_ReadFile env path = inr (pre +:+ declaration annotation "1.0.0" +:+ post) ->
      writeError env path = None ->
      noMatchBefore (versionPattern "packageVersion") pre
                    (declaration annotation "1.0.0" +:+ post) ->
      UpdateVersionConstant unicodeWord env path "packageVersion" "2.0.0"
      = (<[path := pre +:+ declaration annotation "2.0.0"
                       +:+ Regexp.ReplaceAll unicodeWord
                             (versionPattern "packageVersion") post
                             (versionTemplate "2.0.0")]> (files env),
         Returned None))
  /\ (forall annotation pre post,
         annotation = "" \/ annotation = ": String" ->
         Strings.ContainsByte pre quote = false ->
         noMatchBefore (versionPattern "packageVersion") pre
                       (declaration annotation "1.0.0" +:+ post))
  /\ (forall repl post,
         Regexp.Match (versionPattern "packageVersion") post = false ->
         Regexp.ReplaceAll unicodeWord (versionPattern "packageVersion") post repl
         = post)
  /\ (forall name version content,
         os_ReadFile env path = inr content ->
         validFrom 0 name = true ->
         Regexp.Match (versionPattern name) content = false ->
         UpdateVersionConstant unicodeWord env path name version
         = (files env,
            Returned (Some ("version constant '" +:+ name
                              +:+ "' not found in " +:+ path))))
  /\ (forall name content,
         Strings.Contains content name = false ->
         Regexp.Match (versionPattern name) content = false).
Proof.
  split; [|split; [|split; [|split]]].
  - intros annotation pre post. apply UpdateVersionConstant_declaration.
  - apply noMatchBefore_declaration.
  - intros repl post Hm. apply replaceFrom_no_match.
    unfold Regexp.Match in Hm.
    destruct (Regexp.find _ post); [discriminate | reflexivity].
  - intros name version content. apply UpdateVersionConstant_not_found.
  - apply versionPattern_needs_name.
Qed.

Lemma UpdateVersionConstant_rewrites_value_witness :
  let pre := "// swift-tools-version:5.7
" in
  let post := "

import PackageDescription
let package = Package(name: " +:+ String quote ("Test" +:+ String quote ")") in
  let env := mkEnv {["Package.swift" := pre +:+ declaration "" "1.0.0" +:+ post]}
                   (fun _ => None) (fun _ => None) (fun _ => None)
                   (fun _ => None) (fun _ => inl "no network") in
  UpdateVersionConstant (fun _ => false) env "Package.swift"
                        "packageVersion" "2.0.0"
  = (<["Package.swift" := pre +:+ declaration "" "2.0.0" +:+ post]> (files env),
     Returned None).
Proof.
  intros pre post env.
  pose proof (UpdateVersionConstant_rewrites_value (fun _ => false) env
                "Package.swift") as (Hrewrite & Hquote & Hrest & _).
  rewrite (Hrewrite "" pre post).
  - rewrite (Hrest (versionTemplate "2.0.0") post); [reflexivity|].
    vm_compute. reflexivity.
  - left. reflexivity.
  - reflexivity.
  - reflexivity.
  - apply Hquote; [left; reflexivity | reflexivity].
Defined.

(** ** [ExtractSwiftToolsVersion] *)

Lemma toolsVersionPattern_needs_directive content :
  Strings.Contains content "swift-tools-version:" = false ->
  Regexp.Match toolsVersionPattern content = false.
Proof.
  intros Hc. unfold Regexp.Match.
  destruct (Regexp.find toolsVersionPattern content) as [[s1 caps]|] eqn:Hf;
    [exfalso|reflexivity].
  apply find_Some in Hf as [Hm [pre ->]].
  apply matchAt_sound in Hm as (u & s' & -> & Hu).
  unfold toolsVersionPattern in Hu. cbn [lang] in Hu.
  destruct Hu as (u1 & r1 & -> & -> & w1 & r2 & -> & _ & u3 & r3 & -> & -> & _).
  rewrite <- !append_assoc in Hc.
  rewrite (append_assoc _ "swift-tools-version:"),
    (append_assoc _ ("swift-tools-version:" +:+ r3)) in Hc.
  rewrite (append_assoc "swift-tools-version:") in Hc.
  rewrite Contains_middle in Hc. discriminate.
Qed.

Lemma ExtractSwiftToolsVersion_found env path content :
  os_ReadFile env path = inr content ->
  (Regexp.Match toolsVersionPattern content = true
   <-> snd (ExtractSwiftToolsVersion env path) = None)
  /\ (Regexp.Match toolsVersionPattern content = false ->
      ExtractSwiftToolsVersion env path
      = ("", Some ("swift-tools-version not found in " +:+ path))).
Proof.
  intros Hread. unfold ExtractSwiftToolsVersion, Regexp.Match, Regexp.FindSubmatch.
  rewrite Hread.
  destruct (Regexp.find toolsVersionPattern content) as [[s1 caps]|].
  - cbn. split; [tauto | discriminate].
  - cbn. split; [split; discriminate | reflexivity].
Qed.

Lemma FindSubmatch_leading version rest :
  version = "5.7" \/ version = " 5.9" ->
  versionStops rest = true ->
  Regexp.FindSubmatch toolsVersionPattern 1
                      ("// swift-tools-version:" +:+ version +:+ rest)
  = ["// swift-tools-version:" +:+ version;
     if String.eqb version "5.7" then "5.7" else "5.9"].
Proof.
  intros Hv Hstop. destruct rest as [|c rest].
  - destruct Hv as [-> | ->]; vm_compute; reflexivity.
  - cbn [versionStops] in Hstop. apply andb_true_iff in Hstop as [H1 H2].
    destruct Hv as [-> | ->];
      destruct c as [[] [] [] [] [] [] [] []];
      try discriminate H1; try discriminate H2; vm_compute; reflexivity.
Qed.

(** C9, as stated, fails: the first line of the content is not the
    directive, and [ExtractSwiftToolsVersion] returns the version of the
    directive that stands on the second line instead of the not-found
    error. *)
Lemma ExtractSwiftToolsVersion_not_leading_counterexample :
  ExtractSwiftToolsVersion
    (mkEnv {["Package.swift" := "import PackageDescription
// swift-tools-version:5.7
"]}
           (fun _ => None) (fun _ => None) (fun _ => None)
           (fun _ => None) (fun _ => inl "no network"))
    "Package.swift"
  = ("5.7", None).
Proof. vm_compute. reflexivity. Qed.

(** C9 (amended): on a content that starts with the line
    [// swift-tools-version:5.7], [ExtractSwiftToolsVersion] returns 5.7, and
    on the variant with a space after the colon and the version 5.9 it
    returns 5.9; the line may end with the content or with any byte that is
    neither a digit nor a dot.  The pattern is searched in the whole content,
    not only on the leading line: the call returns a version as soon as the
    pattern matches somewhere, and the not-found error exactly when it
    matches nowhere, as when the text [swift-tools-version:] does not
    occur. *)
Theorem ExtractSwiftToolsVersion_directive env path :
  (forall rest,
      versionStops rest = true ->
      os_ReadFile env path = inr ("// swift-tools-version:5.7" +:+ rest) ->
      ExtractSwiftToolsVersion env path = ("5.7", None))
  /\ (forall rest,
         versionStops rest = true ->
         os_ReadFile env path = inr ("// swift-tools-version: 5.9" +:+ rest) ->
         ExtractSwiftToolsVersion env path = ("5.9", None))
  /\ (forall content,
         os_ReadFile env path = inr content ->
         (Regexp.Match toolsVersionPattern content = true
          <-> snd (ExtractSwiftToolsVersion env path) = None)
         /\ (Regexp.Match toolsVersionPattern content = false ->
             ExtractSwiftToolsVersion env path
             = ("", Some ("swift-tools-version not found in " +:+ path))))
  /\ (forall content,
         Strings.Contains content "swift-tools-version:" = false ->
         Regexp.Match toolsVersionPattern content = false).
Proof.
  split; [|split; [|split]].
  - intros rest Hstop Hread. unfold ExtractSwiftToolsVersion. rewrite Hread.
    change ("// swift-tools-version:5.7" +:+ rest)
      with ("// swift-tools-version:" +:+ "5.7" +:+ rest).
    rewrite (FindSubmatch_leading "5.7" rest); auto.
  - intros rest Hstop Hread. unfold ExtractSwiftToolsVersion. rewrite Hread.
    change ("// swift-tools-version: 5.9" +:+ rest)
      with ("// swift-tools-version:" +:+ " 5.9" +:+ rest).
    rewrite (FindSubmatch_leading " 5.9" rest); auto.
  - intros content. apply ExtractSwiftToolsVersion_found.
  - apply toolsVersionPattern_needs_directive.
Qed.

Lemma ExtractSwiftToolsVersion_directive_witness :
  let env := mkEnv {["Package.swift" := "// swift-tools-version: 5.9
import PackageDescription"]}
                   (fun _ => None) (fun _ => None) (fun _ => None)
                   (fun _ => None) (fun _ => inl "no network") in
  ExtractSwiftToolsVersion env "Package.swift" = ("5.9", None).
Proof.
  intros env.
  apply (proj1 (proj2 (ExtractSwiftToolsVersion_directive env "Package.swift"))
               "
import PackageDescription").
  - reflexivity.
  - reflexivity.
Defined.

Lemma CreateArchive_error_and_checksum_witness :
  let zipBytes := fun members : list ArchiveEntry =>
                    fold_right (fun e acc => EntryName e +:+ ":" +:+ EntryData e +:+ ";" +:+ acc)
                               "end" members in
  let sha256 := fun bytes : string => String.substring 0 4 (bytes +:+ "0000") in
  let faults := mkArchiveFaults "/tmp/swift-package-1.zip" None None None None None in
  let source :=
      Dir "pkg" (inr [Dir ".git" (inr [File "config" 420 (inr "[core]")]);
                      File "Package.swift" 420 (inr "// swift-tools-version:5.7");
                      Dir "Sources" (inr [File "main.swift" 420 (inl "permission denied")])]) in
  let cfg := mkArchiveConfig true [".git"; ".build"; "Tests"; "*.xcodeproj"] in
  CreateArchive zipBytes sha256 ∅ faults source "1.0.0" cfg
  = (∅, ("", "", Some "failed to create archive: permission denied")).
Proof.
  intros zipBytes sha256 faults source cfg.
  destruct (CreateArchive zipBytes sha256 ∅ faults source "1.0.0" cfg)
    as [fs' [[path sum] err]] eqn:E.
  assert (Herr : err = Some "failed to create archive: permission denied")
    by (vm_compute in E; congruence).
  destruct (proj1 (CreateArchive_error_and_checksum zipBytes sha256 ∅ faults source
                     "1.0.0" cfg fs' path sum err (lookup_empty _) E))
    as (-> & -> & ->); [rewrite Herr; discriminate|].
  rewrite Herr. reflexivity.
Defined.

(** * More of the code *)

(** ** More on the exclusion matcher *)

Lemma shouldExclude_app path l1 l2 :
  shouldExclude path (l1 ++ l2) = shouldExclude path l1 || shouldExclude path l2.
Proof. rewrite !shouldExclude_existsb. apply existsb_app. Qed.

(** X1: the result of [shouldExclude] depends on the patterns as a set:
    two lists with the same patterns, in any order and with any repetitions,
    exclude the same paths. *)
Theorem shouldExclude_same_patterns path l1 l2 :
  (forall p, In p l1 <-> In p l2) ->
  shouldExclude path l1 = shouldExclude path l2.
Proof.
  intros H. rewrite !shouldExclude_existsb.
  destruct (existsb (excludedBy path) l1) eqn:E1;
    destruct (existsb (excludedBy path) l2) eqn:E2; try reflexivity.
  - apply existsb_exists in E1 as (p & Hin & Hp).
    assert (existsb (excludedBy path) l2 = true)
      by (apply existsb_exists; exists p; split; [apply H|]; assumption).
    congruence.
  - apply existsb_exists in E2 as (p & Hin & Hp).
    assert (existsb (excludedBy path) l1 = true)
      by (apply existsb_exists; exists p; split; [apply H|]; assumption).
    congruence.
Qed.

Lemma HasSuffix_ContainsByte s c :
  Strings.HasSuffix s (String c EmptyString) = true ->
  Strings.ContainsByte s c = true.
Proof.
  induction s as [|a r IH]; cbn [Strings.HasSuffix Strings.ContainsByte].
  - discriminate.
  - intros H. apply orb_true_iff in H as [H|H].
    + apply String.eqb_eq in H. injection H as -> ->. rewrite Ascii.eqb_refl. reflexivity.
    + rewrite (IH H). apply orb_true_r.
Qed.

Lemma Split_no_sep s sep :
  Strings.ContainsByte s sep = false -> Strings.Split s sep = [s].
Proof.
  induction s as [|a r IH]; [reflexivity|].
  cbn [Strings.ContainsByte Strings.Split]. intros H.
  apply orb_false_iff in H as [Ha Hr]. rewrite Ha, (IH Hr). reflexivity.
Qed.

Lemma Split_nonempty s sep : Strings.Split s sep <> [].
Proof.
  induction s as [|a r IH]; cbn [Strings.Split]; [discriminate|].
  destruct (Ascii.eqb a sep); [discriminate|].
  destruct (Strings.Split r sep); discriminate.
Qed.

Lemma Split_two s sep :
  Strings.ContainsByte s sep = true ->
  exists h h2 t, Strings.Split s sep = h :: h2 :: t.
Proof.
  induction s as [|a r IH]; [discriminate|].
  cbn [Strings.ContainsByte Strings.Split]. intros H.
  destruct (Ascii.eqb a sep) eqn:Ha.
  - destruct (Strings.Split r sep) as [|h t] eqn:Hs;
      [exfalso; exact (Split_nonempty _ _ Hs) | eauto].
  - destruct (IH H) as (h & h2 & t & ->). eauto.
Qed.

Lemma lastElement_no_sep s :
  Strings.ContainsByte s Filepath.Separator = false -> Filepath.lastElement s = s.
Proof.
  destruct s as [|a r]; [reflexivity|].
  cbn [Strings.ContainsByte Filepath.lastElement]. intros H.
  apply orb_false_iff in H as [Ha Hr]. rewrite Hr, Ha. reflexivity.
Qed.

(** [lastElement] is the last of the segments. *)
Lemma lastElement_last s :
  List.last (Strings.Split s Filepath.Separator) EmptyString = Filepath.lastElement s.
Proof.
  induction s as [|a r IH]; [reflexivity|].
  cbn [Filepath.lastElement Strings.Split].
  destruct (Strings.ContainsByte r Filepath.Separator) eqn:Hr.
  - destruct (Split_two _ _ Hr) as (h & h2 & t & Hs). rewrite Hs in IH |- *.
    destruct (Ascii.eqb a Filepath.Separator); exact IH.
  - rewrite (Split_no_sep _ _ Hr).
    destruct (Ascii.eqb a Filepath.Separator); [reflexivity|reflexivity].
Qed.

Lemma last_In {A} (l : list A) d : l <> [] -> In (List.last l d) l.
Proof.
  induction l as [|x l IH]; [congruence|]. intros _.
  destruct l as [|y l]; [left; reflexivity|].
  right. apply IH. discriminate.
Qed.

Lemma lastElement_in_Split s :
  In (Filepath.lastElement s) (Strings.Split s Filepath.Separator).
Proof.
  rewrite <- lastElement_last. apply last_In, Split_nonempty.
Qed.

Lemma strip_empty_Split r :
  Filepath.stripTrailingSeparators r = EmptyString ->
  Strings.Split r Filepath.Separator
  = EmptyString :: repeat EmptyString (String.length r).
Proof.
  induction r as [|a r IH]; [reflexivity|].
  cbn [Filepath.stripTrailingSeparators].
  destruct (Filepath.stripTrailingSeparators r) eqn:Hs; [|discriminate].
  destruct (Ascii.eqb a Filepath.Separator) eqn:Ha; [|discriminate].
  intros _. cbn [Strings.Split String.length repeat]. rewrite Ha, (IH eq_refl).
  reflexivity.
Qed.

(** The trailing separators of a path only add empty segments. *)
Lemma Split_strip p :
  Filepath.stripTrailingSeparators p <> EmptyString ->
  exists k,
    Strings.Split p Filepath.Separator
    = Strings.Split (Filepath.stripTrailingSeparators p) Filepath.Separator
      ++ repeat EmptyString k.
Proof.
  induction p as [|a r IH]; [intros H; exfalso; apply H; reflexivity|].
  cbn [Filepath.stripTrailingSeparators].
  destruct (Filepath.stripTrailingSeparators r) as [|b r'] eqn:Hs.
  - destruct (Ascii.eqb a Filepath.Separator) eqn:Ha; [congruence|]. intros _.
    exists (String.length r). cbn [Strings.Split]. rewrite Ha.
    rewrite (strip_empty_Split r Hs). reflexivity.
  - intros _. destruct (IH ltac:(discriminate)) as [k Hk]. exists k.
    rewrite <- Hs in *. cbn [Strings.Split]. rewrite Hk.
    destruct (Ascii.eqb a Filepath.Separator); [reflexivity|].
    destruct (Strings.Split (Filepath.stripTrailingSeparators r) Filepath.Separator)
      as [|h t] eqn:Hsp;
      [exfalso; exact (Split_nonempty _ _ Hsp) | reflexivity].
Qed.

(** The base name of a path that is not empty is the separator, for a path
    of separators, or one of the segments. *)
Lemma Base_in_Split path :
  path <> EmptyString ->
  Filepath.Base path = String Filepath.Separator EmptyString
  \/ In (Filepath.Base path) (Strings.Split path Filepath.Separator).
Proof.
  intros Hne. destruct path as [|a r]; [congruence|]. unfold Filepath.Base.
  destruct (Filepath.lastElement (Filepath.stripTrailingSeparators (String a r)))
    as [|b l] eqn:Hl; [left; reflexivity|].
  right. rewrite <- Hl.
  assert (Hs : Filepath.stripTrailingSeparators (String a r) <> EmptyString)
    by (intros E; rewrite E in Hl; discriminate).
  destruct (Split_strip _ Hs) as [k ->]. apply in_or_app. left.
  apply lastElement_in_Split.
Qed.

Lemma HasSuffix_unfold s suffix :
  Strings.HasSuffix s suffix
  = String.eqb s suffix
    || match s with
       | EmptyString => false
       | String _ r => Strings.HasSuffix r suffix
       end.
Proof. destruct s; reflexivity. Qed.

Lemma matchChunk_literal lit s :
  literal lit = true ->
  Filepath.matchChunk lit s
  = if Strings.HasPrefix s lit
    then Filepath.ChunkOk (Strings.drop (String.length lit) s)
    else Filepath.ChunkFail.
Proof.
  intros Hl. unfold Filepath.matchChunk.
  apply matchChunkLoop_literal; [assumption | lia].
Qed.

(** The star loop in front of a literal chunk that ends the pattern: it
    finds the chunk at the end of the name. *)
Lemma starLoop_literal lit name :
  literal lit = true ->
  Strings.ContainsByte name Filepath.Separator = false ->
  Filepath.starLoop lit true name
  = if match name with
       | EmptyString => false
       | String _ r => Strings.HasSuffix r lit
       end
    then Filepath.StarFound EmptyString
    else Filepath.StarNone.
Proof.
  intros Hl. induction name as [|c r IH]; intros Hsep; [reflexivity|].
  cbn [Strings.ContainsByte] in Hsep. apply orb_false_iff in Hsep as [Hc Hr].
  cbn [Filepath.starLoop]. rewrite Hc, (matchChunk_literal _ _ Hl).
  rewrite (HasSuffix_unfold r lit), (String.eqb_sym r lit).
  destruct (Strings.HasPrefix r lit) eqn:Hp.
  - rewrite (drop_length_empty _ _ Hp). cbn [andb].
    destruct (String.eqb lit r) eqn:He; cbn [negb orb].
    + apply String.eqb_eq in He. subst r.
      pose proof (drop_length_empty lit lit Hp) as Hd.
      rewrite String.eqb_refl in Hd. apply String.eqb_eq in Hd. rewrite Hd.
      reflexivity.
    + exact (IH Hr).
  - rewrite (HasPrefix_false_neq _ _ Hp). cbn [orb]. exact (IH Hr).
Qed.

Lemma scanChunk_star_literal lit :
  literal lit = true -> lit <> EmptyString ->
  Filepath.scanChunk (String "*" lit) = (true, lit, EmptyString).
Proof.
  intros Hl Hne. destruct lit as [|c r]; [congruence|].
  unfold Filepath.scanChunk. cbn [Filepath.skipStars].
  change (Ascii.eqb "*" "*") with true. cbv iota.
  assert (Hs : Ascii.eqb c "*" = false).
  { simpl in Hl. apply andb_true_iff in Hl as [Hc _].
    apply negb_true_iff, isMeta_false in Hc. tauto. }
  rewrite Hs, (scanBody_literal _ _ Hl). reflexivity.
Qed.

(** A star in front of a literal matches the names, without separator, that
    end with the literal. *)
Lemma Match_star_literal lit name :
  literal lit = true -> lit <> EmptyString ->
  Strings.ContainsByte name Filepath.Separator = false ->
  Filepath.Match (String "*" lit) name = (Strings.HasSuffix name lit, None).
Proof.
  intros Hl Hne Hsep. unfold Filepath.Match.
  cbn -[String.eqb Filepath.scanChunk Filepath.matchChunk Strings.drop
        String.length Filepath.checkRest Filepath.starLoop Strings.HasSuffix].
  rewrite (scanChunk_star_literal _ Hl Hne).
  assert (Hlit : String.eqb lit EmptyString = false)
    by (apply String.eqb_neq; assumption).
  rewrite Hlit.
  cbn -[String.eqb Filepath.scanChunk Filepath.matchChunk Strings.drop
        String.length Filepath.checkRest Filepath.starLoop Strings.HasSuffix].
  change (String.eqb EmptyString EmptyString) with true. cbn [negb].
  rewrite (matchChunk_literal _ _ Hl), (starLoop_literal _ _ Hl Hsep).
  assert (Hfin : forall t, Filepath.matchLoop (String.length (String "*" lit)) EmptyString t
                     = (String.eqb t EmptyString, None)) by (intros t; reflexivity).
  assert (Hck : Filepath.checkRest (String.length (String "*" lit)) EmptyString = None)
    by reflexivity.
  rewrite (HasSuffix_unfold name lit), (String.eqb_sym name lit).
  set (tailEnds := match name with
                   | EmptyString => false
                   | String _ r => Strings.HasSuffix r lit
                   end).
  destruct (Strings.HasPrefix name lit) eqn:Hp.
  - rewrite (drop_length_empty _ _ Hp), orb_false_r.
    destruct (String.eqb lit name) eqn:He;
      [rewrite Hfin, (drop_length_empty _ _ Hp), He|].
    + reflexivity.
    + destruct tailEnds; cbv iota; rewrite ?Hfin, ?Hck; reflexivity.
  - rewrite (HasPrefix_false_neq _ _ Hp).
    destruct tailEnds; cbv iota; rewrite ?Hfin, ?Hck; reflexivity.
Qed.

Lemma Match_star name :
  Filepath.Match "*" name
  = (negb (Strings.ContainsByte name Filepath.Separator), None).
Proof. reflexivity. Qed.

Lemma HasPrefix_sep_false lit r :
  lit <> EmptyString ->
  Strings.ContainsByte lit Filepath.Separator = false ->
  Strings.HasPrefix (String Filepath.Separator r) lit = false.
Proof.
  intros Hne Hs. destruct lit as [|c l]; [congruence|].
  cbn [Strings.ContainsByte] in Hs. apply orb_false_iff in Hs as [Hc _].
  cbn [Strings.HasPrefix]. rewrite Ascii.eqb_sym, Hc. reflexivity.
Qed.

Lemma Match_star_literal_sep lit r :
  literal lit = true -> lit <> EmptyString ->
  Strings.ContainsByte lit Filepath.Separator = false ->
  Filepath.Match (String "*" lit) (String Filepath.Separator r) = (false, None).
Proof.
  intros Hl Hne Hsep. unfold Filepath.Match.
  cbn -[String.eqb Filepath.scanChunk Filepath.matchChunk Strings.drop
        String.length Filepath.checkRest Filepath.starLoop].
  rewrite (scanChunk_star_literal _ Hl Hne).
  assert (Hlit : String.eqb lit EmptyString = false) by (apply String.eqb_neq; assumption).
  rewrite Hlit.
  cbn -[String.eqb Filepath.scanChunk Filepath.matchChunk Strings.drop
        String.length Filepath.checkRest Filepath.starLoop].
  rewrite (matchChunk_literal _ _ Hl), (HasPrefix_sep_false _ r Hne Hsep).
  reflexivity.
Qed.

Lemma HasSuffix_sep_false p :
  Strings.ContainsByte p Filepath.Separator = false ->
  Strings.HasSuffix p "/" = false.
Proof.
  intros H. destruct (Strings.HasSuffix p "/") eqn:E; [|reflexivity].
  apply HasSuffix_ContainsByte in E. unfold Filepath.Separator in H. congruence.
Qed.

Lemma excludedBy_no_dir path pattern :
  Strings.ContainsByte pattern Filepath.Separator = false ->
  excludedBy path pattern
  = String.eqb path pattern
    || existsb (fun part => fst (Filepath.Match pattern part))
               (Strings.Split path Filepath.Separator)
    || fst (Filepath.Match pattern (Filepath.Base path)).
Proof.
  intros H. unfold excludedBy. rewrite (HasSuffix_sep_false _ H). reflexivity.
Qed.

Lemma excludedBy_literal_name lit path :
  literal lit = true ->
  Strings.ContainsByte lit Filepath.Separator = false ->
  path <> EmptyString ->
  excludedBy path lit = true <-> In lit (Strings.Split path Filepath.Separator).
Proof.
  intros Hl Hs Hne. rewrite (excludedBy_no_dir _ _ Hs).
  rewrite !orb_true_iff, existsb_exists, String.eqb_eq, (Match_literal _ _ Hl).
  cbn [fst]. rewrite String.eqb_eq. split.
  - intros [[->|(part & Hin & Hm)]|Hb].
    + rewrite (Split_no_sep _ _ Hs). left. reflexivity.
    + rewrite (Match_literal _ _ Hl) in Hm. cbn [fst] in Hm.
      apply String.eqb_eq in Hm. subst part. assumption.
    + destruct (Base_in_Split path Hne) as [Hb'|Hin].
      * rewrite Hb, Hb' in Hs. discriminate.
      * rewrite Hb. assumption.
  - intros Hin. left. right. exists lit. split; [assumption|].
    rewrite (Match_literal _ _ Hl). cbn [fst]. apply String.eqb_refl.
Qed.

(** X2: when every pattern is a plain name, without metacharacter and
    without separator, a path that is not empty is excluded exactly when one
    of its segments is equal to one of the patterns: a name excludes the
    files and directories of that name at every depth, and nothing else. *)
Theorem shouldExclude_literal_names path patterns :
  Forall (fun p => literal p = true
                   /\ Strings.ContainsByte p Filepath.Separator = false) patterns ->
  path <> EmptyString ->
  shouldExclude path patterns = true
  <-> exists p, In p patterns /\ In p (Strings.Split path Filepath.Separator).
Proof.
  intros Hall Hne. rewrite shouldExclude_existsb, existsb_exists.
  rewrite List.Forall_forall in Hall.
  split; intros (p & Hin & H); exists p; (split; [assumption|]);
    destruct (Hall p Hin) as [Hl Hs];
    apply (excludedBy_literal_name _ _ Hl Hs Hne); assumption.
Qed.

Lemma excludedBy_star_suffix lit path :
  literal lit = true -> lit <> EmptyString ->
  Strings.ContainsByte lit Filepath.Separator = false ->
  path <> EmptyString ->
  excludedBy path (String "*" lit) = true
  <-> exists part, In part (Strings.Split path Filepath.Separator)
                   /\ Strings.HasSuffix part lit = true.
Proof.
  intros Hl Hn Hs Hne.
  assert (Hs' : Strings.ContainsByte (String "*" lit) Filepath.Separator = false)
    by (cbn [Strings.ContainsByte]; rewrite Hs; reflexivity).
  assert (Hpart : forall part,
             In part (Strings.Split path Filepath.Separator) ->
             fst (Filepath.Match (String "*" lit) part) = Strings.HasSuffix part lit).
  { intros part Hin.
    rewrite (Match_star_literal _ _ Hl Hn (Split_no_separator _ _ _ Hin)).
    reflexivity. }
  rewrite (excludedBy_no_dir _ _ Hs').
  rewrite !orb_true_iff, existsb_exists, String.eqb_eq. split.
  - intros [[->|(part & Hin & Hm)]|Hb].
    + exists (String "*" lit). rewrite (Split_no_sep _ _ Hs'). split; [left; reflexivity|].
      rewrite HasSuffix_unfold. apply orb_true_iff. right.
      rewrite HasSuffix_unfold, String.eqb_refl. reflexivity.
    + exists part. split; [assumption|]. rewrite <- (Hpart _ Hin). assumption.
    + destruct (Base_in_Split path Hne) as [Hb'|Hin].
      * rewrite Hb', (Match_star_literal_sep _ _ Hl Hn Hs) in Hb. discriminate.
      * exists (Filepath.Base path). split; [assumption|].
        rewrite <- (Hpart _ Hin). assumption.
  - intros (part & Hin & Hsuf). left. right. exists part. split; [assumption|].
    rewrite (Hpart _ Hin). assumption.
Qed.

(** The pattern [*] excludes every path: a path has a segment, and the
    star matches every segment. *)
Lemma excludedBy_star path : excludedBy path "*" = true.
Proof.
  unfold excludedBy. rewrite !orb_true_iff. left. right.
  apply existsb_exists.
  destruct (Strings.Split path Filepath.Separator) as [|h t] eqn:Hs.
  - destruct (Split_nonempty _ _ Hs).
  - exists h. split; [left; reflexivity|].
    rewrite Match_star, (Split_no_separator path Filepath.Separator h).
    + reflexivity.
    + rewrite Hs. left. reflexivity.
Qed.

(** X3: a pattern made of a star and a plain suffix, such as
    [*.xcodeproj], excludes a path that is not empty exactly when one of its
    segments ends with the suffix. *)
Theorem shouldExclude_star_suffix lit path :
  literal lit = true -> lit <> EmptyString ->
  Strings.ContainsByte lit Filepath.Separator = false ->
  path <> EmptyString ->
  shouldExclude path [String "*" lit] = true
  <-> exists part, In part (Strings.Split path Filepath.Separator)
                   /\ Strings.HasSuffix part lit = true.
Proof.
  intros Hl Hn Hs Hne. rewrite <- (excludedBy_star_suffix _ _ Hl Hn Hs Hne).
  cbn [shouldExclude]. destruct (excludedBy path (String "*" lit)); split; auto.
Qed.

(** X4: with the patterns that [parseConfig] takes by default, a path that
    is not empty is excluded exactly when one of its segments is [.git],
    [.build] or [Tests], or ends with [.xcodeproj]. *)
Theorem shouldExclude_defaults path :
  path <> EmptyString ->
  shouldExclude path defaultExclude = true
  <-> exists part,
      In part (Strings.Split path Filepath.Separator)
      /\ (part = ".git" \/ part = ".build" \/ part = "Tests"
          \/ Strings.HasSuffix part ".xcodeproj" = true).
Proof.
  intros Hne. unfold defaultExclude.
  rewrite shouldExclude_existsb. cbn [existsb]. rewrite !orb_true_iff.
  rewrite (excludedBy_literal_name ".git" path eq_refl eq_refl Hne).
  rewrite (excludedBy_literal_name ".build" path eq_refl eq_refl Hne).
  rewrite (excludedBy_literal_name "Tests" path eq_refl eq_refl Hne).
  rewrite (excludedBy_star_suffix ".xcodeproj" path eq_refl ltac:(discriminate)
                                  eq_refl Hne).
  split.
  - intros [H|[H|[H|[(part & Hin & Hs)|H]]]]; try discriminate; eauto 10.
  - intros (part & Hin & [->|[->|[->|Hs]]]); eauto 10.
Qed.

(** ** The walk is complete *)

Lemma walkFn_grows cfg w rel n err w' res e :
  walkFn cfg w rel n err = (w', res) -> In e w -> In e w'.
Proof.
  unfold walkFn. destruct err; [intros [= <- <-]; auto|].
  destruct (String.eqb rel "."); [intros [= <- <-]; auto|].
  destruct (shouldExclude rel (Exclude cfg)).
  { destruct (IsDir n); intros [= <- <-]; auto. }
  destruct n as [name mode [err|content]|name listing|name err]; simpl;
    intros [= <- <-]; auto.
  intros Hin. apply in_or_app. auto.
Qed.

Lemma walkNames_grows cfg rel names :
  Forall (fun n => forall rel w w' res e,
              walk cfg rel n w = (w', res) -> In e w -> In e w') names ->
  forall w w' res e,
    walkNames (walk cfg) rel names w = (w', res) -> In e w -> In e w'.
Proof.
  induction 1 as [|c rest Hc _ IH]; intros w w' res e; cbn [walkNames].
  { intros [= <- <-]. auto. }
  destruct (walk cfg (relChild rel (nodeName c)) c w) as [w2 r2] eqn:Hwalk.
  intros Hl Hin. pose proof (Hc _ _ _ _ e Hwalk Hin) as Hin2.
  destruct r2 as [[|e2]|].
  - destruct c; [injection Hl as <- <-; assumption | |]; eapply IH; eassumption.
  - injection Hl as <- <-. assumption.
  - eapply IH; eassumption.
Qed.

Lemma walk_grows cfg n :
  forall rel w w' res e,
    walk cfg rel n w = (w', res) -> In e w -> In e w'.
Proof.
  induction n as [name mode content|name err|name names IH|name err]
    using node_induction; intros rel w w' res e; cbn [walk];
    try apply walkFn_grows.
  destruct (walkFn cfg w rel (Dir name (inr names)) None) as [w1 [err1|]] eqn:Hfn.
  { intros [= <- <-]. eapply walkFn_grows; eassumption. }
  intros Hl Hin. eapply (walkNames_grows _ _ _ IH); [eassumption|].
  eapply walkFn_grows; eassumption.
Qed.

Lemma walked_grows cfg w w' trel t :
  (forall e, In e w -> In e w') -> walked cfg w trel t -> walked cfg w' trel t.
Proof.
  intros Hsub. destruct t as [name mode content|name [e|names]|name e]; simpl; auto.
  intros [H|[H|(data & Hc & Hin)]]; auto.
  right. right. exists data. auto.
Qed.

Lemma walkFn_File_no_SkipDir cfg w rel name mode content w' :
  walkFn cfg w rel (File name mode content) None <> (w', Some SkipDir).
Proof.
  unfold walkFn. destruct (String.eqb rel "."); [discriminate|].
  destruct (shouldExclude rel (Exclude cfg)); [simpl; discriminate|].
  destruct content; simpl; discriminate.
Qed.

Lemma walk_complete cfg n :
  forall rel w w' res trel t,
    walk cfg rel n w = (w', res) -> noWalkErr res ->
    reaches cfg rel n trel t -> walked cfg w' trel t.
Proof.
  induction n as [name mode content|name err|name names IH|name err]
    using node_induction; intros rel w w' res trel t; cbn [walk].
  - (* a file *)
    intros Hfn Hok Hr. inversion Hr; subst. simpl.
    unfold walkFn in Hfn. destruct (String.eqb_spec trel ".") as [|Hroot]; [auto|].
    destruct (shouldExclude trel (Exclude cfg)); [auto|].
    right. right. destruct content as [e|data]; simpl in Hfn.
    + injection Hfn as <- <-. destruct (Hok e). reflexivity.
    + injection Hfn as <- <-. exists data. split; [reflexivity|].
      rewrite ReplaceByte_same. apply in_or_app. right. left. reflexivity.
  - (* a directory that cannot be read *)
    intros [= <- <-] Hok. destruct (Hok err). reflexivity.
  - (* a directory *)
    destruct (walkFn cfg w rel (Dir name (inr names)) None) as [w1 [err1|]] eqn:Hfn.
    { intros [= <- <-] Hok Hr. inversion Hr as [|? ? ? child ? ? Hin Hopen Hbelow]; subst;
        [exact I|].
      exfalso. unfold walkFn in Hfn.
      destruct (String.eqb_spec rel ".") as [|Hroot]; [discriminate|].
      destruct Hopen as [Hopen|Hopen]; [congruence|].
      rewrite Hopen in Hfn. discriminate. }
    intros Hl Hok Hr. inversion Hr as [|? ? ? child ? ? Hin Hopen Hbelow]; subst;
      [exact I|].
    clear Hfn Hr Hopen.
    revert w1 Hl. induction names as [|c rest IHrest]; intros w1; [destruct Hin|].
    cbn [walkNames].
    destruct (walk cfg (relChild rel (nodeName c)) c w1) as [w2 r2] eqn:Hwalk.
    apply List.Forall_cons_iff in IH as [IHc IHr].
    assert (Hloop : noWalkErr r2 ->
                    walkNames (walk cfg) rel rest w2 = (w', res) ->
                    walked cfg w' trel t).
    { intros Hok2 Hl. destruct Hin as [->|Hin].
      - apply (walked_grows cfg w2).
        + intros e He. revert He.
          apply (walkNames_grows cfg rel rest) with (2 := Hl).
          apply List.Forall_forall. intros n _. apply walk_grows.
        + eapply IHc; eassumption.
      - apply (IHrest IHr Hin w2 Hl). }
    destruct r2 as [[|e2]|].
    + destruct c as [fname mode content| |].
      * cbn [walk] in Hwalk. destruct (walkFn_File_no_SkipDir _ _ _ _ _ _ _ Hwalk).
      * apply Hloop. intros e. discriminate.
      * apply Hloop. intros e. discriminate.
    + intros [= <- <-]. destruct (Hok e2). reflexivity.
    + apply Hloop. intros e. discriminate.
  - (* a node that Lstat refuses *)
    intros [= <- <-] Hok. destruct (Hok err). reflexivity.
Qed.

Lemma Walk_complete cfg root members trel t :
  Walk cfg root [] = (members, None) ->
  reaches cfg "." root trel t -> walked cfg members trel t.
Proof.
  unfold Walk. destruct (walk cfg "." root []) as [w r] eqn:Hw.
  intros Hm Hr. eapply walked_grows; [|eapply walk_complete; [exact Hw| |exact Hr]].
  - destruct r as [[|e0]|]; congruence.
  - intros e ->. discriminate.
Qed.

Lemma CreateArchive_success zipBytes sha256 fs faults source version cfg fs' path sum :
  CreateArchive zipBytes sha256 fs faults source version cfg
  = (fs', (path, sum, None)) ->
  exists members,
    Walk cfg source [] = (members, None)
    /\ path = tempName faults
    /\ fs' = <[path := zipBytes members]> fs
    /\ sum = EncodeToString (sha256 (zipBytes members)).
Proof.
  unfold CreateArchive.
  destruct (createTempError faults); [discriminate|].
  destruct (Walk cfg source []) as [members [err|]] eqn:Hw; [discriminate|].
  destruct (zipCloseError faults); [discriminate|].
  destruct (seekError faults); [discriminate|].
  destruct (hashCopyError faults); [discriminate|].
  destruct (closeError faults); [discriminate|].
  rewrite lookup_insert_eq. cbn [default]. rewrite insert_insert_eq.
  intros [= <- <- <-]. exists members. auto.
Qed.

(** X6: when [CreateArchive] returns no error, the archive holds exactly
    the files of the tree that the walk reaches and that are not excluded:
    besides holding only such files, it misses none of them. *)
Theorem CreateArchive_members_exact
        zipBytes sha256 fs faults source version cfg fs' path sum :
  CreateArchive zipBytes sha256 fs faults source version cfg
  = (fs', (path, sum, None)) ->
  exists members,
    fs' !! path = Some (zipBytes members)
    /\ forall e, In e members <-> memberOf cfg "." source e.
Proof.
  intros H. destruct (CreateArchive_success _ _ _ _ _ _ _ _ _ _ H)
    as (members & Hw & -> & -> & _).
  exists members. split; [apply lookup_insert_eq|].
  intros e. split; [eapply Walk_members; eassumption|].
  intros (trel & name & Hr & Hn & Hroot & Hex).
  pose proof (Walk_complete _ _ _ _ _ Hw Hr) as Hwd. simpl in Hwd.
  destruct Hwd as [Hwd|[Hwd|(data & [= <-] & Hin)]]; [congruence..|].
  destruct e as [ename emode edata]. simpl in *. subst ename. exact Hin.
Qed.

Lemma unreadable_not_walked cfg w trel t :
  unreadable cfg trel t -> ~ walked cfg w trel t.
Proof.
  destruct t as [name mode [e|data]|name [e|names]|name e]; simpl; try tauto.
  intros [Hroot Hex] [H|[H|(data & Hd & _)]]; congruence.
Qed.

(** X7: a node that the walk reaches and cannot read makes [CreateArchive]
    fail with the error of the walk, the temporary file removed: a node that
    [Lstat] refuses, a directory that cannot be listed (even one that the
    patterns exclude, since the error is looked at before the exclusion), or
    a file that is not excluded and cannot be copied. *)
Theorem CreateArchive_unreadable_aborts
        zipBytes sha256 fs faults source version cfg trel t :
  createTempError faults = None ->
  reaches cfg "." source trel t ->
  unreadable cfg trel t ->
  exists e,
    CreateArchive zipBytes sha256 fs faults source version cfg
    = (delete (tempName faults) (<[tempName faults := EmptyString]> fs),
       ("", "", Some ("failed to create archive: " +:+ e))).
Proof.
  intros Ht Hr Hu. unfold CreateArchive. rewrite Ht.
  destruct (Walk cfg source []) as [members [e|]] eqn:Hw.
  - exists e. reflexivity.
  - destruct (unreadable_not_walked _ members _ _ Hu).
    eapply Walk_complete; eassumption.
Qed.

(** X5: with the pattern [*] among the exclusions the walk adds no member,
    whatever the tree is. *)
Theorem Walk_star_excludes_all cfg root members err :
  In "*" (Exclude cfg) ->
  Walk cfg root [] = (members, err) -> members = [].
Proof.
  intros Hin Hw. destruct members as [|e rest]; [reflexivity|].
  destruct (Walk_members _ _ _ _ e Hw) as (trel & name & _ & _ & _ & Hex);
    [left; reflexivity|].
  rewrite (shouldExclude_In _ "*" _ Hin (excludedBy_star trel)) in Hex.
  discriminate.
Qed.

Lemma walkFn_ext cfg cfg' :
  Exclude cfg = Exclude cfg' ->
  forall w rel n err, walkFn cfg w rel n err = walkFn cfg' w rel n err.
Proof. intros H w rel n err. unfold walkFn. rewrite H. reflexivity. Qed.

Lemma walk_ext cfg cfg' n :
  Exclude cfg = Exclude cfg' ->
  forall rel w, walk cfg rel n w = walk cfg' rel n w.
Proof.
  intros H.
  induction n as [name mode content|name err|name names IH|name err]
    using node_induction; intros rel w; cbn [walk];
    rewrite ?(walkFn_ext _ _ H); try reflexivity.
  destruct (walkFn cfg' w rel (Dir name (inr names)) None) as [w1 [err1|]];
    [reflexivity|].
  clear w. revert w1. induction IH as [|c rest Hc _ IHrest]; intros w1;
    cbn [walkNames]; [reflexivity|].
  rewrite Hc. destruct (walk cfg' (relChild rel (nodeName c)) c w1) as [w2 [[|e]|]];
    try reflexivity; [destruct c; [reflexivity|apply IHrest..] | apply IHrest].
Qed.

(** X8: the archive depends on the exclusion patterns only: the option
    [IncludeDocs] and the version handed to [CreateArchive] change neither
    the files afterwards nor the results. *)
Theorem CreateArchive_depends_on_Exclude_only
        zipBytes sha256 fs faults source version version' cfg cfg' :
  Exclude cfg = Exclude cfg' ->
  CreateArchive zipBytes sha256 fs faults source version cfg
  = CreateArchive zipBytes sha256 fs faults source version' cfg'.
Proof.
  intros H. unfold CreateArchive, Walk. rewrite (walk_ext _ _ _ H). reflexivity.
Qed.

(** *** The matcher and the archive on examples *)

Lemma shouldExclude_same_patterns_witness :
  shouldExclude "Sources/Tests/a.swift" ["Tests"; ".git"; "Tests"]
  = shouldExclude "Sources/Tests/a.swift" [".git"; "Tests"].
Proof.
  apply shouldExclude_same_patterns. intros p. cbn [In]. tauto.
Defined.

Lemma shouldExclude_literal_names_witness :
  shouldExclude "Sources/Tests/a.swift" [".git"; "Tests"] = true
  <-> exists p, In p [".git"; "Tests"]
                /\ In p (Strings.Split "Sources/Tests/a.swift" Filepath.Separator).
Proof.
  apply shouldExclude_literal_names.
  - repeat constructor.
  - discriminate.
Defined.

Lemma shouldExclude_star_suffix_witness :
  shouldExclude "App.xcodeproj/project.pbxproj" ["*.xcodeproj"] = true
  <-> exists part,
      In part (Strings.Split "App.xcodeproj/project.pbxproj" Filepath.Separator)
      /\ Strings.HasSuffix part ".xcodeproj" = true.
Proof.
  apply (shouldExclude_star_suffix ".xcodeproj");
    [reflexivity | discriminate | reflexivity | discriminate].
Defined.

Lemma shouldExclude_defaults_witness :
  shouldExclude "Sources/App/main.swift" defaultExclude = true
  <-> exists part,
      In part (Strings.Split "Sources/App/main.swift" Filepath.Separator)
      /\ (part = ".git" \/ part = ".build" \/ part = "Tests"
          \/ Strings.HasSuffix part ".xcodeproj" = true).
Proof. apply shouldExclude_defaults. discriminate. Defined.

Lemma Walk_star_excludes_all_witness :
  let cfg := mkArchiveConfig true ["*.md"; "*"] in
  let root :=
      Dir "pkg" (inr [File "Package.swift" 420 (inr "// swift-tools-version:5.7");
                      Dir "Sources" (inr [File "main.swift" 420 (inr "print(1)")])]) in
  fst (Walk cfg root []) = [].
Proof.
  intros cfg root.
  apply (Walk_star_excludes_all cfg root _ (snd (Walk cfg root []))).
  - right. left. reflexivity.
  - apply surjective_pairing.
Defined.

Lemma CreateArchive_members_exact_witness :
  let zipBytes := fun members : list ArchiveEntry =>
                    fold_right (fun e acc => EntryName e +:+ ":" +:+ EntryData e
                                               +:+ ";" +:+ acc)
                               "end" members in
  let sha256 := fun bytes : string => String.substring 0 4 (bytes +:+ "0000") in
  let faults := mkArchiveFaults "/tmp/swift-package-1.zip" None None None None None in
  let source :=
      Dir "pkg" (inr [Dir ".git" (inr [File "config" 420 (inr "[core]")]);
                      File "Package.swift" 420 (inr "// swift-tools-version:5.7");
                      Dir "Sources" (inr [File "main.swift" 420 (inr "print(1)")])]) in
  let cfg := mkArchiveConfig true [".git"; ".build"; "Tests"; "*.xcodeproj"] in
  let result := CreateArchive zipBytes sha256 ∅ faults source "1.0.0" cfg in
  exists members,
    fst result !! "/tmp/swift-package-1.zip" = Some (zipBytes members)
    /\ forall e, In e members <-> memberOf cfg "." source e.
Proof.
  intros zipBytes sha256 faults source cfg result.
  apply (CreateArchive_members_exact zipBytes sha256 ∅ faults source "1.0.0" cfg
           (fst result) "/tmp/swift-package-1.zip" (snd (fst (snd result)))).
  vm_compute. reflexivity.
Defined.

Lemma CreateArchive_unreadable_aborts_witness :
  let zipBytes := fun _ : list ArchiveEntry => "PK" in
  let sha256 := fun _ : string => "digest" in
  let faults := mkArchiveFaults "/tmp/swift-package-1.zip" None None None None None in
  let source :=
      Dir "pkg" (inr [File "Package.swift" 420 (inr "// swift-tools-version:5.7");
                      Dir ".build" (inl "permission denied")]) in
  let cfg := mkArchiveConfig true [".git"; ".build"; "Tests"; "*.xcodeproj"] in
  shouldExclude ".build" (Exclude cfg) = true
  /\ exists e,
      CreateArchive zipBytes sha256 ∅ faults source "1.0.0" cfg
      = (delete "/tmp/swift-package-1.zip"
                (<["/tmp/swift-package-1.zip" := EmptyString]> ∅),
         ("", "", Some ("failed to create archive: " +:+ e))).
Proof.
  intros zipBytes sha256 faults source cfg. split; [reflexivity|].
  apply (CreateArchive_unreadable_aborts zipBytes sha256 ∅ faults source "1.0.0" cfg
           ".build" (Dir ".build" (inl "permission denied"))).
  - reflexivity.
  - eapply reaches_below;
      [cbn [In]; right; left; reflexivity | left; reflexivity | apply reaches_here].
  - exact I.
Defined.

Lemma CreateArchive_depends_on_Exclude_only_witness :
  let zipBytes := fun _ : list ArchiveEntry => "PK" in
  let sha256 := fun _ : string => "digest" in
  let faults := mkArchiveFaults "/tmp/swift-package-1.zip" None None None None None in
  let source := Dir "pkg" (inr [File "README.md" 420 (inr "# Lib")]) in
  CreateArchive zipBytes sha256 ∅ faults source "1.0.0" (mkArchiveConfig true [".git"])
  = CreateArchive zipBytes sha256 ∅ faults source "2.0.0" (mkArchiveConfig false [".git"]).
Proof.
  intros zipBytes sha256 faults source.
  apply CreateArchive_depends_on_Exclude_only. reflexivity.
Defined.

Lemma VersionExists_answered env c scope name version req resp :
  fst (VersionExists env c scope name version) = [req] ->
  Do env req = inr resp ->
  snd (VersionExists env c scope name version)
  = if (StatusCode resp =? 404)%Z then (false, None)
    else if (StatusCode resp =? 200)%Z then (true, None)
         else (false, Some ("failed to get release: status "
                              +:+ itoa (StatusCode resp) +:+ ": "
                              +:+ ResponseBody resp)).
Proof.
  unfold VersionExists. intros Hsent Hdo.
  destruct (GetRelease_cases env c scope name version)
    as [[msg H]|(req0 & [(e & He & H)|(resp0 & Hr & H)])];
    rewrite H in Hsent |- *; cbn [fst snd] in *.
  - discriminate.
  - injection Hsent as ->. congruence.
  - assert (req0 = req /\ resp0 = resp) as [-> ->].
    { destruct (StatusCode resp0 =? 404)%Z; [|destruct (StatusCode resp0 =? 200)%Z];
        cbn in Hsent; injection Hsent as ->; split; congruence. }
    destruct (StatusCode resp =? 404)%Z; [reflexivity|].
    destruct (StatusCode resp =? 200)%Z; reflexivity.
Qed.

(** X9: [VersionExists] makes the request of [GetRelease] and nothing more;
    it answers true only when the registry answered 200, and then without
    error; when the registry answers, the result is false without error for
    404, true for 200, and false with the error of [GetRelease] for every
    other status. *)
Theorem VersionExists_true_iff_200 env c scope name version :
  (forall err,
      snd (VersionExists env c scope name version) = (true, err) ->
      err = None
      /\ exists req resp,
          fst (VersionExists env c scope name version) = [req]
          /\ Do env req = inr resp /\ StatusCode resp = 200%Z)
  /\ (forall req resp,
         fst (VersionExists env c scope name version) = [req] ->
         Do env req = inr resp ->
         snd (VersionExists env c scope name version)
         = if (StatusCode resp =? 404)%Z then (false, None)
           else if (StatusCode resp =? 200)%Z then (true, None)
                else (false, Some ("failed to get release: status "
                                     +:+ itoa (StatusCode resp) +:+ ": "
                                     +:+ ResponseBody resp)))
  /\ fst (VersionExists env c scope name version)
     = fst (GetRelease env c scope name version).
Proof.
  split; [|split; [apply VersionExists_answered|]].
  - intros err. unfold VersionExists.
    destruct (GetRelease_cases env c scope name version)
      as [[msg H]|(req0 & [(e & He & H)|(resp0 & Hr & H)])]; rewrite H.
    + discriminate.
    + discriminate.
    + destruct (StatusCode resp0 =? 404)%Z eqn:H404; [discriminate|].
      destruct (StatusCode resp0 =? 200)%Z eqn:H200; [|discriminate].
      intros [= <-]. split; [reflexivity|]. exists req0, resp0.
      repeat split; [assumption|]. apply Z.eqb_eq. assumption.
  - unfold VersionExists.
    destruct (GetRelease env c scope name version) as [sent [release [err|]]];
      reflexivity.
Qed.

Lemma authorized_request env c method url body req k v :
  NewRequestWithContext env method (baseURL c +:+ url) body = inr req ->
  k <> "Authorization" ->
  authorized c (setHeader (setHeader req "Authorization" ("Bearer " +:+ token c)) k v).
Proof.
  intros Hreq Hk. apply NewRequestWithContext_inr in Hreq. subst req.
  split; cbn.
  - apply HasPrefix_append.
  - unfold Header_Set. rewrite lookup_insert_ne by congruence.
    apply lookup_insert_eq.
Qed.

(** X10: a call of the client ([ListReleases], [GetRelease],
    [VersionExists], [GetManifest], [Publish]) sends one request at most, to
    a URL that starts with the base URL of the client, with the header
    [Authorization: Bearer <token>]. *)
Theorem registry_requests_authorized env readError c scope name version archivePath checksum :
  let calls :=
      [fst (ListReleases env c scope name);
       fst (GetRelease env c scope name version);
       fst (VersionExists env c scope name version);
       fst (GetManifest env readError c scope name version);
       fst (Publish env c scope name version archivePath checksum)] in
  forall sent, In sent calls ->
    List.length sent <= 1 /\ forall req, In req sent -> authorized c req.
Proof.
  assert (Hnil : List.length (@nil Request) <= 1
                 /\ forall req, In req (@nil Request) -> authorized c req)
    by (split; [cbn; lia | intros ? []]).
  assert (Hone : forall r, authorized c r ->
                   List.length [r] <= 1 /\ forall req, In req [r] -> authorized c req)
    by (intros r Hr; split; [cbn; lia | intros ? [<-|[]]; exact Hr]).
  assert (Hget : List.length (fst (GetRelease env c scope name version)) <= 1
                 /\ forall req, In req (fst (GetRelease env c scope name version))
                                -> authorized c req).
  { unfold GetRelease. client_step; [exact Hnil|].
    pose proof (authorized_request _ _ _ _ _ _ "Accept"
                  "application/vnd.swift.registry.v1+json" Hreq ltac:(discriminate)).
    client_step; [apply Hone; assumption|].
    destruct (StatusCode r0 =? StatusNotFound)%Z; [apply Hone; assumption|].
    destruct (negb (StatusCode r0 =? StatusOK)%Z); apply Hone; assumption. }
  intros calls sent [<-|[<-|[<-|[<-|[<-|[]]]]]].
  - unfold ListReleases. client_step; [exact Hnil|].
    pose proof (authorized_request _ _ _ _ _ _ "Accept"
                  "application/vnd.swift.registry.v1+json" Hreq ltac:(discriminate)).
    client_step; [apply Hone; assumption|].
    destruct (StatusCode r0 =? StatusNotFound)%Z; [apply Hone; assumption|].
    destruct (negb (StatusCode r0 =? StatusOK)%Z); apply Hone; assumption.
  - exact Hget.
  - unfold VersionExists.
    destruct (GetRelease env c scope name version) as [s [release [err|]]];
      exact Hget.
  - unfold GetManifest. client_step; [exact Hnil|].
    pose proof (authorized_request _ _ _ _ _ _ "Accept" "text/x-swift"
                  Hreq ltac:(discriminate)).
    client_step; [apply Hone; assumption|].
    destruct (negb (StatusCode r0 =? StatusOK)%Z); [apply Hone; assumption|].
    destruct (readError r0); apply Hone; assumption.
  - unfold Publish.
    client_step; [exact Hnil|]. client_step; [exact Hnil|].
    client_step; [exact Hnil|].
    apply NewRequestWithContext_inr in Hreq. subst r.
    match goal with
    | |- context [Do env ?r] => assert (Hr : authorized c r)
    end.
    { split; cbn.
      - apply HasPrefix_append.
      - unfold Header_Set. rewrite !lookup_insert_ne by discriminate.
        apply lookup_insert_eq. }
    client_step; [apply Hone; assumption|].
    destruct (negb (StatusCode r =? StatusCreated)%Z && negb (StatusCode r =? StatusOK)%Z);
      apply Hone; assumption.
Qed.

(** X11: [GetManifest] returns a manifest without error only when the
    registry answered 200 and the body could be read, and the manifest is
    that body; with an error the text is empty; every other status, 404
    included, is an error that carries the status code and the body. *)
Theorem GetManifest_body_only_on_200 env readError c scope name version :
  (forall body,
      snd (GetManifest env readError c scope name version) = (body, None) ->
      exists req resp,
        fst (GetManifest env readError c scope name version) = [req]
        /\ Do env req = inr resp
        /\ StatusCode resp = 200%Z
        /\ readError resp = None
        /\ body = ResponseBody resp)
  /\ (forall body e,
         snd (GetManifest env readError c scope name version) = (body, Some e) ->
         body = "")
  /\ (forall req resp,
         fst (GetManifest env readError c scope name version) = [req] ->
         Do env req = inr resp ->
         StatusCode resp <> 200%Z ->
         snd (GetManifest env readError c scope name version)
         = ("", Some ("failed to get manifest: status "
                        +:+ itoa (StatusCode resp) +:+ ": " +:+ ResponseBody resp))).
Proof.
  unfold GetManifest.
  client_step; [cbn; repeat split; intros; congruence|].
  client_step; [cbn; repeat split; intros; congruence|].
  unfold StatusOK.
  destruct (StatusCode r0 =? 200)%Z eqn:H200; cbn [negb].
  - apply Z.eqb_eq in H200.
    destruct (readError r0) eqn:Hread; cbn [fst snd].
    + split; [intros ? [=]|]. split; [intros ? ? [= <- _]; reflexivity|].
      intros req resp [= <-] Hdo' Hs. congruence.
    + split; [|split].
      * intros body [= <-]. eauto 10.
      * intros ? ? [=].
      * intros req resp [= <-] Hdo' Hs. congruence.
  - cbn [fst snd]. split; [intros ? [=]|]. split; [intros ? ? [= <- _]; reflexivity|].
    intros req resp [= <-] Hdo' _. rewrite Hdo in Hdo'. injection Hdo' as <-.
    reflexivity.
Qed.

(** X12: publishing the archive that [CreateArchive] returned, with the
    checksum that it returned: when the file can be opened and the URL is
    accepted, [Publish] sends one request, whose body is the bytes of the
    archive file, whose [Digest] header is the lower-case hexadecimal SHA-256
    of these very bytes, and whose [ContentLength] is their number, which is
    also what [GetArchiveSize] reports. *)
Theorem CreateArchive_then_Publish
        zipBytes sha256 fs faults source version cfg fs' path sum
        env c scope name :
  CreateArchive zipBytes sha256 fs faults source version cfg
  = (fs', (path, sum, None)) ->
  files env = fs' ->
  openError env path = None ->
  statError env path = None ->
  urlError env (baseURL c +:+ "/" +:+ scope +:+ "/" +:+ name +:+ "/" +:+ version)
  = None ->
  exists req bytes,
    fst (Publish env c scope name version path sum) = [req]
    /\ Body req = Some bytes
    /\ fs' !! path = Some bytes
    /\ Header req !! "Digest"
       = Some ["sha-256=" +:+ EncodeToString (sha256 bytes)]
    /\ ContentLength req = Z.of_nat (String.length bytes)
    /\ fst (GetArchiveSize env path) = ContentLength req.
Proof.
  intros Hc Hf Ho Hs Hu.
  destruct (CreateArchive_success _ _ _ _ _ _ _ _ _ _ Hc)
    as (members & Hw & Hp & Hfs & Hsum).
  assert (Hfile : files env !! path = Some (zipBytes members))
    by (rewrite Hf, Hfs; apply lookup_insert_eq).
  unfold Publish, GetArchiveSize, os_Stat_Size, os_Open, file_Size,
    NewRequestWithContext.
  rewrite Ho, Hs, Hu, Hfile.
  match goal with
  | |- context [Do env ?r] => exists r, (zipBytes members)
  end.
  split.
  { destruct (Do env _) as [e|resp]; [reflexivity|].
    destruct (negb (StatusCode resp =? StatusCreated)%Z
              && negb (StatusCode resp =? StatusOK)%Z); reflexivity. }
  split; [reflexivity|]. split; [rewrite <- Hf; exact Hfile|].
  split; [cbn; unfold Header_Set; rewrite lookup_insert_eq, Hsum; reflexivity|].
  split; reflexivity.
Qed.

(** *** The client on examples *)

Lemma VersionExists_true_iff_200_witness :
  let env := mkEnv ∅ (fun _ => None) (fun _ => None) (fun _ => None) (fun _ => None)
                   (fun _ => inr (mkResponse 409 "conflict")) in
  let c := mkRegistryClient "https://registry.example" "secret" in
  snd (VersionExists env c "acme" "Lib" "1.2.0")
  = (false, Some "failed to get release: status 409: conflict").
Proof.
  intros env c.
  refine (proj1 (proj2 (VersionExists_true_iff_200 env c "acme" "Lib" "1.2.0"))
                _ (mkResponse 409 "conflict") _ _).
  - vm_compute. reflexivity.
  - reflexivity.
Defined.

Lemma registry_requests_authorized_witness :
  let env := mkEnv {["/tmp/swift-package-1.zip" := "PK archive bytes"]}
                   (fun _ => None) (fun _ => None) (fun _ => None) (fun _ => None)
                   (fun _ => inr (mkResponse 201 "")) in
  let c := mkRegistryClient "https://registry.example" "secret" in
  let sent := fst (Publish env c "acme" "Lib" "1.2.0"
                           "/tmp/swift-package-1.zip" "ab12") in
  List.length sent <= 1 /\ forall req, In req sent -> authorized c req.
Proof.
  intros env c sent.
  apply (registry_requests_authorized env (fun _ => None) c "acme" "Lib" "1.2.0"
           "/tmp/swift-package-1.zip" "ab12").
  cbn [In]. right. right. right. right. left. reflexivity.
Defined.

Lemma GetManifest_body_only_on_200_witness :
  let env := mkEnv ∅ (fun _ => None) (fun _ => None) (fun _ => None) (fun _ => None)
                   (fun _ => inr (mkResponse 404 "no such release")) in
  let c := mkRegistryClient "https://registry.example" "secret" in
  snd (GetManifest env (fun _ => None) c "acme" "Lib" "1.2.0")
  = ("", Some "failed to get manifest: status 404: no such release").
Proof.
  intros env c.
  refine (proj2 (proj2 (GetManifest_body_only_on_200 env (fun _ => None) c
                          "acme" "Lib" "1.2.0"))
                _ (mkResponse 404 "no such release") _ _ _).
  - vm_compute. reflexivity.
  - reflexivity.
  - discriminate.
Defined.

Lemma CreateArchive_then_Publish_witness :
  let zipBytes := fun members : list ArchiveEntry =>
                    fold_right (fun e acc => EntryName e +:+ ":" +:+ EntryData e
                                               +:+ ";" +:+ acc)
                               "end" members in
  let sha256 := fun bytes : string => String.substring 0 4 (bytes +:+ "0000") in
  let faults := mkArchiveFaults "/tmp/swift-package-1.zip" None None None None None in
  let source := Dir "pkg" (inr [File "Package.swift" 420 (inr "// swift-tools-version:5.7")]) in
  let cfg := mkArchiveConfig true [".git"] in
  let result := CreateArchive zipBytes sha256 ∅ faults source "1.0.0" cfg in
  let env := mkEnv (fst result) (fun _ => None) (fun _ => None) (fun _ => None)
                   (fun _ => None) (fun _ => inr (mkResponse 201 "")) in
  let c := mkRegistryClient "https://registry.example" "secret" in
  exists req bytes,
    fst (Publish env c "acme" "Lib" "1.0.0" "/tmp/swift-package-1.zip"
                 (snd (fst (snd result)))) = [req]
    /\ Body req = Some bytes
    /\ fst result !! "/tmp/swift-package-1.zip" = Some bytes
    /\ Header req !! "Digest"
       = Some ["sha-256=" +:+ EncodeToString (sha256 bytes)]
    /\ ContentLength req = Z.of_nat (String.length bytes)
    /\ fst (GetArchiveSize env "/tmp/swift-package-1.zip") = ContentLength req.
Proof.
  intros zipBytes sha256 faults source cfg result env c.
  apply (CreateArchive_then_Publish zipBytes sha256 ∅ faults source "1.0.0" cfg
           (fst result) "/tmp/swift-package-1.zip" (snd (fst (snd result)))
           env c "acme" "Lib").
  - vm_compute. reflexivity.
  - reflexivity.
  - reflexivity.
  - reflexivity.
  - reflexivity.
Defined.

(** ** The plugin *)

Section PluginFacts.

Variable TrimSpace : string -> string.
Variable FilepathDir : string -> string.
Variable Unmarshal : string -> error + PackageManifest.
Variable GetString : gmap string any -> string -> string -> string -> string.
Variable GetBool : gmap string any -> string -> bool -> bool.
Variable zipBytes : list ArchiveEntry -> string.
Variable sha256 : string -> string.
Variable unicodeWord : N -> bool.
Variable sys : Sys.

Lemma addCommands_nil w : addCommands w [] = w.
Proof. destruct w. unfold addCommands. cbn. rewrite app_nil_r. reflexivity. Qed.
















(** *** [executePostPublish] *)


(** What [publishAndTag] does to the world: the requests of [Publish], when
    it is called, and the [git tag] command, run when nothing failed
    before. *)
Lemma publishAndTag_world version cfg packageName archivePath checksum w w' res
      reqs err :
  publishAndTag TrimSpace sys version cfg packageName archivePath checksum w
  = (w', res) ->
  Publish (worldEnv w) (NewRegistryClient (Config.Registry cfg) (Config.Token cfg))
          (Config.Scope cfg) packageName version archivePath checksum
  = (reqs, err) ->
  worldEnv w' = worldEnv w
  /\ requests w'
     = requests w ++ (if negb (String.eqb (Config.Registry cfg) "")
                         && negb (Config.DryRun cfg)
                      then reqs else [])
  /\ (exists tagCmds,
         commands w' = commands w ++ tagCmds
         /\ (tagCmds = []
             \/ (tagCmds = [mkCmd "git" ["tag"; Config.TagPrefix cfg +:+ version] ""]
                 /\ Config.DryRun cfg = false
                 /\ Config.CreateTag cfg = true
                 /\ (Config.Registry cfg <> "" -> err = None))))
  /\ exists r, res = Returned (inr r).
Proof.
  intros H Hcall. unfold publishAndTag in H. rewrite Hcall in H.
  assert (Hnone : forall w0 : World,
             exists tagCmds,
               commands w0 = commands w0 ++ tagCmds
               /\ (tagCmds = []
                   \/ (tagCmds = [mkCmd "git" ["tag"; Config.TagPrefix cfg +:+ version] ""]
                       /\ Config.DryRun cfg = false
                       /\ Config.CreateTag cfg = true
                       /\ (Config.Registry cfg <> "" -> err = None))))
    by (intros w0; exists []; rewrite app_nil_r; auto).
  destruct (String.eqb_spec (Config.Registry cfg) "") as [Hreg|Hreg];
    destruct (Config.DryRun cfg) eqn:Hdry; cbn [andb negb] in *.
  - destruct (Config.CreateTag cfg); injection H as <- <-;
      rewrite ?app_nil_r; repeat split; eauto.
  - destruct (Config.CreateTag cfg) eqn:Htag.
    + unfold createGitTag, exec in H. cbn [commands requests worldEnv] in H.
      match type of H with
      | context [CmdErr ?r] => destruct (CmdErr r)
      end; injection H as <- <-; cbn; rewrite ?app_nil_r;
        (split; [reflexivity|]); (split; [reflexivity|]); (split; [|eauto]);
        eexists; (split; [reflexivity|]); right; repeat split; auto; congruence.
    + injection H as <- <-. rewrite ?app_nil_r. repeat split; eauto.
  - destruct (Config.CreateTag cfg); injection H as <- <-;
      rewrite ?app_nil_r; repeat split; eauto.
  - destruct err as [e|].
    + injection H as <- <-. cbn. repeat split; eauto.
    + destruct (Config.CreateTag cfg) eqn:Htag.
      * unfold createGitTag, exec in H. cbn [commands requests worldEnv] in H.
        match type of H with
        | context [CmdErr ?r] => destruct (CmdErr r)
        end; injection H as <- <-; cbn;
          (split; [reflexivity|]); (split; [reflexivity|]); (split; [|eauto]);
          eexists; (split; [reflexivity|]); right; repeat split; auto.
      * injection H as <- <-. cbn. repeat split; eauto.
Qed.

Lemma ParseManifest_world workDir w w1 r :
  ParseManifest TrimSpace Unmarshal sys workDir w = (w1, r) ->
  w1 = addCommands w [mkCmd "swift" ["package"; "dump-package"] workDir].
Proof.
  unfold ParseManifest, exec, addCommands.
  match goal with
  | |- context [CmdErr ?r] => destruct (CmdErr r) as [[]|]
  end; try (intros [= <- _]; reflexivity).
  destruct (Unmarshal _); intros [= <- _]; reflexivity.
Qed.

(** The ways through [executePostPublish], [w1] being the world once the
    name of the package is known. *)
Lemma executePostPublish_cases version cfg w w' res workDir :
  workDirOf FilepathDir sys cfg = inr workDir ->
  executePostPublish TrimSpace FilepathDir Unmarshal zipBytes sha256 sys
                     version cfg w = (w', res) ->
  let w1 :=
      addCommands w (if String.eqb (Config.PackageName cfg) ""
                     then [mkCmd "swift" ["package"; "dump-package"] workDir]
                     else []) in
  (w' = w1 /\ exists msg, res = Returned (inr (mkExecuteResponse false msg)))
  \/ exists packageName,
      (Config.DryRun cfg = true
       /\ publishAndTag TrimSpace sys version cfg packageName
                        "/tmp/dry-run-archive.zip" "dry-run-checksum" w1
          = (w', res))
      \/ (Config.DryRun cfg = false
          /\ exists fs path sum err,
              CreateArchive zipBytes sha256 (files (worldEnv w)) (sysFaults sys)
                            (sysTree sys workDir) version (Config.Archive cfg)
              = (fs, (path, sum, Some err))
              /\ w' = mkWorld (commands w1) (requests w1)
                              (setFiles (worldEnv w) fs)
              /\ exists msg, res = Returned (inr (mkExecuteResponse false msg)))
      \/ (Config.DryRun cfg = false
          /\ exists fs path sum w3,
              CreateArchive zipBytes sha256 (files (worldEnv w)) (sysFaults sys)
                            (sysTree sys workDir) version (Config.Archive cfg)
              = (fs, (path, sum, None))
              /\ publishAndTag TrimSpace sys version cfg packageName path sum
                               (mkWorld (commands w1) (requests w1)
                                        (setFiles (worldEnv w) fs))
                 = (w3, res)
              /\ w' = removeArchive path w3).
Proof.
  intros Hwd H w1. unfold executePostPublish in H. rewrite Hwd in H.
  destruct (if String.eqb (Config.PackageName cfg) "" then _ else _)
    as [w1' [err|packageName]] eqn:Hparse.
  - left. assert (w1' = w1) as ->.
    { subst w1. destruct (String.eqb (Config.PackageName cfg) ""); [|discriminate].
      destruct (ParseManifest _ _ _ _ _) as [w0 [e|m]] eqn:Hp; [|discriminate].
      injection Hparse as <- _. eapply ParseManifest_world; eassumption. }
    injection H as <- <-. eauto.
  - right. exists packageName. assert (w1' = w1) as ->.
    { subst w1. destruct (String.eqb (Config.PackageName cfg) "").
      - destruct (ParseManifest _ _ _ _ _) as [w0 [e|m]] eqn:Hp; [discriminate|].
        injection Hparse as <- _. eapply ParseManifest_world; eassumption.
      - injection Hparse as <- _. symmetry. apply addCommands_nil. }
    change (worldEnv w1) with (worldEnv w) in H.
    destruct (Config.DryRun cfg); [left; auto|]. right.
    destruct (CreateArchive _ _ _ _ _ _ _) as [fs [[path sum] [err|]]].
    + left. split; [reflexivity|]. exists fs, path, sum, err.
      injection H as <- <-. eauto.
    + right. split; [reflexivity|].
      destruct (publishAndTag _ _ _ _ _ _ _ _) as [w3 result] eqn:Hp.
      injection H as <- <-. exists fs, path, sum, w3. auto.
Qed.



(** What [Publish] sends: nothing, or one PUT with the content of the
    archive, its size and the digest it was given. *)
Lemma Publish_sent e c scope name version archivePath checksum reqs err :
  Publish e c scope name version archivePath checksum = (reqs, err) ->
  (reqs = [] /\ err <> None)
  \/ exists req content,
      reqs = [req]
      /\ files e !! archivePath = Some content
      /\ Method req = "PUT"
      /\ Header req !! "Digest" = Some ["sha-256=" +:+ checksum]
      /\ Body req = Some content
      /\ ContentLength req = Z.of_nat (String.length content)
      /\ (err = None ->
          exists resp, Do e req = inr resp
                       /\ (StatusCode resp = 200 \/ StatusCode resp = 201)%Z).
Proof.
  intros H.
  destruct (Publish_cases e c scope name version archivePath checksum)
    as [[msg Hp]|(req & content & Hf & Hm & Hd & Hb & Hl & Hcase)].
  - rewrite Hp in H. injection H as <- <-. left. split; [reflexivity|discriminate].
  - right. exists req, content.
    destruct Hcase as [(e0 & _ & Hp)|(resp & Hr & Hp)];
      rewrite Hp in H; injection H as <- <-; repeat split; try assumption.
    + discriminate.
    + intros Hnone. exists resp. split; [assumption|].
      destruct (StatusCode resp =? 200)%Z eqn:H200;
        [left; apply Z.eqb_eq; assumption|].
      destruct (StatusCode resp =? 201)%Z eqn:H201;
        [right; apply Z.eqb_eq; assumption|discriminate].
Qed.

(** X16: [executePostPublish] sends one request at most, and none in a dry
    run or without registry; the request is a PUT whose body is a byte
    string, whose [Digest] header is the lower-case hexadecimal SHA-256 of
    that body and whose [ContentLength] is its length. *)
Theorem executePostPublish_requests version cfg w w' res :
  executePostPublish TrimSpace FilepathDir Unmarshal zipBytes sha256 sys
                     version cfg w = (w', res) ->
  exists reqs,
    requests w' = requests w ++ reqs
    /\ List.length reqs <= 1
    /\ (Config.DryRun cfg = true \/ Config.Registry cfg = "" -> reqs = [])
    /\ forall req,
        In req reqs ->
        Method req = "PUT"
        /\ exists bytes,
            Body req = Some bytes
            /\ Header req !! "Digest"
               = Some ["sha-256=" +:+ EncodeToString (sha256 bytes)]
            /\ ContentLength req = Z.of_nat (String.length bytes).
Proof.
  intros H.
  assert (Hnil : forall rs : list Request,
             exists reqs, rs = rs ++ reqs /\ List.length reqs <= 1
                          /\ (Config.DryRun cfg = true \/ Config.Registry cfg = ""
                              -> reqs = [])
                          /\ forall req, In req reqs ->
                               Method req = "PUT"
                               /\ exists bytes,
                                   Body req = Some bytes
                                   /\ Header req !! "Digest"
                                      = Some ["sha-256="
                                                +:+ EncodeToString (sha256 bytes)]
                                   /\ ContentLength req
                                      = Z.of_nat (String.length bytes)).
  { intros rs. exists []. rewrite app_nil_r. repeat split; auto.
    - destruct H0.
    - destruct H0. }
  destruct (workDirOf FilepathDir sys cfg) as [e|workDir] eqn:Hwd.
  { unfold executePostPublish in H. rewrite Hwd in H. injection H as <- _.
    apply Hnil. }
  destruct (executePostPublish_cases _ _ _ _ _ _ Hwd H)
    as [[-> _]|(packageName & [[Hdry Hp]|[(_ & fs & path & sum & err & Hc & -> & _)
                                          |(Hdry & fs & path & sum & w3 & Hc & Hp & ->)]])].
  - apply Hnil.
  - destruct (Publish (worldEnv w) (NewRegistryClient (Config.Registry cfg)
                                                      (Config.Token cfg))
                      (Config.Scope cfg) packageName version
                      "/tmp/dry-run-archive.zip" "dry-run-checksum")
      as [reqs err] eqn:Hpub.
    destruct (publishAndTag_world _ _ _ _ _ _ _ _ _ _ Hp Hpub) as (_ & Hr & _).
    rewrite Hdry, andb_false_r, app_nil_r in Hr. cbn [requests addCommands] in Hr.
    rewrite Hr. apply Hnil.
  - apply Hnil.
  - destruct (CreateArchive_success _ _ _ _ _ _ _ _ _ _ Hc)
      as (members & _ & -> & -> & ->).
    match type of Hp with
    | publishAndTag _ _ _ _ _ _ _ ?w2 = _ =>
      destruct (Publish (worldEnv w2)
                        (NewRegistryClient (Config.Registry cfg) (Config.Token cfg))
                        (Config.Scope cfg) packageName version
                        (tempName (sysFaults sys))
                        (EncodeToString (sha256 (zipBytes members))))
        as [reqs err] eqn:Hpub;
        destruct (publishAndTag_world _ _ _ _ _ _ _ _ _ _ Hp Hpub) as (_ & Hr & _)
    end.
    cbn [requests removeArchive addCommands worldEnv] in *.
    rewrite Hdry, andb_true_r in Hr. rewrite Hr.
    destruct (String.eqb_spec (Config.Registry cfg) "") as [Hreg|Hreg];
      cbn [negb]; [rewrite app_nil_r; apply Hnil|].
    destruct (Publish_sent _ _ _ _ _ _ _ _ _ Hpub)
      as [[-> _]|(req & content & -> & Hf & Hm & Hd & Hb & Hl & _)];
      [rewrite app_nil_r; apply Hnil|].
    cbn [files setFiles] in Hf. rewrite lookup_insert_eq in Hf.
    injection Hf as <-.
    exists [req]. split; [reflexivity|]. split; [cbn; lia|].
    split; [intros [Hd'|Hr']; congruence|].
    intros req0 [<-|[]]. split; [assumption|]. eauto.
Qed.

(** X17: [executePostPublish] runs [swift package dump-package] exactly
    when the configuration names no package, and after it [git tag
    <prefix><version>] at most; the tag is made only outside a dry run, with
    [CreateTag] on, and, when a registry is configured, after the registry
    has answered 200 or 201 to the publication. *)
Theorem executePostPublish_tag_after_publish version cfg w w' res workDir :
  workDirOf FilepathDir sys cfg = inr workDir ->
  executePostPublish TrimSpace FilepathDir Unmarshal zipBytes sha256 sys
                     version cfg w = (w', res) ->
  exists tagCmds,
    commands w'
    = commands w
      ++ (if String.eqb (Config.PackageName cfg) ""
          then [mkCmd "swift" ["package"; "dump-package"] workDir] else [])
      ++ tagCmds
    /\ (tagCmds = []
        \/ (tagCmds = [mkCmd "git" ["tag"; Config.TagPrefix cfg +:+ version] ""]
            /\ Config.DryRun cfg = false
            /\ Config.CreateTag cfg = true
            /\ (Config.Registry cfg <> "" ->
                exists req resp,
                  requests w' = requests w ++ [req]
                  /\ Do (worldEnv w) req = inr resp
                  /\ (StatusCode resp = 200 \/ StatusCode resp = 201)%Z))).
Proof.
  intros Hwd H.
  destruct (executePostPublish_cases _ _ _ _ _ _ Hwd H)
    as [[-> _]|(packageName & [[Hdry Hp]|[(_ & fs & path & sum & err & Hc & -> & _)
                                          |(Hdry & fs & path & sum & w3 & Hc & Hp & ->)]])].
  - exists []. rewrite app_nil_r. auto.
  - destruct (Publish (worldEnv w) (NewRegistryClient (Config.Registry cfg)
                                                      (Config.Token cfg))
                      (Config.Scope cfg) packageName version
                      "/tmp/dry-run-archive.zip" "dry-run-checksum")
      as [reqs err] eqn:Hpub.
    destruct (publishAndTag_world _ _ _ _ _ _ _ _ _ _ Hp Hpub)
      as (_ & _ & (tagCmds & Hc & Ht) & _).
    exists tagCmds. cbn [commands addCommands] in Hc. rewrite Hc, <- app_assoc.
    split; [reflexivity|].
    destruct Ht as [->|(_ & Hd & _)]; [auto|congruence].
  - exists []. rewrite app_nil_r. auto.
  - match type of Hp with
    | publishAndTag _ _ _ _ _ _ _ ?w2 = _ =>
      destruct (Publish (worldEnv w2)
                        (NewRegistryClient (Config.Registry cfg) (Config.Token cfg))
                        (Config.Scope cfg) packageName version path sum)
        as [reqs err] eqn:Hpub;
        destruct (publishAndTag_world _ _ _ _ _ _ _ _ _ _ Hp Hpub)
        as (_ & Hr & (tagCmds & Hcm & Ht) & _)
    end.
    exists tagCmds. cbn [commands requests removeArchive addCommands worldEnv] in *.
    rewrite Hcm, <- app_assoc. split; [reflexivity|].
    destruct Ht as [->|(-> & Hd & Htag & Herr)]; [auto|]. right.
    repeat split; try assumption.
    intros Hreg. specialize (Herr Hreg). subst err.
    apply String.eqb_neq in Hreg. rewrite Hr, Hreg, Hdry. cbn [negb andb].
    destruct (Publish_sent _ _ _ _ _ _ _ _ _ Hpub)
      as [[_ Hne]|(req & content & -> & _ & _ & _ & _ & _ & Hans)];
      [congruence|].
    destruct (Hans eq_refl) as (resp & Hdo & Hs). exists req, resp. auto.
Qed.

(** *** [Execute] and [parseConfig] *)



Lemma UpdateVersionConstant_panics e path name version fs :
  UpdateVersionConstant unicodeWord e path name version = (fs, Panicked) ->
  validFrom 0 name = false.
Proof.
  unfold UpdateVersionConstant, os_WriteFile, compileVersionPattern.
  destruct (os_ReadFile e path); [discriminate|].
  destruct (validFrom 0 name); [|reflexivity].
  destruct (negb (Regexp.Match _ _)); [discriminate|].
  destruct (writeError e path); discriminate.
Qed.

Lemma executePrePublish_result version cfg w w' res :
  executePrePublish TrimSpace FilepathDir unicodeWord sys version cfg w = (w', res) ->
  (forall err, res = Returned (inl err) ->
               workDirOf FilepathDir sys cfg = inl err /\ w' = w)
  /\ (res = Panicked -> validFrom 0 (Config.VersionConstant cfg) = false).
Proof.
  unfold executePrePublish, failure.
  destruct (workDirOf FilepathDir sys cfg) as [e|workDir].
  { intros [= <- <-]. split; [intros err [= <-]; auto | discriminate]. }
  destruct (if Config.Validate cfg then _ else _) as [w1 [e|]];
    [intros [= <- <-]; split; [intros ? [=] | discriminate]|].
  destruct (if Config.Build cfg then _ else _) as [w2 [e|]];
    [intros [= <- <-]; split; [intros ? [=] | discriminate]|].
  destruct (if Config.Test cfg then _ else _) as [w3 [e|]];
    [intros [= <- <-]; split; [intros ? [=] | discriminate]|].
  destruct (Config.UpdateManifest cfg
            && negb (String.eqb (Config.VersionConstant cfg) ""));
    [|intros [= <- <-]; split; [intros ? [=] | discriminate]].
  destruct (Config.DryRun cfg);
    [intros [= <- <-]; split; [intros ? [=] | discriminate]|].
  destruct (UpdateVersionConstant _ _ _ _ _) as [fs [[e|]|]] eqn:Hu;
    intros [= <- <-]; (split; [intros ? [=]|]); try discriminate.
  intros _. eapply UpdateVersionConstant_panics; eassumption.
Qed.

(** X19: [Execute] returns an error only when the working directory cannot
    be determined, with nothing done; every other failure comes back as a
    response.  It panics only in the pre-publish hook, on a version constant
    that is not valid UTF-8. *)
Theorem Execute_error_is_Getwd req w w' res :
  Execute TrimSpace FilepathDir Unmarshal GetString GetBool zipBytes sha256
          unicodeWord sys req w = (w', res) ->
  (forall err,
      res = Returned (inl err) ->
      w' = w
      /\ exists e, Getwd sys = inl e
                   /\ err = "failed to get working directory: " +:+ e)
  /\ (res = Panicked ->
      ReqHook req = HookPrePublish
      /\ validFrom 0 (GetString (ReqConfig req) "version_constant" ""
                                "packageVersion") = false).
Proof.
  assert (Hwd : forall cfg err,
             workDirOf FilepathDir sys cfg = inl err ->
             exists e, Getwd sys = inl e
                       /\ err = "failed to get working directory: " +:+ e).
  { intros cfg err. unfold workDirOf.
    destruct (String.eqb _ "."); [|discriminate].
    destruct (Getwd sys) as [e|]; [|discriminate]. intros [= <-]. eauto. }
  unfold Execute. set (cfg := Config.setDryRun _ _).
  destruct (ReqHook req) eqn:Hhook.
  - intros H. apply executePrePublish_result in H as [Herr Hpanic]. split.
    + intros err Hres. destruct (Herr err Hres) as [He ->]. split; [reflexivity|].
      eapply Hwd; eassumption.
    + intros Hres. split; [reflexivity | exact (Hpanic Hres)].
  - intros H.
    destruct (workDirOf FilepathDir sys cfg) as [e|workDir] eqn:Hw.
    { unfold executePostPublish in H. rewrite Hw in H. injection H as <- <-.
      split; [|discriminate]. intros err [= <-]. split; [reflexivity|].
      eapply Hwd; eassumption. }
    assert (Hres : exists r, res = Returned (inr r)).
    { destruct (executePostPublish_cases _ _ _ _ _ _ Hw H)
        as [[_ [msg ->]]
           |(packageName & [[_ Hp]|[(_ & fs & path & sum & err & _ & _ & msg & ->)
                                    |(_ & fs & path & sum & w3 & _ & Hp & _)]])];
        eauto.
      - destruct (Publish (worldEnv w) (NewRegistryClient (Config.Registry cfg)
                                                          (Config.Token cfg))
                          (Config.Scope cfg) packageName (ReqVersion req)
                          "/tmp/dry-run-archive.zip" "dry-run-checksum")
          as [reqs err] eqn:Hpub.
        apply (publishAndTag_world _ _ _ _ _ _ _ _ _ _ Hp Hpub).
      - match type of Hp with
        | publishAndTag _ _ _ _ _ _ _ ?w2 = _ =>
          destruct (Publish (worldEnv w2)
                            (NewRegistryClient (Config.Registry cfg) (Config.Token cfg))
                            (Config.Scope cfg) packageName (ReqVersion req) path sum)
            as [reqs err] eqn:Hpub
        end.
        apply (publishAndTag_world _ _ _ _ _ _ _ _ _ _ Hp Hpub). }
    destruct Hres as [r ->]. split; [intros ? [=] | discriminate].
  - intros [= <- <-]. split; [intros ? [=] | discriminate].
Qed.

Lemma excludeStrings_In l s : In s (excludeStrings l) <-> In (AString s) l.
Proof.
  induction l as [|a l IH]; [reflexivity|].
  destruct a; cbn [excludeStrings In]; rewrite IH;
    try (split; [auto | intros [H|H]; [discriminate | assumption]]).
  split; intros [H|H]; auto; left; congruence.
Qed.

(** X20: the exclude list that [parseConfig] returns is never empty: it
    is the default list, or the strings of the list given under
    [archive.exclude].  The entries that are no strings are dropped, and a
    list without any string gives the defaults. *)
Theorem parseConfig_exclude raw :
  let exclude := Exclude (Config.Archive (parseConfig GetString GetBool raw)) in
  exclude <> []
  /\ (exclude = defaultExclude
      \/ exists m l,
          raw !! "archive" = Some (AMap m)
          /\ m !! "exclude" = Some (ASlice l)
          /\ exclude = excludeStrings l)
  /\ (forall m l,
         raw !! "archive" = Some (AMap m) ->
         m !! "exclude" = Some (ASlice l) ->
         forall s, In s exclude <->
                   if existsb (fun a => match a with AString _ => true | _ => false end) l
                   then In (AString s) l else In s defaultExclude).
Proof.
  assert (Hex : forall l0,
             existsb (fun a => match a with AString _ => true | _ => false end) l0
             = negb (Nat.eqb (List.length (excludeStrings l0)) 0)).
  { intros l0. induction l0 as [|a l0 IH]; [reflexivity|].
    destruct a; cbn [existsb excludeStrings List.length Nat.eqb negb orb];
      auto. }
  cbn [parseConfig Config.Archive Exclude].
  destruct (raw !! "archive") as [a|] eqn:Ha.
  2:{ cbn. split; [discriminate|]. split; [auto|]. intros m l [=]. }
  destruct a as [s|b|l|m|];
    try (cbn; split; [discriminate|]; split; [auto|]; intros m0 l0 [=]).
  destruct (m !! "exclude") as [a|] eqn:He.
  2:{ cbn. split; [discriminate|]. split; [auto|].
      intros m0 l0 [= <-] Hx. congruence. }
  destruct a as [s|b|l|m'|];
    try (cbn; split; [discriminate|]; split; [auto|];
         intros m0 l0 [= <-] Hx; congruence).
  specialize (Hex l).
  destruct (excludeStrings l) as [|p ps] eqn:Hs; cbn [List.length Nat.eqb].
  - split; [discriminate|]. split; [left; reflexivity|].
    intros m0 l0 [= <-] Hx s. rewrite He in Hx. injection Hx as <-.
    rewrite Hex. reflexivity.
  - split; [discriminate|]. split; [right; eauto|].
    intros m0 l0 [= <-] Hx s. rewrite He in Hx. injection Hx as <-.
    rewrite Hex. cbn [List.length Nat.eqb negb].
    rewrite <- excludeStrings_In, Hs. reflexivity.
Qed.

End PluginFacts.

(** *** The plugin on examples *)




Lemma executePostPublish_requests_witness :
  let sys := Demo.sys "none" (inr "/work") in
  let r := executePostPublish Demo.TrimSpace Demo.FilepathDir
                              Demo.Unmarshal Demo.zipBytes Demo.sha256
                              sys "1.2.0" (Demo.cfg false) Demo.world in
  exists reqs,
    requests (fst r) = requests Demo.world ++ reqs
    /\ List.length reqs <= 1
    /\ (Config.DryRun (Demo.cfg false) = true
        \/ Config.Registry (Demo.cfg false) = "" -> reqs = [])
    /\ forall req,
        In req reqs ->
        Method req = "PUT"
        /\ exists bytes,
            Body req = Some bytes
            /\ Header req !! "Digest"
               = Some ["sha-256=" +:+ EncodeToString (Demo.sha256 bytes)]
            /\ ContentLength req = Z.of_nat (String.length bytes).
Proof.
  intros sys r.
  apply (executePostPublish_requests Demo.TrimSpace Demo.FilepathDir
           Demo.Unmarshal Demo.zipBytes Demo.sha256 sys "1.2.0"
           (Demo.cfg false) Demo.world (fst r) (snd r)).
  apply surjective_pairing.
Defined.

Lemma executePostPublish_tag_after_publish_witness :
  let sys := Demo.sys "none" (inr "/work") in
  let cfg := Demo.cfg false in
  let w := Demo.world in
  let r := executePostPublish Demo.TrimSpace Demo.FilepathDir
                              Demo.Unmarshal Demo.zipBytes Demo.sha256
                              sys "1.2.0" cfg w in
  exists tagCmds,
    commands (fst r)
    = commands w
      ++ (if String.eqb (Config.PackageName cfg) ""
          then [mkCmd "swift" ["package"; "dump-package"] "/work"] else [])
      ++ tagCmds
    /\ (tagCmds = []
        \/ (tagCmds = [mkCmd "git" ["tag"; Config.TagPrefix cfg +:+ "1.2.0"] ""]
            /\ Config.DryRun cfg = false
            /\ Config.CreateTag cfg = true
            /\ (Config.Registry cfg <> "" ->
                exists req resp,
                  requests (fst r) = requests w ++ [req]
                  /\ Do (worldEnv w) req = inr resp
                  /\ (StatusCode resp = 200 \/ StatusCode resp = 201)%Z))).
Proof.
  intros sys cfg w r.
  apply (executePostPublish_tag_after_publish Demo.TrimSpace Demo.FilepathDir
           Demo.Unmarshal Demo.zipBytes Demo.sha256 sys "1.2.0" cfg w
           (fst r) (snd r) "/work").
  - reflexivity.
  - apply surjective_pairing.
Defined.


Lemma Execute_error_is_Getwd_witness :
  let sys := Demo.sys "none" (inl "getwd: no such file or directory") in
  let req := mkExecuteRequest HookPrePublish ∅ "1.2.0" false in
  let r := Execute Demo.TrimSpace Demo.FilepathDir Demo.Unmarshal
                   Demo.GetString Demo.GetBool Demo.zipBytes
                   Demo.sha256 Demo.unicodeWord sys req Demo.world in
  fst r = Demo.world
  /\ exists e,
      Getwd sys = inl e
      /\ "failed to get working directory: getwd: no such file or directory"
         = "failed to get working directory: " +:+ e.
Proof.
  intros sys req r.
  apply (proj1 (Execute_error_is_Getwd Demo.TrimSpace Demo.FilepathDir
                  Demo.Unmarshal Demo.GetString Demo.GetBool
                  Demo.zipBytes Demo.sha256 Demo.unicodeWord sys req
                  Demo.world (fst r) (snd r) (surjective_pairing r))).
  vm_compute. reflexivity.
Defined.

Lemma parseConfig_exclude_witness :
  let raw : gmap string any :=
      {["archive" := AMap {["exclude" := ASlice [ABool true; AOther]]}]} in
  In "Tests" (Exclude (Config.Archive
                         (parseConfig Demo.GetString Demo.GetBool raw))).
Proof.
  intros raw.
  apply (proj2 (proj2 (parseConfig_exclude Demo.GetString Demo.GetBool raw))
               {["exclude" := ASlice [ABool true; AOther]]}
               [ABool true; AOther] eq_refl eq_refl "Tests").
  cbn [existsb orb]. right. right. left. reflexivity.
Defined.

(** ** The manifest helpers on any constant and any version *)

Lemma drop_app u s : Strings.drop (String.length u) (u +:+ s) = s.
Proof.
  induction u as [|c u IH]; [destruct s; reflexivity|].
  rewrite append_cons. cbn [String.length Strings.drop]. exact IH.
Qed.

Lemma run_Str {A} l s pos caps (k : string -> nat -> Regexp.captures -> option A) :
  Regexp.run (Regexp.Str l) (l +:+ s) pos caps k = k s (pos + String.length l) caps.
Proof. cbn [Regexp.run]. rewrite HasPrefix_append, drop_app. reflexivity. Qed.

Lemma runStar_stop {A} cl s pos (k : string -> nat -> option A) :
  stopsClass cl s = true -> Regexp.runStar cl s pos k = k s pos.
Proof.
  destruct s as [|a t]; [reflexivity|]. cbn [stopsClass Regexp.runStar].
  intros H. apply negb_true_iff in H. rewrite H. reflexivity.
Qed.

Lemma runStar_greedy {A} cl u s pos (k : string -> nat -> option A) x :
  allBytes (Regexp.inClass cl) u = true ->
  stopsClass cl s = true ->
  k s (pos + String.length u) = Some x ->
  Regexp.runStar cl (u +:+ s) pos k = Some x.
Proof.
  revert pos. induction u as [|a u IH]; intros pos Hu Hs Hk.
  - change (EmptyString +:+ s) with s. rewrite (runStar_stop _ _ _ _ Hs).
    rewrite Nat.add_0_r in Hk. exact Hk.
  - cbn [allBytes] in Hu. apply andb_true_iff in Hu as [Ha Hu].
    rewrite append_cons. cbn [Regexp.runStar]. rewrite Ha.
    rewrite (IH (S pos) Hu Hs); [reflexivity|].
    cbn [String.length] in Hk. rewrite <- Hk. f_equal. lia.
Qed.

Lemma allBytes_Not s c :
  Strings.ContainsByte s c = false ->
  allBytes (Regexp.inClass (Regexp.Not c)) s = true.
Proof.
  induction s as [|a s IH]; [reflexivity|].
  cbn [Strings.ContainsByte allBytes Regexp.inClass]. intros H.
  apply orb_false_iff in H as [Ha Hs]. rewrite Ha, (IH Hs). reflexivity.
Qed.

Lemma first_Some {A} (o alt : option A) x :
  o = Some x -> match o with Some y => Some y | None => alt end = Some x.
Proof. intros ->. reflexivity. Qed.

Lemma matchAt_declarationOf name annotation value post :
  startsName name = true ->
  annotation = "" \/ annotation = ": String" ->
  value <> "" ->
  Strings.ContainsByte value quote = false ->
  Regexp.matchAt (versionPattern name)
                 (declarationOf name annotation value +:+ post)
  = Some (declarationCaps
            (String.length ("let " +:+ name +:+ annotation +:+ " = ") + 1)
            (String.length value)).
Proof.
  intros Hname Ha Hv Hq.
  destruct name as [|n0 name]; [discriminate|]. cbn [startsName] in Hname.
  apply negb_true_iff in Hname.
  destruct value as [|v0 value]; [congruence|].
  cbn [Strings.ContainsByte] in Hq. apply orb_false_iff in Hq as [Hv0 Hq].
  unfold Regexp.matchAt, versionPattern, declarationOf.
  destruct Ha as [-> | ->].
  - replace (("let " +:+ String n0 name +:+ "" +:+ " = "
              +:+ String quote (String v0 value +:+ String quote "")) +:+ post)
      with ("let" +:+ String " " (String n0 name
              +:+ String " " (String "=" (String " " (String quote (String v0
                    (value +:+ String quote post)))))))
      by (repeat rewrite ?append_assoc, ?append_cons; reflexivity).
    cbn [Regexp.run]. rewrite HasPrefix_append, drop_app.
    change (Regexp.inClass Regexp.Space " ") with true. cbv iota.
    rewrite runStar_stop
      by (rewrite append_cons; cbn [stopsClass]; rewrite Hname; reflexivity).
    rewrite HasPrefix_append, drop_app.
    apply (runStar_greedy Regexp.Space " "); [reflexivity..|].
    change (Ascii.eqb "=" ":") with false. change (Ascii.eqb "=" "=") with true.
    cbv iota.
    apply (runStar_greedy Regexp.Space " "); [reflexivity..|].
    change (Ascii.eqb quote quote) with true. cbv iota.
    cbn [Regexp.inClass]. rewrite Hv0. cbn [negb].
    apply (runStar_greedy (Regexp.Not quote) value);
      [apply allBytes_Not; assumption | reflexivity | ].
    change (Ascii.eqb quote quote) with true. cbv iota. unfold declarationCaps.
    rewrite !length_app. cbn [String.length].
    repeat (f_equal; try lia).
  - replace (("let " +:+ String n0 name +:+ ": String" +:+ " = "
              +:+ String quote (String v0 value +:+ String quote "")) +:+ post)
      with ("let" +:+ String " " (String n0 name
              +:+ String ":" (String " " ("String" +:+ String " " (String "="
                    (String " " (String quote (String v0
                       (value +:+ String quote post)))))))))
      by (repeat rewrite ?append_assoc, ?append_cons; reflexivity).
    cbn [Regexp.run]. rewrite HasPrefix_append, drop_app.
    change (Regexp.inClass Regexp.Space " ") with true. cbv iota.
    rewrite runStar_stop
      by (rewrite append_cons; cbn [stopsClass]; rewrite Hname; reflexivity).
    rewrite HasPrefix_append, drop_app.
    rewrite runStar_stop by reflexivity.
    change (Ascii.eqb ":" ":") with true. cbv iota.
    apply first_Some.
    apply (runStar_greedy Regexp.Space " "); [reflexivity..|].
    rewrite HasPrefix_append, drop_app.
    apply (runStar_greedy Regexp.Space " "); [reflexivity..|].
    change (Ascii.eqb "=" "=") with true. cbv iota.
    apply (runStar_greedy Regexp.Space " "); [reflexivity..|].
    change (Ascii.eqb quote quote) with true. cbv iota.
    cbn [Regexp.inClass]. rewrite Hv0. cbn [negb].
    apply (runStar_greedy (Regexp.Not quote) value);
      [apply allBytes_Not; assumption | reflexivity | ].
    change (Ascii.eqb quote quote) with true. cbv iota. unfold declarationCaps.
    rewrite !length_app. cbn [String.length].
    repeat (f_equal; try lia).
Qed.

Section RewriteAny.

Variable unicodeWord : N -> bool.

Lemma expandFrom_group1 rest src caps :
  Regexp.expandFrom unicodeWord 0 ("${1}" +:+ rest) src caps
  = Regexp.group src caps 1 +:+ Regexp.expandFrom unicodeWord 0 rest src caps.
Proof. reflexivity. Qed.

Lemma expandFrom_group3 src caps :
  Regexp.expandFrom unicodeWord 0 "${3}" src caps = Regexp.group src caps 3.
Proof. cbn. apply append_nil_r. Qed.

Lemma expandFrom_literal v rest src caps :
  Strings.ContainsByte v "$" = false ->
  Regexp.expandFrom unicodeWord 0 (v +:+ rest) src caps
  = v +:+ Regexp.expandFrom unicodeWord 0 rest src caps.
Proof.
  induction v as [|a v IH]; [reflexivity|].
  cbn [Strings.ContainsByte]. intros H. apply orb_false_iff in H as [Ha Hv].
  rewrite !append_cons. cbn [Regexp.expandFrom]. rewrite Ha, (IH Hv). reflexivity.
Qed.

Lemma declarationOf_split name annotation value post :
  declarationOf name annotation value +:+ post
  = ("let " +:+ name +:+ annotation +:+ " = " +:+ String quote EmptyString)
    +:+ value +:+ String quote post.
Proof.
  unfold declarationOf. repeat rewrite ?append_assoc, ?append_cons. reflexivity.
Qed.

Lemma declarationCaps_groups src h v :
  Regexp.group src (declarationCaps h v) 1 = Strings.take h src
  /\ Regexp.group src (declarationCaps h v) 3
     = Strings.take 1 (Strings.drop (h + v) src)
  /\ declarationCaps h v !! 0 = Some (0, S (h + v)).
Proof.
  unfold Regexp.group, declarationCaps.
  rewrite lookup_insert_eq.
  rewrite !lookup_insert_ne by discriminate. rewrite lookup_insert_eq.
  rewrite lookup_insert_ne by discriminate. rewrite lookup_insert_eq.
  unfold Regexp.slice. cbn [fst snd Strings.drop].
  rewrite Nat.sub_0_r. replace (S (h + v) - (h + v)) with 1 by lia.
  auto.
Qed.

Lemma replaceFrom_declarationOf name annotation value version post :
  startsName name = true ->
  annotation = "" \/ annotation = ": String" ->
  value <> "" ->
  Strings.ContainsByte value quote = false ->
  Strings.ContainsByte version "$" = false ->
  Regexp.replaceFrom unicodeWord (versionPattern name) (versionTemplate version) 0
                     (declarationOf name annotation value +:+ post)
  = declarationOf name annotation version
    +:+ Regexp.replaceFrom unicodeWord (versionPattern name)
                           (versionTemplate version) 0 post.
Proof.
  intros Hname Ha Hv Hq Hd.
  pose proof (matchAt_declarationOf name annotation value post Hname Ha Hv Hq) as Hm.
  set (head := "let " +:+ name +:+ annotation +:+ " = " +:+ String quote EmptyString).
  set (h := String.length ("let " +:+ name +:+ annotation +:+ " = ") + 1) in *.
  assert (Hh : String.length head = h).
  { subst head h. rewrite !length_app. cbn [String.length]. lia. }
  set (u := "et " +:+ name +:+ annotation +:+ " = " +:+ String quote EmptyString
            +:+ value +:+ String quote EmptyString).
  assert (Hu : String.length u = h + String.length value).
  { subst u h. rewrite !length_app. cbn [String.length]. lia. }
  assert (Hsrc : declarationOf name annotation value +:+ post
                 = String "l" (u +:+ post)).
  { unfold declarationOf. subst u.
    repeat rewrite ?append_assoc, ?append_cons. reflexivity. }
  assert (Hsrc2 : String "l" (u +:+ post)
                  = head +:+ value +:+ String quote post).
  { subst u head. repeat rewrite ?append_assoc, ?append_cons. reflexivity. }
  rewrite Hsrc in Hm |- *.
  destruct (declarationCaps_groups (String "l" (u +:+ post))
                                   h (String.length value)) as (G1 & G3 & G0).
  rewrite (replaceFrom_match unicodeWord _ _ _ _ _ _ _ Hm G0).
  unfold versionTemplate.
  rewrite expandFrom_group1, (expandFrom_literal _ _ _ _ Hd), expandFrom_group3.
  rewrite G1, G3.
  replace (S (h + String.length value) - 1) with (String.length u) by lia.
  rewrite replaceFrom_skip, Hsrc2.
  rewrite <- Hh, take_app.
  replace (String.length head + String.length value)
    with (String.length (head +:+ value))
    by apply length_app.
  rewrite <- (append_assoc head value), drop_app. cbn [Strings.take].
  unfold declarationOf. subst head.
  repeat rewrite ?append_assoc, ?append_cons. reflexivity.
Qed.

Lemma noMatchBefore_no_let name pre t :
  Strings.Contains pre "let" = false ->
  noMatchBefore (versionPattern name) pre (String "l" t).
Proof.
  intros Hc p1 p2 -> Hp2.
  assert (Hp : Strings.HasPrefix (p2 +:+ String "l" t) "let" = false).
  { destruct p2 as [|a [|b [|c p2]]]; [congruence|..];
      rewrite ?append_cons; cbn [Strings.HasPrefix].
    - change (EmptyString +:+ String "l" t) with (String "l" t).
      change (Ascii.eqb "l" "e") with false. apply andb_false_r.
    - change (EmptyString +:+ String "l" t) with (String "l" t).
      change (Ascii.eqb "l" "t") with false. cbn [andb].
      rewrite andb_false_r. apply andb_false_r.
    - destruct (Ascii.eqb_spec a "l") as [->|]; [|reflexivity].
      destruct (Ascii.eqb_spec b "e") as [->|]; [|reflexivity].
      destruct (Ascii.eqb_spec c "t") as [->|]; [|reflexivity].
      exfalso.
      change (String "l" (String "e" (String "t" p2))) with ("let" +:+ p2) in Hc.
      rewrite Contains_middle in Hc. discriminate. }
  unfold Regexp.matchAt, versionPattern. cbn [Regexp.run]. rewrite Hp. reflexivity.
Qed.

Lemma UpdateVersionConstant_declarationOf env path name annotation value version
      pre post :
  validFrom 0 name = true ->
  startsName name = true ->
  annotation = "" \/ annotation = ": String" ->
  value <> "" ->
  Strings.ContainsByte value quote = false ->
  Strings.ContainsByte version "$" = false ->
  os_ReadFile env path
  = inr (pre +:+ declarationOf name annotation value +:+ post) ->
  writeError env path = None ->
  noMatchBefore (versionPattern name) pre
                (declarationOf name annotation value +:+ post) ->
  UpdateVersionConstant unicodeWord env path name version
  = (<[path := pre +:+ declarationOf name annotation version
                   +:+ Regexp.ReplaceAll unicodeWord (versionPattern name) post
                         (versionTemplate version)]> (files env),
     Returned None).
Proof.
  intros Hvalid Hname Ha Hv Hq Hd Hread Hw Hpre.
  unfold UpdateVersionConstant, compileVersionPattern.
  rewrite Hread, Hvalid.
  unfold Regexp.Match, Regexp.ReplaceAll.
  change ("${1}" +:+ version +:+ "${3}") with (versionTemplate version).
  rewrite (find_before _ _ _ Hpre), (replaceFrom_before _ _ _ _ _ Hpre).
  pose proof (matchAt_declarationOf name annotation value post Hname Ha Hv Hq) as Hm.
  assert (Hfind : exists x, Regexp.find (versionPattern name)
                                        (declarationOf name annotation value +:+ post)
                            = Some x).
  { assert (Hcons : exists c t,
               declarationOf name annotation value +:+ post = String c t)
      by (unfold declarationOf; eexists _, _; reflexivity).
    destruct Hcons as (c & t & Hct). rewrite Hct in Hm |- *.
    cbn [Regexp.find]. rewrite Hm. eauto. }
  destruct Hfind as [x ->]. cbn [negb].
  rewrite (replaceFrom_declarationOf _ _ _ _ _ Hname Ha Hv Hq Hd).
  unfold os_WriteFile. rewrite Hw. reflexivity.
Qed.

End RewriteAny.

(** X21: [UpdateVersionConstant] on any constant and any version: when the
    content holds the declaration of the constant, with or without the
    annotation [: String], after a text without [let], the value being not
    empty and without double quote and the new version without dollar sign,
    the call writes the content with the new version in place of the value,
    the rest of the content being rewritten by the same pattern. *)
Theorem UpdateVersionConstant_any_version
        unicodeWord env path name annotation value version pre post :
  validFrom 0 name = true ->
  startsName name = true ->
  annotation = "" \/ annotation = ": String" ->
  value <> "" ->
  Strings.ContainsByte value quote = false ->
  Strings.ContainsByte version "$" = false ->
  Strings.Contains pre "let" = false ->
  os_ReadFile env path
  = inr (pre +:+ declarationOf name annotation value +:+ post) ->
  writeError env path = None ->
  UpdateVersionConstant unicodeWord env path name version
  = (<[path := pre +:+ declarationOf name annotation version
                   +:+ Regexp.ReplaceAll unicodeWord (versionPattern name) post
                         (versionTemplate version)]> (files env),
     Returned None).
Proof.
  intros Hvalid Hname Ha Hv Hq Hd Hpre Hread Hw.
  apply (UpdateVersionConstant_declarationOf unicodeWord env path name annotation
                                            value version pre post);
    try assumption.
  apply noMatchBefore_no_let. exact Hpre.
Qed.

(** X22: setting the version and setting it back restores the manifest:
    on a content with one declaration of the constant, the first call writes
    the content with the new version, and a second call with the old value
    gives back the files of the start. *)
Theorem UpdateVersionConstant_round_trip
        unicodeWord env path name annotation value version pre post :
  validFrom 0 name = true ->
  startsName name = true ->
  annotation = "" \/ annotation = ": String" ->
  value <> "" -> version <> "" ->
  Strings.ContainsByte value quote = false ->
  Strings.ContainsByte version quote = false ->
  Strings.ContainsByte value "$" = false ->
  Strings.ContainsByte version "$" = false ->
  Strings.Contains pre "let" = false ->
  Regexp.Match (versionPattern name) post = false ->
  files env !! path = Some (pre +:+ declarationOf name annotation value +:+ post) ->
  openError env path = None ->
  writeError env path = None ->
  exists fs1,
    UpdateVersionConstant unicodeWord env path name version = (fs1, Returned None)
    /\ fs1 !! path = Some (pre +:+ declarationOf name annotation version +:+ post)
    /\ UpdateVersionConstant unicodeWord (setFiles env fs1) path name value
       = (files env, Returned None).
Proof.
  intros Hvalid Hname Ha Hv1 Hv2 Hq1 Hq2 Hd1 Hd2 Hpre Hpost Hfile Hopen Hw.
  assert (Hrest : forall repl,
             Regexp.ReplaceAll unicodeWord (versionPattern name) post repl = post).
  { intros repl. apply replaceFrom_no_match. unfold Regexp.Match in Hpost.
    destruct (Regexp.find _ post); [discriminate | reflexivity]. }
  eexists. split; [|split].
  - apply (UpdateVersionConstant_declarationOf unicodeWord env path name annotation
             value version pre post); try assumption.
    + unfold os_ReadFile, os_Open. rewrite Hopen, Hfile. reflexivity.
    + apply noMatchBefore_no_let. exact Hpre.
  - rewrite lookup_insert_eq, Hrest. reflexivity.
  - rewrite (UpdateVersionConstant_declarationOf unicodeWord _ path name annotation
               version value pre post); try assumption.
    + cbn [files setFiles]. rewrite insert_insert_eq, Hrest.
      rewrite (insert_id _ _ _ Hfile). reflexivity.
    + unfold os_ReadFile, os_Open. cbn [openError files setFiles].
      rewrite Hopen, lookup_insert_eq, Hrest. reflexivity.
    + apply noMatchBefore_no_let. exact Hpre.
Qed.

(** ** [ExtractSwiftToolsVersion] on any version *)

Lemma digit_not_space d :
  Regexp.inClass Regexp.Digit d = true -> Regexp.inClass Regexp.Space d = false.
Proof.
  destruct d as [[] [] [] [] [] [] [] []]; vm_compute; intros H;
    first [reflexivity | discriminate H].
Qed.

Lemma isNumber_cons s :
  isNumber s = true ->
  exists d r, s = String d r /\ Regexp.inClass Regexp.Digit d = true
              /\ allBytes (Regexp.inClass Regexp.Digit) r = true.
Proof.
  unfold isNumber. destruct s as [|d r]; [discriminate|].
  cbn [String.eqb negb andb allBytes]. intros H.
  apply andb_true_iff in H as [Hd Hr]. eauto.
Qed.

Lemma second_Some {A} (o alt : option A) x :
  o = None -> alt = Some x ->
  match o with Some y => Some y | None => alt end = Some x.
Proof. intros -> ->. reflexivity. Qed.

(** The groups of a match of the tools-version pattern. *)
Lemma matchAt_toolsVersion ws1 ws2 major minor tail rest :
  allBytes (Regexp.inClass Regexp.Space) ws1 = true ->
  allBytes (Regexp.inClass Regexp.Space) ws2 = true ->
  isNumber major = true ->
  isNumber minor = true ->
  (tail = "" /\ patchFollows rest = false
   \/ exists patch, tail = String "." patch /\ isNumber patch = true) ->
  stopsClass Regexp.Digit rest = true ->
  let b := String.length (toolsDirective ws1 ws2) in
  let e := b + String.length (major +:+ String "." minor +:+ tail) in
  Regexp.matchAt toolsVersionPattern
                 (toolsDirective ws1 ws2
                    +:+ (major +:+ String "." minor +:+ tail) +:+ rest)
  = Some (<[0 := (0, e)]> (<[1 := (b, e)]> ∅)).
Proof.
  intros Hw1 Hw2 Hmajor Hminor Htail Hstop b e.
  apply isNumber_cons in Hmajor as (d1 & major' & -> & Hd1 & Hmajor).
  apply isNumber_cons in Hminor as (d2 & minor' & -> & Hd2 & Hminor).
  unfold Regexp.matchAt, toolsVersionPattern.
  replace (toolsDirective ws1 ws2
             +:+ (String d1 major' +:+ String "." (String d2 minor') +:+ tail)
             +:+ rest)
    with ("//" +:+ ws1 +:+ "swift-tools-version:" +:+ ws2
            +:+ String d1 (major' +:+ String "." (String d2
                  (minor' +:+ tail +:+ rest))))
    by (unfold toolsDirective;
        repeat rewrite ?append_assoc, ?append_cons; reflexivity).
  cbn [Regexp.run]. rewrite HasPrefix_append, drop_app.
  apply (runStar_greedy Regexp.Space ws1); [assumption | reflexivity |].
  rewrite HasPrefix_append, drop_app.
  apply (runStar_greedy Regexp.Space ws2);
    [assumption | cbn [stopsClass]; rewrite (digit_not_space _ Hd1); reflexivity |].
  rewrite Hd1.
  apply (runStar_greedy Regexp.Digit major'); [assumption | reflexivity |].
  change (Ascii.eqb "." ".") with true. cbv iota. rewrite Hd2.
  destruct Htail as [[-> Hpatch]|(patch & -> & Hp)].
  - change (EmptyString +:+ rest) with rest.
    apply (runStar_greedy Regexp.Digit minor'); [assumption | assumption |].
    apply second_Some.
    + destruct rest as [|a [|a0 t0]]; [reflexivity|..].
      * destruct (Ascii.eqb a "."); reflexivity.
      * cbn [patchFollows] in Hpatch.
        destruct (Ascii.eqb a "."); [|reflexivity].
        cbn [andb] in Hpatch. rewrite Hpatch. reflexivity.
    + subst e b. unfold toolsDirective.
      repeat (progress (rewrite ?length_app; cbn [String.length])).
      repeat (f_equal; try lia).
  - apply isNumber_cons in Hp as (d3 & patch' & -> & Hd3 & Hpatch).
    replace (minor' +:+ String "." (String d3 patch') +:+ rest)
      with (minor' +:+ String "." (String d3 (patch' +:+ rest)))
      by (repeat rewrite ?append_assoc, ?append_cons; reflexivity).
    apply (runStar_greedy Regexp.Digit minor'); [assumption | reflexivity |].
    change (Ascii.eqb "." ".") with true. cbv iota. rewrite Hd3.
    apply first_Some.
    apply (runStar_greedy Regexp.Digit patch'); [assumption | assumption |].
    subst e b. unfold toolsDirective.
    repeat (progress (rewrite ?length_app; cbn [String.length])).
    repeat (f_equal; try lia).
Qed.

Lemma noMatchBefore_no_slash pre s :
  Strings.ContainsByte pre "/" = false ->
  noMatchBefore toolsVersionPattern pre s.
Proof.
  intros Hc p1 p2 -> Hp2. destruct p2 as [|a p2]; [congruence|].
  rewrite ContainsByte_app in Hc. apply orb_false_iff in Hc as [_ Hc].
  cbn [Strings.ContainsByte] in Hc. apply orb_false_iff in Hc as [Ha _].
  unfold Regexp.matchAt, toolsVersionPattern. cbn [Regexp.run].
  rewrite append_cons. cbn [Strings.HasPrefix]. rewrite Ha. reflexivity.
Qed.

(** X23: [ExtractSwiftToolsVersion] on any version: when the first slash of
    the content starts the directive, with any white space after the slashes
    and after the colon, the call returns the version, [major.minor] or
    [major.minor.patch], whatever the numbers are; a dot that no digit
    follows is not part of the version. *)
Theorem ExtractSwiftToolsVersion_any_version
        env path pre ws1 ws2 major minor tail rest :
  Strings.ContainsByte pre "/" = false ->
  allBytes (Regexp.inClass Regexp.Space) ws1 = true ->
  allBytes (Regexp.inClass Regexp.Space) ws2 = true ->
  isNumber major = true ->
  isNumber minor = true ->
  (tail = "" /\ patchFollows rest = false
   \/ exists patch, tail = String "." patch /\ isNumber patch = true) ->
  stopsClass Regexp.Digit rest = true ->
  os_ReadFile env path
  = inr (pre +:+ toolsDirective ws1 ws2
             +:+ (major +:+ String "." minor +:+ tail) +:+ rest) ->
  ExtractSwiftToolsVersion env path
  = (major +:+ String "." minor +:+ tail, None).
Proof.
  intros Hpre Hw1 Hw2 Hmajor Hminor Htail Hstop Hread.
  pose proof (matchAt_toolsVersion ws1 ws2 major minor tail rest
                Hw1 Hw2 Hmajor Hminor Htail Hstop) as Hm.
  cbv zeta in Hm.
  set (version := major +:+ String "." minor +:+ tail) in *.
  set (b := String.length (toolsDirective ws1 ws2)) in *.
  unfold ExtractSwiftToolsVersion, Regexp.FindSubmatch. rewrite Hread.
  rewrite (find_before _ _ _ (noMatchBefore_no_slash pre _ Hpre)).
  assert (Hcons : exists t,
             toolsDirective ws1 ws2 +:+ version +:+ rest = String "/" t)
    by (unfold toolsDirective; eexists; reflexivity).
  destruct Hcons as [t Ht].
  assert (Hfind : Regexp.find toolsVersionPattern
                              (toolsDirective ws1 ws2 +:+ version +:+ rest)
                  = Some (toolsDirective ws1 ws2 +:+ version +:+ rest,
                          <[0 := (0, b + String.length version)]>
                            (<[1 := (b, b + String.length version)]> ∅))).
  { rewrite Ht in Hm |- *. cbn [Regexp.find]. rewrite Hm. reflexivity. }
  rewrite Hfind. cbn [seq map List.length Nat.ltb Nat.leb nth].
  f_equal. unfold Regexp.group.
  rewrite lookup_insert_ne by discriminate. rewrite lookup_insert_eq.
  unfold Regexp.slice. cbn [fst snd].
  replace (b + String.length version - b) with (String.length version) by lia.
  subst b. rewrite drop_app. apply take_app.
Qed.

(** *** The manifest helpers on examples *)

Lemma UpdateVersionConstant_any_version_witness :
  let pre := "// swift-tools-version:5.9
import PackageDescription

" in
  let post := "
" in
  let env := mkEnv {["Package.swift" :=
                       pre +:+ declarationOf "appVersion" ": String" "0.9.1" +:+ post]}
                   (fun _ => None) (fun _ => None) (fun _ => None)
                   (fun _ => None) (fun _ => inl "no network") in
  UpdateVersionConstant (fun _ => false) env "Package.swift" "appVersion"
                        "1.4.0-beta.2"
  = (<["Package.swift" :=
         pre +:+ declarationOf "appVersion" ": String" "1.4.0-beta.2"
             +:+ Regexp.ReplaceAll (fun _ => false) (versionPattern "appVersion")
                   post (versionTemplate "1.4.0-beta.2")]> (files env),
     Returned None).
Proof.
  intros pre post env.
  apply (UpdateVersionConstant_any_version (fun _ => false) env "Package.swift"
           "appVersion" ": String" "0.9.1" "1.4.0-beta.2" pre post).
  - reflexivity.
  - reflexivity.
  - right. reflexivity.
  - discriminate.
  - reflexivity.
  - reflexivity.
  - reflexivity.
  - reflexivity.
  - reflexivity.
Defined.

Lemma UpdateVersionConstant_round_trip_witness :
  let pre := "// swift-tools-version:5.9
" in
  let post := "
import PackageDescription
" in
  let env := mkEnv {["Package.swift" :=
                       pre +:+ declarationOf "packageVersion" "" "1.0.0" +:+ post]}
                   (fun _ => None) (fun _ => None) (fun _ => None)
                   (fun _ => None) (fun _ => inl "no network") in
  exists fs1,
    UpdateVersionConstant (fun _ => false) env "Package.swift" "packageVersion"
                          "2.0.0"
    = (fs1, Returned None)
    /\ fs1 !! "Package.swift"
       = Some (pre +:+ declarationOf "packageVersion" "" "2.0.0" +:+ post)
    /\ UpdateVersionConstant (fun _ => false) (setFiles env fs1) "Package.swift"
                             "packageVersion" "1.0.0"
       = (files env, Returned None).
Proof.
  intros pre post env.
  apply (UpdateVersionConstant_round_trip (fun _ => false) env "Package.swift"
           "packageVersion" "" "1.0.0" "2.0.0" pre post).
  - reflexivity.
  - reflexivity.
  - left. reflexivity.
  - discriminate.
  - discriminate.
  - reflexivity.
  - reflexivity.
  - reflexivity.
  - reflexivity.
  - reflexivity.
  - vm_compute. reflexivity.
  - reflexivity.
  - reflexivity.
  - reflexivity.
Defined.

Lemma ExtractSwiftToolsVersion_any_version_witness :
  let env := mkEnv {["Package.swift" := "
//  swift-tools-version: 5.10.1.
import PackageDescription"]}
                   (fun _ => None) (fun _ => None) (fun _ => None)
                   (fun _ => None) (fun _ => inl "no network") in
  ExtractSwiftToolsVersion env "Package.swift" = ("5.10.1", None).
Proof.
  intros env.
  apply (ExtractSwiftToolsVersion_any_version env "Package.swift" "
" "  " " " "5" "10" ".1" ".
import PackageDescription").
  - reflexivity.
  - reflexivity.
  - reflexivity.
  - reflexivity.
  - reflexivity.
  - right. exists "1". split; reflexivity.
  - reflexivity.
  - reflexivity.
Defined.
